(** * Segr: the pipeline graph of [engine/schemas/data_broker.py]

    A shallow embedding of [DataNode] and [DataTransformerBroker]: the lazy
    node graph, the deduplicating optimizer pass, the incremental update
    path and the time-versioned model snapshots.

    Python objects live in an object store: a [DataNode] is a handle into
    the list [heap], a [DataTransformerBroker] a handle into [brokers], and
    the class-level dictionaries [nodes] and [optimized] are finite maps
    keyed by the ticker sign.  Methods are state transformers over the
    store; an exception is an outcome of its own that carries the store as
    it was when the exception was raised, since Python does not roll back. *)

From stdpp Require Import gmap strings list fin_maps sorting.
From Stdlib Require Import ZArith Lia.

Open Scope string_scope.
Open Scope list_scope.
Open Scope Z_scope.

(** ** Time, handles *)

(** A timestamp in whole seconds, the precision of the snapshot file
    names ([%Y-%m-%d_%H-%M-%S]): on whole seconds [strftime] and
    [strptime] with that format are inverse to each other, and a file is
    addressed by the timestamp its name encodes.  A timestamp with a
    sub-second part, which [strftime] would cut off, is not covered. *)
Abbreviation datetime := Z (only parsing).

(** [datetime.max.replace(tzinfo=timezone.utc)] is 9999-12-31
    23:59:59.999999, the last microsecond of the second 253402300799.  It
    is only ever compared with timestamps, and against a whole second [x]
    it compares as the next second does: [x >= datetime.max] exactly when
    [x > 253402300799]. *)
Definition datetime_max : datetime := 253402300800.

Abbreviation ref := nat (only parsing).   (* handle of a DataNode *)
Abbreviation bref := nat (only parsing).  (* handle of a DataTransformerBroker *)
Abbreviation tref := nat (only parsing).  (* identity of a transformer or model object *)

(** External calls, in the order they happen. *)
Inductive Event : Type :=
| EvUploadCandles (ticker : string)
| EvRemoveSession (ticker : string)
| EvFitTransform (t : tref)
| EvTransform (t : tref)
| EvModelFit (m : tref)
| EvModelUpdate (m : tref)
| EvSaveState (t : tref)
| EvLoadState (t : tref)
| EvIsdir (path : string)
| EvMkdir (path : string)
| EvListdir (path : string)
| EvJoblibDump (dir : string) (file : datetime)
| EvJoblibLoad (dir : string) (file : option datetime).

Section Engine.

(** [Row] is one observation of a time-indexed table, [State] the
    serialized state of a transformer or of a model. *)
Context {Row State : Type}.

(** A pandas table: rows in index order, each with its timestamp. *)
Definition Table : Type := list (datetime * Row).

(** ** Data model *)

(** [DataNode.__init__] fields.  Of the [Ticker] only [ticker_sign] is
    used, so [ticker] holds the sign. *)
Record DataNode : Type := mkNode {
  ticker : string;
  transformer : option tref;
  parent : option ref;
  end_date : option datetime;
  children : list ref;
  data : option Table;
  new_data : list Table;
  n_of_new_data_processed : Z;
  data_broker : list bref;
  remove_session : option (list string)
}.

(** [DataTransformerBroker.__init__] fields ([ticker] again by its sign). *)
Record DataTransformerBroker : Type := mkBroker {
  ticker_sign : string;
  final_datanode : option ref;
  model : option tref;
  data_name : string;
  broker_end_date : option datetime;
  fit_date : option datetime;
  next_cached_model_date : option datetime;
  broker_remove_session : option (list string)
}.

(** A snapshot file: the timestamp its name encodes and the pickled list. *)
Definition Snapshot : Type := (datetime * list State)%type.

(** The store.  [nodes] and [optimized] are the class attributes of
    [DataTransformerBroker]; [states] holds the state of every transformer
    and model object; [fs] maps a directory to its snapshot files in the
    order [os.listdir] returns them; [new_candles] is
    [LocalCandlesUploader.new_candles]. *)
Record World : Type := mkWorld {
  heap : list DataNode;
  brokers : list DataTransformerBroker;
  nodes : gmap string (list ref);
  optimized : gmap string bool;
  states : tref -> State;
  fs : gmap string (list Snapshot);
  new_candles : list Table;
  trace : list Event
}.

Definition with_heap (h : list DataNode) (w : World) : World :=
  mkWorld h (brokers w) (nodes w) (optimized w) (states w) (fs w) (new_candles w) (trace w).
Definition with_brokers (b : list DataTransformerBroker) (w : World) : World :=
  mkWorld (heap w) b (nodes w) (optimized w) (states w) (fs w) (new_candles w) (trace w).
Definition with_nodes (n : gmap string (list ref)) (w : World) : World :=
  mkWorld (heap w) (brokers w) n (optimized w) (states w) (fs w) (new_candles w) (trace w).
Definition with_optimized (o : gmap string bool) (w : World) : World :=
  mkWorld (heap w) (brokers w) (nodes w) o (states w) (fs w) (new_candles w) (trace w).
Definition with_states (s : tref -> State) (w : World) : World :=
  mkWorld (heap w) (brokers w) (nodes w) (optimized w) s (fs w) (new_candles w) (trace w).
Definition with_fs (f : gmap string (list Snapshot)) (w : World) : World :=
  mkWorld (heap w) (brokers w) (nodes w) (optimized w) (states w) f (new_candles w) (trace w).
Definition with_trace (t : list Event) (w : World) : World :=
  mkWorld (heap w) (brokers w) (nodes w) (optimized w) (states w) (fs w) (new_candles w) t.

Definition set_parent (p : option ref) (n : DataNode) : DataNode :=
  mkNode (ticker n) (transformer n) p (end_date n) (children n) (data n)
         (new_data n) (n_of_new_data_processed n) (data_broker n) (remove_session n).
Definition set_end_date (d : option datetime) (n : DataNode) : DataNode :=
  mkNode (ticker n) (transformer n) (parent n) d (children n) (data n)
         (new_data n) (n_of_new_data_processed n) (data_broker n) (remove_session n).
Definition set_children (c : list ref) (n : DataNode) : DataNode :=
  mkNode (ticker n) (transformer n) (parent n) (end_date n) c (data n)
         (new_data n) (n_of_new_data_processed n) (data_broker n) (remove_session n).
Definition set_data (d : option Table) (n : DataNode) : DataNode :=
  mkNode (ticker n) (transformer n) (parent n) (end_date n) (children n) d
         (new_data n) (n_of_new_data_processed n) (data_broker n) (remove_session n).
Definition set_new_data (l : list Table) (n : DataNode) : DataNode :=
  mkNode (ticker n) (transformer n) (parent n) (end_date n) (children n) (data n)
         l (n_of_new_data_processed n) (data_broker n) (remove_session n).
Definition set_processed (k : Z) (n : DataNode) : DataNode :=
  mkNode (ticker n) (transformer n) (parent n) (end_date n) (children n) (data n)
         (new_data n) k (data_broker n) (remove_session n).
Definition set_data_broker (l : list bref) (n : DataNode) : DataNode :=
  mkNode (ticker n) (transformer n) (parent n) (end_date n) (children n) (data n)
         (new_data n) (n_of_new_data_processed n) l (remove_session n).

Definition set_final_datanode (r : option ref) (b : DataTransformerBroker) : DataTransformerBroker :=
  mkBroker (ticker_sign b) r (model b) (data_name b) (broker_end_date b)
           (fit_date b) (next_cached_model_date b) (broker_remove_session b).
Definition set_model (m : option tref) (b : DataTransformerBroker) : DataTransformerBroker :=
  mkBroker (ticker_sign b) (final_datanode b) m (data_name b) (broker_end_date b)
           (fit_date b) (next_cached_model_date b) (broker_remove_session b).
Definition set_data_name (s : string) (b : DataTransformerBroker) : DataTransformerBroker :=
  mkBroker (ticker_sign b) (final_datanode b) (model b) s (broker_end_date b)
           (fit_date b) (next_cached_model_date b) (broker_remove_session b).
Definition set_broker_end_date (d : option datetime) (b : DataTransformerBroker) : DataTransformerBroker :=
  mkBroker (ticker_sign b) (final_datanode b) (model b) (data_name b) d
           (fit_date b) (next_cached_model_date b) (broker_remove_session b).
Definition set_fit_date (d : option datetime) (b : DataTransformerBroker) : DataTransformerBroker :=
  mkBroker (ticker_sign b) (final_datanode b) (model b) (data_name b) (broker_end_date b)
           d (next_cached_model_date b) (broker_remove_session b).
Definition set_next_cached_model_date (d : option datetime) (b : DataTransformerBroker) : DataTransformerBroker :=
  mkBroker (ticker_sign b) (final_datanode b) (model b) (data_name b) (broker_end_date b)
           (fit_date b) d (broker_remove_session b).

(** ** Outcomes and the store monad *)

(** [Raise e w]: the Python exception of class [e], raised in store [w].
    [OutOfFuel] and [Dangling] are not Python behaviours: the first is a
    recursion or loop cut off by the fuel of the model, the second a handle
    that addresses no object, which a Python reference never does. *)
Inductive outcome (A : Type) : Type :=
| Ok (a : A) (w : World)
| Raise (e : string) (w : World)
| OutOfFuel
| Dangling.
Arguments Ok {A} a w.
Arguments Raise {A} e w.
Arguments OutOfFuel {A}.
Arguments Dangling {A}.

Definition M (A : Type) : Type := World -> outcome A.

Definition ret {A} (a : A) : M A := fun w => Ok a w.
Definition bind {A B} (m : M A) (k : A -> M B) : M B :=
  fun w => match m w with
           | Ok a w' => k a w'
           | Raise e w' => Raise e w'
           | OutOfFuel => OutOfFuel
           | Dangling => Dangling
           end.
Definition raise {A} (e : string) : M A := fun w => Raise e w.
Definition out_of_fuel {A} : M A := fun _ => OutOfFuel.

Notation "x <- m ;; k" := (bind m (fun x => k))
  (at level 100, m at next level, right associativity).
Notation "m ;; k" := (bind m (fun _ => k))
  (at level 100, right associativity).

Definition get_node (r : ref) : M DataNode :=
  fun w => match heap w !! r with Some n => Ok n w | None => Dangling end.
Definition put_node (r : ref) (n : DataNode) : M unit :=
  fun w => Ok tt (with_heap (<[r:=n]> (heap w)) w).
Definition get_broker (b : bref) : M DataTransformerBroker :=
  fun w => match brokers w !! b with Some x => Ok x w | None => Dangling end.
Definition put_broker (b : bref) (x : DataTransformerBroker) : M unit :=
  fun w => Ok tt (with_brokers (<[b:=x]> (brokers w)) w).
Definition get_state (t : tref) : M State := fun w => Ok (states w t) w.
Definition put_state (t : tref) (s : State) : M unit :=
  fun w => Ok tt (with_states (fun x => if Nat.eqb x t then s else states w x) w).
Definition log (e : Event) : M unit :=
  fun w => Ok tt (with_trace (trace w ++ [e]) w).

(** [o.attr] on an object that may be [None]. *)
Definition attr_of {A} (o : option A) : M A :=
  match o with Some a => ret a | None => raise "AttributeError" end.

(** ** External collaborators *)

(** The capabilities the core consumes: transformers and models (by
    object identity), the raw data source, the session filter, and the
    two path constants. *)
Class External : Type := {
  name : tref -> string;
  has_predict : tref -> bool;                       (* 'predict' in dir(step) *)
  fit_transform : tref -> State -> Table -> Table * State;
  transform : tref -> State -> list Table -> Table * State;
  model_fit : tref -> State -> Table -> State;
  model_update : tref -> State -> Table -> State;
  upload_candles : string -> Table;
  remove_session_fit_transform : list string -> string -> Table -> Table;
  candle_path : string;
  broker_name : string
}.

Context {Ext : External}.

(** ** DataNode *)

Definition opt_nat_eqb (a b : option nat) : bool :=
  match a, b with
  | None, None => true
  | Some x, Some y => Nat.eqb x y
  | _, _ => false
  end.

Definition opt_Z_eqb (a b : option Z) : bool :=
  match a, b with
  | None, None => true
  | Some x, Some y => Z.eqb x y
  | _, _ => false
  end.

(** [DataNode.__eq__].  The four conjuncts are evaluated left to right and
    [and] stops at the first false one.  Transformers compare by object
    identity.  [self.parent == other.parent] is [None == None] for two
    roots, this method again for two nodes, and an [AttributeError] when
    exactly one side is [None] ([None.transformer]).  The third conjunct
    is written as in the source: it compares [self.ticker.ticker_sign]
    with itself. *)
Fixpoint DataNode_eq (fuel : nat) (self other : ref) : M bool :=
  match fuel with
  | O => out_of_fuel
  | S fuel' =>
      s <- get_node self ;;
      o <- get_node other ;;
      if negb (opt_nat_eqb (transformer s) (transformer o)) then ret false
      else
        same_parent <-
          match parent s, parent o with
          | None, None => ret true
          | Some p, Some q => DataNode_eq fuel' p q
          | _, _ => raise "AttributeError"
          end ;;
        if negb same_parent then ret false
        else if negb (String.eqb (ticker s) (ticker s)) then ret false
        else ret (opt_Z_eqb (end_date s) (end_date o))
  end.

(** [self.data[self.data.index <= end_date]]. *)
Definition truncate (d : datetime) (t : Table) : Table :=
  filter (fun row => fst row <= d) t.

(** A transformer is handed the parent's table. *)
Definition expect_table (o : option Table) : M Table :=
  match o with Some t => ret t | None => raise "TypeError" end.

(** [self.data = self.transformer.fit_transform(self.parent.data)] *)
Definition apply_fit_transform (self : ref) : M unit :=
  s <- get_node self ;;
  t <- attr_of (transformer s) ;;
  p <- attr_of (parent s) ;;
  pn <- get_node p ;;
  input <- expect_table (data pn) ;;
  st <- get_state t ;;
  log (EvFitTransform t) ;;
  put_state t (snd (fit_transform t st input)) ;;
  s <- get_node self ;;
  put_node self (set_data (Some (fst (fit_transform t st input))) s).

(** The root branch of [compute]: load, truncate to the [end_date]
    argument (here [date]), filter the sessions. *)
Definition load_raw (self : ref) (date : option datetime) : M unit :=
  s <- get_node self ;;
  log (EvUploadCandles (ticker s)) ;;
  put_node self (set_data (Some (upload_candles (ticker s))) s) ;;
  match date with
  | None => raise "TypeError"
  | Some d =>
      s <- get_node self ;;
      put_node self (set_data (option_map (truncate d) (data s)) s) ;;
      s <- get_node self ;;
      match remove_session s with
      | None => ret tt
      | Some sessions =>
          input <- expect_table (data s) ;;
          log (EvRemoveSession (ticker s)) ;;
          put_node self
            (set_data (Some (remove_session_fit_transform sessions (ticker s) input)) s)
      end
  end.

(** [DataNode.compute] *)
Fixpoint DataNode_compute (fuel : nat) (self : ref) (date : option datetime) : M unit :=
  match fuel with
  | O => out_of_fuel
  | S fuel' =>
      s <- get_node self ;;
      match end_date s with
      | None => put_node self (set_end_date date s)
      | Some _ => ret tt
      end ;;
      s <- get_node self ;;
      match parent s with
      | Some p =>
          pn <- get_node p ;;
          match data pn with
          | None => DataNode_compute fuel' p date
          | Some _ => ret tt
          end ;;
          s <- get_node self ;;
          match data s with
          | None => apply_fit_transform self
          | Some _ => ret tt
          end
      | None =>
          match data s with
          | None => load_raw self date
          | Some _ => ret tt
          end
      end
  end.

(** [LocalCandlesUploader.new_candles[-k:]] for [k > 0]. *)
Definition last_batches (k : Z) (l : list Table) : list Table :=
  drop (Z.to_nat (Z.max 0 (Z.of_nat (length l) - k))) l.

(** [DataNode.update].  On a node with a parent the call
    [self.parent.update()] omits the required argument [new_date]: Python
    raises [TypeError] before the body of the parent's method runs.  On a
    root [self.transformer.transform] is looked up on the node's
    transformer, [None] for the roots [make_pipeline] creates. *)
Definition DataNode_update (self : ref) (new_date : datetime) : M Table :=
  s <- get_node self ;;
  put_node self (set_end_date (Some new_date) s) ;;
  s <- get_node self ;;
  new_parent_data <-
    match parent s with
    | None =>
        candles <- (fun w => Ok (new_candles w) w) ;;
        let num_of_new_candle_batches :=
          Z.of_nat (length candles) - n_of_new_data_processed s in
        put_node self
          (set_processed (n_of_new_data_processed s + num_of_new_candle_batches) s) ;;
        if 0 <? num_of_new_candle_batches
        then ret (last_batches num_of_new_candle_batches candles)
        else ret []
    | Some _ => raise "TypeError"
    end ;;
  s <- get_node self ;;
  t <- attr_of (transformer s) ;;
  st <- get_state t ;;
  log (EvTransform t) ;;
  put_state t (snd (transform t st new_parent_data)) ;;
  s <- get_node self ;;
  put_node self (set_new_data (new_data s ++ [fst (transform t st new_parent_data)]) s) ;;
  ret (fst (transform t st new_parent_data)).

(** [pd.concat]: [None] entries are dropped; nothing left to concatenate
    is a [ValueError]. *)
Definition pd_concat (objs : list (option Table)) : option Table :=
  match omap id objs with
  | [] => None
  | t :: ts => Some (concat (t :: ts))
  end.

(** [DataNode.cache_new_data] *)
Definition DataNode_cache_new_data (self : ref) : M unit :=
  s <- get_node self ;;
  match pd_concat (data s :: map Some (new_data s)) with
  | None => raise "ValueError"
  | Some t =>
      put_node self (set_data (Some t) s) ;;
      s <- get_node self ;;
      put_node self (set_processed 0 s) ;;
      s <- get_node self ;;
      put_node self (set_new_data [] s)
  end.

(** [DataNode.save_model]: [data_list] is extended in place, here it is
    threaded through. *)
Fixpoint DataNode_save_model (fuel : nat) (self : ref) (data_list : list State)
  : M (list State) :=
  match fuel with
  | O => out_of_fuel
  | S fuel' =>
      s <- get_node self ;;
      match parent s with
      | None => ret data_list
      | Some p =>
          t <- attr_of (transformer s) ;;
          st <- get_state t ;;
          log (EvSaveState t) ;;
          DataNode_save_model fuel' p (data_list ++ [st])
      end
  end.

(** [DataNode.load_model]: every step with a parent consumes
    [data_list[0]] and passes [data_list[1:]] on. *)
Fixpoint DataNode_load_model (self : ref) (data_list : list State) {struct data_list}
  : M unit :=
  s <- get_node self ;;
  match parent s with
  | None => ret tt
  | Some p =>
      t <- attr_of (transformer s) ;;
      match data_list with
      | [] => raise "IndexError"
      | st :: rest =>
          log (EvLoadState t) ;;
          put_state t st ;;
          DataNode_load_model p rest
      end
  end.

(** ** DataTransformerBroker *)

(** [d[key]] on the two class dictionaries. *)
Definition nodes_at (key : string) : M (list ref) :=
  fun w => match nodes w !! key with Some l => Ok l w | None => Raise "KeyError" w end.
Definition optimized_at (key : string) : M bool :=
  fun w => match optimized w !! key with Some f => Ok f w | None => Raise "KeyError" w end.
Definition set_nodes (key : string) (l : list ref) : M unit :=
  fun w => Ok tt (with_nodes (<[key:=l]> (nodes w)) w).
Definition set_optimized (key : string) (f : bool) : M unit :=
  fun w => Ok tt (with_optimized (<[key:=f]> (optimized w)) w).

(** A freshly constructed node gets the next handle. *)
Definition new_node (n : DataNode) : M ref :=
  fun w => Ok (length (heap w)) (with_heap (heap w ++ [n]) w).

(** [DataTransformerBroker.__init__] (the class attribute [memory_limit],
    which no method reads, is left out). *)
Definition Broker_init (ticker : string) (remove_session : option (list string)) : M bref :=
  self <- (fun w => Ok (length (brokers w))
                       (with_brokers (brokers w ++
                          [mkBroker ticker None None "" None None None remove_session]) w)) ;;
  known <- (fun w => Ok (bool_decide (is_Some (nodes w !! ticker))) w) ;;
  (if negb known then set_nodes ticker [] else ret tt) ;;
  set_optimized ticker false ;;
  ret self.

(** The loop of [make_pipeline] over [steps]; [rest = []] is
    [idx == len(steps) - 1]. *)
Fixpoint add_steps (self : bref) (steps : list tref) (parent_node : ref) : M ref :=
  match steps with
  | [] => ret parent_node
  | step :: rest =>
      if bool_decide (rest = []) && has_predict step then
        b <- get_broker self ;;
        put_broker self (set_model (Some step) b) ;;
        add_steps self rest parent_node
      else
        b <- get_broker self ;;
        node <- new_node (mkNode (ticker_sign b) (Some step) (Some parent_node)
                                 None [] None [] 0 [] None) ;;
        p <- get_node parent_node ;;
        put_node parent_node (set_children (children p ++ [node]) p) ;;
        b <- get_broker self ;;
        put_broker self
          (set_data_name (if String.eqb (data_name b) ""
                          then data_name b +:+ name step
                          else data_name b +:+ "__" +:+ name step) b) ;;
        add_steps self rest node
  end.

(** [DataTransformerBroker.make_pipeline] *)
Definition Broker_make_pipeline (self : bref) (steps : list tref) (date : datetime) : M unit :=
  b <- get_broker self ;;
  parent_node <- new_node (mkNode (ticker_sign b) None None None [] None [] 0 []
                                  (broker_remove_session b)) ;;
  pool <- nodes_at (ticker_sign b) ;;
  set_nodes (ticker_sign b) (pool ++ [parent_node]) ;;
  b <- get_broker self ;;
  put_broker self (set_broker_end_date (Some date) b) ;;
  last <- add_steps self steps parent_node ;;
  b <- get_broker self ;;
  put_broker self (set_final_datanode (Some last) b) ;;
  leaf <- get_node last ;;
  put_node last (set_data_broker (data_broker leaf ++ [self]) leaf) ;;
  b <- get_broker self ;;
  set_optimized (ticker_sign b) false.

(** *** The optimizer pass *)

(** [del l[k]]: a negative index counts from the end. *)
Definition py_del {A} (l : list A) (k : Z) : option (list A) :=
  let n := Z.of_nat (length l) in
  let k' := if k <? 0 then k + n else k in
  if (k' <? 0) || (n <=? k') then None else Some (delete (Z.to_nat k') l).

(** [for child in same_node.children: child.parent = node;
    node.children.append(child)].  The list iterated is read from the
    store at every step, as a Python list iterator does. *)
Fixpoint reparent_children (fuel : nat) (node same_node : ref) (i : nat) : M unit :=
  match fuel with
  | O => out_of_fuel
  | S fuel' =>
      sn <- get_node same_node ;;
      match children sn !! i with
      | None => ret tt
      | Some child =>
          c <- get_node child ;;
          put_node child (set_parent (Some node) c) ;;
          n <- get_node node ;;
          put_node node (set_children (children n ++ [child]) n) ;;
          reparent_children fuel' node same_node (S i)
      end
  end.

(** [for data_broker in same_node.data_broker:
    data_broker.final_datanode = node] *)
Fixpoint retarget_brokers (node : ref) (subscribers : list bref) : M unit :=
  match subscribers with
  | [] => ret tt
  | data_broker :: rest =>
      b <- get_broker data_broker ;;
      put_broker data_broker (set_final_datanode (Some node) b) ;;
      retarget_brokers node rest
  end.

(** The body of [if same_node == node:] up to the [del]. *)
Definition merge_into (fuel : nat) (node same_node : ref) : M unit :=
  n <- get_node node ;;
  sn <- get_node same_node ;;
  match data n, data sn with
  | None, Some d => put_node node (set_data (Some d) n)
  | _, _ => ret tt
  end ;;
  reparent_children fuel node same_node 0 ;;
  sn <- get_node same_node ;;
  retarget_brokers node (data_broker sn) ;;
  n <- get_node node ;;
  sn <- get_node same_node ;;
  put_node node (set_data_broker (data_broker n ++ data_broker sn) n).

(** The inner loop, over the copy [parent_nodes[idx + 1:]].  [j] is set
    by [enumerate] at every step, so [j -= 1] is lost, while [idx -= 1]
    stays in force until the outer loop assigns [idx] again.
    [parent_nodes] is the list the outer loop iterates; in the first layer
    it is the pool object [nodes[ticker_sign]] itself ([aliased]). *)
Fixpoint merge_duplicates (fuel : nat) (key : string) (aliased : bool) (node : ref)
    (slice : list ref) (j : Z) (idx : Z) (parent_nodes : list ref) : M (list ref) :=
  match slice with
  | [] => ret parent_nodes
  | same_node :: rest =>
      equal <- DataNode_eq fuel same_node node ;;
      if equal then
        merge_into fuel node same_node ;;
        match py_del parent_nodes (idx + 1 + j) with
        | None => raise "IndexError"
        | Some parent_nodes' =>
            (if aliased then set_nodes key parent_nodes' else ret tt) ;;
            merge_duplicates fuel key aliased node rest (j + 1) (idx - 1) parent_nodes'
        end
      else merge_duplicates fuel key aliased node rest (j + 1) idx parent_nodes
  end.

(** The outer loop [for idx, node in enumerate(parent_nodes)]: the list
    iterator keeps its own position [i] in the list as it shrinks.
    Returns [children_nodes]. *)
Fixpoint dedup_layer (fuel : nat) (key : string) (aliased : bool) (i : nat)
    (parent_nodes children_nodes : list ref) : M (list ref) :=
  match fuel with
  | O => out_of_fuel
  | S fuel' =>
      match parent_nodes !! i with
      | None => ret children_nodes
      | Some node =>
          n <- get_node node ;;
          let children_nodes := children_nodes ++ children n in
          parent_nodes' <- merge_duplicates fuel' key aliased node
                             (drop (S i) parent_nodes) 0 (Z.of_nat i) parent_nodes ;;
          dedup_layer fuel' key aliased (S i) parent_nodes' children_nodes
      end
  end.

(** [while parent_nodes: ...; parent_nodes = children_nodes] *)
Fixpoint optimize_layers (fuel : nat) (key : string) (aliased : bool)
    (parent_nodes : list ref) : M unit :=
  match fuel with
  | O => out_of_fuel
  | S fuel' =>
      match parent_nodes with
      | [] => ret tt
      | _ :: _ =>
          children_nodes <- dedup_layer fuel' key aliased 0 parent_nodes [] ;;
          optimize_layers fuel' key false children_nodes
      end
  end.

(** [DataTransformerBroker._optimize] *)
Definition _optimize (fuel : nat) (self : bref) : M unit :=
  b <- get_broker self ;;
  done <- optimized_at (ticker_sign b) ;;
  if done then ret tt
  else
    parent_nodes <- nodes_at (ticker_sign b) ;;
    optimize_layers fuel (ticker_sign b) true parent_nodes ;;
    b <- get_broker self ;;
    set_optimized (ticker_sign b) true.

(** *** compute, fit, update, cache_new_data *)

(** [DataTransformerBroker.compute]; [date = None] is the default
    argument. *)
Definition Broker_compute (fuel : nat) (self : bref) (date : option datetime)
  : M (option Table) :=
  b <- get_broker self ;;
  let date := match date with None => broker_end_date b | Some _ => date end in
  _optimize fuel self ;;
  b <- get_broker self ;;
  leaf <- attr_of (final_datanode b) ;;
  DataNode_compute fuel leaf date ;;
  b <- get_broker self ;;
  leaf <- attr_of (final_datanode b) ;;
  n <- get_node leaf ;;
  ret (data n).

(** [data.index[-1]] *)
Definition last_index (t : Table) : M datetime :=
  match last t with
  | Some row => ret (fst row)
  | None => raise "IndexError"
  end.

(** [DataTransformerBroker.fit] *)
Definition Broker_fit (fuel : nat) (self : bref) : M unit :=
  d <- Broker_compute fuel self None ;;
  t <- attr_of d ;;
  stamp <- last_index t ;;
  b <- get_broker self ;;
  put_broker self (set_fit_date (Some stamp) b) ;;
  b <- get_broker self ;;
  m <- attr_of (model b) ;;
  st <- get_state m ;;
  log (EvModelFit m) ;;
  put_state m (model_fit m st t).

(** [DataTransformerBroker.update] *)
Definition Broker_update (self : bref) (new_date : datetime) : M unit :=
  b <- get_broker self ;;
  leaf <- attr_of (final_datanode b) ;;
  increment <- DataNode_update leaf new_date ;;
  b <- get_broker self ;;
  m <- attr_of (model b) ;;
  st <- get_state m ;;
  log (EvModelUpdate m) ;;
  put_state m (model_update m st increment) ;;
  b <- get_broker self ;;
  put_broker self (set_broker_end_date (Some new_date) b).

(** [DataTransformerBroker.cache_new_data] *)
Definition Broker_cache_new_data (self : bref) : M unit :=
  b <- get_broker self ;;
  leaf <- attr_of (final_datanode b) ;;
  DataNode_cache_new_data leaf.

(** *** Snapshots *)

(** File names are fixed-width timestamps, so a file is addressed by its
    directory and the timestamp its name encodes; [strftime] and
    [strptime] are the two directions of that encoding.

    A directory is known by its path string and lists snapshot files
    only.  This covers the snapshot directories of facades that have a
    pipeline signature.  With [data_name = ""] the path of the snapshot
    directory ends in two slashes and names the directory of the model
    itself, which on disk also lists the directories of the signatures;
    that case is not covered. *)
Definition os_path_isdir (p : string) : M bool :=
  log (EvIsdir p) ;;
  fun w => Ok (bool_decide (is_Some (fs w !! p))) w.

(** The root [candle_path + broker_name] is taken to exist. *)
Definition os_mkdir (p : string) : M unit :=
  log (EvMkdir p) ;;
  fun w => match fs w !! p with
           | Some _ => Raise "FileExistsError" w
           | None => Ok tt (with_fs (<[p:=[]]> (fs w)) w)
           end.

Definition os_listdir (p : string) : M (list datetime) :=
  log (EvListdir p) ;;
  fun w => match fs w !! p with
           | Some files => Ok (map fst files) w
           | None => Raise "FileNotFoundError" w
           end.

Definition find_file (stamp : datetime) (files : list Snapshot) : option (list State) :=
  (fun hit => snd (snd hit)) <$> list_find (fun f => fst f = stamp) files.

(** An existing file is overwritten where it stands; a new one is listed
    last. *)
Fixpoint write_file (stamp : datetime) (content : list State) (files : list Snapshot)
  : list Snapshot :=
  match files with
  | [] => [(stamp, content)]
  | f :: rest =>
      if Z.eqb (fst f) stamp then (stamp, content) :: rest
      else f :: write_file stamp content rest
  end.

Definition joblib_dump (content : list State) (dir : string) (stamp : datetime) : M unit :=
  log (EvJoblibDump dir stamp) ;;
  fun w => match fs w !! dir with
           | Some files => Ok tt (with_fs (<[dir:=write_file stamp content files]> (fs w)) w)
           | None => Raise "FileNotFoundError" w
           end.

(** [joblib.load(None)] ends in [open(None, 'rb')], a [TypeError]. *)
Definition joblib_load (dir : string) (file : option datetime) : M (list State) :=
  log (EvJoblibLoad dir file) ;;
  match file with
  | None => raise "TypeError"
  | Some stamp =>
      fun w => match fs w !! dir ≫= find_file stamp with
               | Some content => Ok content w
               | None => Raise "FileNotFoundError" w
               end
  end.

Definition mkdir_if_missing (p : string) : M unit :=
  present <- os_path_isdir p ;;
  if negb present then os_mkdir p else ret tt.

Definition snapshot_root : string := candle_path +:+ broker_name.

Definition snapshot_dir (b : DataTransformerBroker) (model_name : string) : string :=
  snapshot_root +:+ "/" +:+ ticker_sign b +:+ "/" +:+ model_name
                +:+ "/" +:+ data_name b +:+ "/".

(** [DataTransformerBroker.save_model] *)
Definition Broker_save_model (fuel : nat) (self : bref) : M unit :=
  b <- get_broker self ;;
  match model b with
  | None => raise "ValueError"
  | Some m =>
      mkdir_if_missing (snapshot_root +:+ "/" +:+ ticker_sign b) ;;
      mkdir_if_missing (snapshot_root +:+ "/" +:+ ticker_sign b +:+ "/" +:+ name m) ;;
      mkdir_if_missing (snapshot_dir b (name m)) ;;
      b <- get_broker self ;;
      m <- attr_of (model b) ;;
      stamp <- attr_of (fit_date b) ;;
      st <- get_state m ;;
      log (EvSaveState m) ;;
      leaf <- attr_of (final_datanode b) ;;
      data_list <- DataNode_save_model fuel leaf [st] ;;
      joblib_dump data_list (snapshot_dir b (name m)) stamp
  end.

(** The scan of [load_model] over the listed files; the [else] of the
    [for] is the end of the list. *)
Fixpoint scan_snapshots (self : bref) (pickled_models : list datetime)
    (latest_model : option datetime) : M (option datetime) :=
  match pickled_models with
  | [] =>
      b <- get_broker self ;;
      put_broker self (set_next_cached_model_date (Some datetime_max) b) ;;
      ret latest_model
  | fitted_date :: rest =>
      b <- get_broker self ;;
      match broker_end_date b with
      | None => raise "TypeError"
      | Some e =>
          if fitted_date <=? e then
            put_broker self (set_fit_date (Some fitted_date) b) ;;
            scan_snapshots self rest (Some fitted_date)
          else
            put_broker self (set_next_cached_model_date (Some fitted_date) b) ;;
            ret latest_model
      end
  end.

(** [if self.end_date > self.fit_date: self.update(self.end_date)] *)
Definition catch_up (self : bref) : M unit :=
  b <- get_broker self ;;
  match broker_end_date b, fit_date b with
  | Some e, Some f => if f <? e then Broker_update self e else ret tt
  | _, _ => raise "TypeError"
  end.

(** [DataTransformerBroker.load_model] *)
Definition Broker_load_model (fuel : nat) (self : bref) (compute_data : bool) : M unit :=
  b <- get_broker self ;;
  m <- attr_of (model b) ;;
  pickled_models <- os_listdir (snapshot_dir b (name m)) ;;
  latest_model <- scan_snapshots self pickled_models None ;;
  data_list <- joblib_load (snapshot_dir b (name m)) latest_model ;;
  b <- get_broker self ;;
  m <- attr_of (model b) ;;
  match data_list with
  | [] => raise "IndexError"
  | st :: rest =>
      log (EvLoadState m) ;;
      put_state m st ;;
      if negb compute_data then
        b <- get_broker self ;;
        leaf <- attr_of (final_datanode b) ;;
        DataNode_load_model leaf rest ;;
        catch_up self
      else
        b <- get_broker self ;;
        Broker_compute fuel self (fit_date b) ;;
        catch_up self
  end.

(** [DataTransformerBroker.reload_model] *)
Definition Broker_reload_model (fuel : nat) (self : bref) (cur_date : datetime) : M bool :=
  b <- get_broker self ;;
  match next_cached_model_date b with
  | None => raise "TypeError"
  | Some horizon =>
      if horizon <=? cur_date then
        Broker_load_model fuel self false ;;
        ret true
      else ret false
  end.

End Engine.

Arguments Ok {Row State A} a w.
Arguments Raise {Row State A} e w.
Arguments OutOfFuel {Row State A}.
Arguments Dangling {Row State A}.

Notation "x <- m ;; k" := (bind m (fun x => k))
  (at level 100, m at next level, right associativity).
Notation "m ;; k" := (bind m (fun _ => k))
  (at level 100, right associativity).

(** ** Reachability from the pool of an instrument *)

Inductive reachable {Row State : Type} (w : @World Row State) (key : string) : ref -> Prop :=
| reach_pool (r : ref) (pool : list ref) :
    nodes w !! key = Some pool -> r ∈ pool -> reachable w key r
| reach_child (p c : ref) (n : DataNode) :
    reachable w key p -> heap w !! p = Some n -> c ∈ children n -> reachable w key c.

(** The parent chain of a node, leaf to root, as the transformers met on
    the way (the root contributes none). *)
Inductive chain {Row : Type} (h : list (@DataNode Row)) : ref -> list tref -> Prop :=
| chain_root (r : ref) (n : DataNode) :
    h !! r = Some n -> parent n = None -> chain h r []
| chain_step (r p : ref) (n : DataNode) (t : tref) (ts : list tref) :
    h !! r = Some n -> parent n = Some p -> transformer n = Some t ->
    chain h p ts -> chain h r (t :: ts).

(** Every handle stored in the graph addresses an object. *)
Definition closed {Row State : Type} (w : @World Row State) : Prop :=
  (forall r n p, heap w !! r = Some n -> parent n = Some p -> (p < length (heap w))%nat) /\
  (forall b bk r, brokers w !! b = Some bk -> final_datanode bk = Some r ->
                  (r < length (heap w))%nat).

(** The store an outcome ends in, by return or by exception. *)
Definition final_world {Row State A : Type} (o : @outcome Row State A) : option World :=
  match o with
  | Ok _ w => Some w
  | Raise _ w => Some w
  | OutOfFuel => None
  | Dangling => None
  end.


(** ** The snapshot scan as a function *)

Section Selection.

Context {Row State : Type}.

(** What the scan of [load_model] leaves in [latest_model], and in the
    facade, for end date [e] and the listed timestamps [pickled]. *)
Fixpoint scan_latest (e : datetime) (pickled : list datetime) (latest : option datetime)
  : option datetime :=
  match pickled with
  | [] => latest
  | f :: rest => if f <=? e then scan_latest e rest (Some f) else latest
  end.

Fixpoint scan_broker (e : datetime) (pickled : list datetime) (b : DataTransformerBroker)
  : DataTransformerBroker :=
  match pickled with
  | [] => set_next_cached_model_date (Some datetime_max) b
  | f :: rest =>
      if f <=? e then scan_broker e rest (set_fit_date (Some f) b)
      else set_next_cached_model_date (Some f) b
  end.

(** The states after [load_model] was called on the objects [ts], in
    order, with the values [ss]. *)
Fixpoint assign (ts : list tref) (ss : list State) (st : tref -> State) : tref -> State :=
  match ts, ss with
  | t :: ts', s :: ss' => assign ts' ss' (fun x => if Nat.eqb x t then s else st x)
  | _, _ => st
  end.

(** An outcome that ends, by return or by exception, with the facade
    [self] on the snapshot [stamp]: its [fit_date] is [stamp], its horizon
    is [horizon], and the file loaded from [dir] was [stamp]. *)
Definition selects {A} (o : @outcome Row State A) (self : bref) (dir : string)
    (stamp horizon : datetime) : Prop :=
  exists w' b', final_world o = Some w' /\ brokers w' !! self = Some b' /\
    fit_date b' = Some stamp /\ next_cached_model_date b' = Some horizon /\
    EvJoblibLoad dir (Some stamp) ∈ trace w'.

(** The store moves on: as many nodes and facades, a longer trace, and
    every facade keeps its [fit_date], horizon, leaf and model. *)
Definition keeps (w w' : @World Row State) : Prop :=
  length (heap w') = length (heap w) /\
  (exists tr, trace w' = trace w ++ tr) /\
  length (brokers w') = length (brokers w) /\
  forall self b, brokers w !! self = Some b ->
    exists b', brokers w' !! self = Some b' /\ fit_date b' = fit_date b /\
      next_cached_model_date b' = next_cached_model_date b /\
      final_datanode b' = final_datanode b /\ model b' = model b.

Definition ends {A} (o : @outcome Row State A) (w : World) : Prop :=
  exists w', final_world o = Some w' /\ keeps w w'.

End Selection.


(** ** How the store may move *)

Section Frames.

Context {Row State : Type}.

(** Facades are only ever retargeted: every field but [final_datanode]
    stays. *)
Definition retargets (w w' : @World Row State) : Prop :=
  length (brokers w') = length (brokers w) /\
  forall s b, brokers w !! s = Some b ->
    exists b', brokers w' !! s = Some b' /\ b' = set_final_datanode (final_datanode b') b.

(** A node moves on under [compute]: its place in the graph stays, and
    [data] and [end_date], once set, stay as they are. *)
Definition node_grows (n n' : @DataNode Row) : Prop :=
  parent n' = parent n /\ transformer n' = transformer n /\
  (forall t, data n = Some t -> data n' = Some t) /\
  (forall e, end_date n = Some e -> end_date n' = Some e).

Definition grows (w w' : @World Row State) : Prop :=
  brokers w' = brokers w /\ optimized w' = optimized w /\ nodes w' = nodes w /\
  length (heap w') = length (heap w) /\
  forall r n, heap w !! r = Some n -> exists n', heap w' !! r = Some n' /\ node_grows n n'.

End Frames.

(** What [reload_model] makes of the outcome of [load_model]: it returns
    [True] after a load that returned, and lets an exception through. *)
Definition then_true {Row State : Type} (o : @outcome Row State unit) : outcome bool :=
  match o with
  | Ok _ w => Ok true w
  | Raise e w => Raise e w
  | OutOfFuel => OutOfFuel
  | Dangling => Dangling
  end.

(** ** What a pipeline is made of *)

Section Shapes.

Context {Row State : Type} {Ext : @External Row State}.

(** The steps of [make_pipeline] that become nodes: every step but a last
    one that has [predict]. *)
Fixpoint node_steps (steps : list tref) : list tref :=
  match steps with
  | [] => []
  | step :: rest =>
      if bool_decide (rest = []) && has_predict step then node_steps rest
      else step :: node_steps rest
  end.

(** The step that becomes the model; [m] is the model the facade had. *)
Fixpoint model_step (steps : list tref) (m : option tref) : option tref :=
  match steps with
  | [] => m
  | step :: rest =>
      if bool_decide (rest = []) && has_predict step then model_step rest (Some step)
      else model_step rest m
  end.

(** [data_name] after one more node step. *)
Definition extend_name (acc : string) (step : tref) : string :=
  if String.eqb acc "" then acc +:+ name step else acc +:+ "__" +:+ name step.

(** The facade as the loop of [make_pipeline] leaves it. *)
Fixpoint named (steps : list tref) (b : @DataTransformerBroker) : DataTransformerBroker :=
  match steps with
  | [] => b
  | step :: rest =>
      if bool_decide (rest = []) && has_predict step then named rest (set_model (Some step) b)
      else named rest (set_data_name (extend_name (data_name b) step) b)
  end.

(** The nodes the loop appends below [node], which sits at handle [at_]:
    each one the only child of the one before. *)
Fixpoint limbs (sign : string) (at_ : ref) (node : @DataNode Row) (below : list tref)
  : list DataNode :=
  match below with
  | [] => [node]
  | t :: rest =>
      set_children (children node ++ [S at_]) node
      :: limbs sign (S at_) (mkNode sign (Some t) (Some at_) None [] None [] 0 [] None) rest
  end.

(** The same with the facade [self] subscribed to the last node. *)
Fixpoint spine (sign : string) (self : bref) (at_ : ref) (node : @DataNode Row)
    (below : list tref) : list DataNode :=
  match below with
  | [] => [set_data_broker (data_broker node ++ [self]) node]
  | t :: rest =>
      set_children (children node ++ [S at_]) node
      :: spine sign self (S at_) (mkNode sign (Some t) (Some at_) None [] None [] 0 [] None) rest
  end.

(** The root [make_pipeline] creates for a facade. *)
Definition fresh_root (b : @DataTransformerBroker) : @DataNode Row :=
  mkNode (ticker_sign b) None None None [] None [] 0 [] (broker_remove_session b).

(** A chain that is still to be computed: no node on the way from [r] up
    to the root holds data, and every node was created after its parent.
    [ts] are the transformers met, leaf first; [sign] and [rs] are the
    ticker and the session filter of the root. *)
Inductive fresh_chain (h : list (@DataNode Row))
  : ref -> list tref -> string -> option (list string) -> Prop :=
| fresh_chain_root (r : ref) (n : DataNode) :
    h !! r = Some n -> parent n = None -> data n = None ->
    fresh_chain h r [] (ticker n) (remove_session n)
| fresh_chain_step (r p : ref) (n : DataNode) (t : tref) (ts : list tref)
    (sign : string) (rs : option (list string)) :
    h !! r = Some n -> parent n = Some p -> (p < r)%nat -> transformer n = Some t ->
    data n = None -> fresh_chain h p ts sign rs -> fresh_chain h r (t :: ts) sign rs.

(** A chain still to be computed below a node that holds the table
    [base]: [r] and the nodes above it up to, and not including, that
    node hold no data. *)
Inductive cached_above (h : list (@DataNode Row)) : ref -> list tref -> Table -> Prop :=
| cached_above_parent (r p : ref) (n pn : DataNode) (t : tref) (base : Table) :
    h !! r = Some n -> parent n = Some p -> (p < r)%nat -> transformer n = Some t ->
    data n = None -> h !! p = Some pn -> data pn = Some base ->
    cached_above h r [t] base
| cached_above_step (r p : ref) (n : DataNode) (t : tref) (ts : list tref) (base : Table) :
    h !! r = Some n -> parent n = Some p -> (p < r)%nat -> transformer n = Some t ->
    data n = None -> cached_above h p ts base -> cached_above h r (t :: ts) base.

(** What the root branch of [compute] leaves in [data] for the date [d]. *)
Definition raw_table (sign : string) (rs : option (list string)) (d : datetime) : Table :=
  match rs with
  | None => truncate d (upload_candles sign)
  | Some sessions => remove_session_fit_transform sessions sign (truncate d (upload_candles sign))
  end.

(** [fit_transform] along a chain [ts] (leaf first) from the table [raw]
    at the root: the table at the leaf, and the states the transformers
    are left in. *)
Fixpoint run_chain (ts : list tref) (st : tref -> State) (raw : Table)
  : Table * (tref -> State) :=
  match ts with
  | [] => (raw, st)
  | t :: up =>
      let above := run_chain up st raw in
      (fst (fit_transform t (snd above t) (fst above)),
       fun x => if Nat.eqb x t then snd (fit_transform t (snd above t) (fst above))
                else snd above x)
  end.

End Shapes.

(** ** How the optimizer pass may move the store *)

Section Rewiring.

Context {Row State : Type}.

(** A node as the pass may leave it: what identifies it and what it has
    staged stay; data is only ever adopted; children and subscribed
    facades are only ever appended; a parent is replaced, never removed. *)
Definition node_rewired (n n' : @DataNode Row) : Prop :=
  ticker n' = ticker n /\ transformer n' = transformer n /\ end_date n' = end_date n /\
  new_data n' = new_data n /\ n_of_new_data_processed n' = n_of_new_data_processed n /\
  remove_session n' = remove_session n /\
  (forall t, data n = Some t -> data n' = Some t) /\
  (is_Some (parent n) -> is_Some (parent n')) /\
  children n `prefix_of` children n' /\
  data_broker n `prefix_of` data_broker n'.

(** The store after steps of the pass over the instrument [key]: no
    external call was made, no object was created, and the pools of the
    other instruments stay. *)
Definition rewires (key : string) (w w' : @World Row State) : Prop :=
  length (heap w') = length (heap w) /\ states w' = states w /\ fs w' = fs w /\
  new_candles w' = new_candles w /\ trace w' = trace w /\ optimized w' = optimized w /\
  (forall k, k <> key -> nodes w' !! k = nodes w !! k) /\
  forall r n, heap w !! r = Some n -> exists n', heap w' !! r = Some n' /\ node_rewired n n'.

(** A node with a single line of descendants below it, [k] deep: what one
    pipeline alone looks like from its root. *)
Inductive line (h : list (@DataNode Row)) : ref -> nat -> Prop :=
| line_end (r : ref) (n : DataNode) :
    h !! r = Some n -> children n = [] -> line h r 0
| line_next (r c : ref) (n : DataNode) (k : nat) :
    h !! r = Some n -> children n = [c] -> line h c k -> line h r (S k).

(** The store after directories were looked for and made: the object
    graph and the states stay, every directory keeps its files, a new
    directory is empty, and the only external calls were [os.path.isdir]
    and [os.mkdir]. *)
Definition dir_event (ev : Event) : Prop :=
  match ev with EvIsdir _ | EvMkdir _ => True | _ => False end.

Definition made_dirs (w w' : @World Row State) : Prop :=
  heap w' = heap w /\ brokers w' = brokers w /\ states w' = states w /\
  (forall d files, fs w !! d = Some files -> fs w' !! d = Some files) /\
  (forall d files, fs w' !! d = Some files -> files <> [] -> fs w !! d = Some files) /\
  exists tr, trace w' = trace w ++ tr /\ Forall dir_event tr.

(** A root of the pool, [p.1] with the object [p.2] behind it, that
    [__eq__] calls equal to the root [r0] (object [n0]): no parent, the
    same transformer, the same [end_date].  Its children and subscribed
    facades are objects of the store, and no child is itself [r0] or one
    of the roots [others]. *)
Definition twin_root (w : @World Row State) (r0 : ref) (n0 : @DataNode Row)
    (others : list ref) (fuel : nat) (p : ref * @DataNode Row) : Prop :=
  heap w !! p.1 = Some p.2 /\ parent p.2 = None /\
  transformer p.2 = transformer n0 /\ end_date p.2 = end_date n0 /\ p.1 <> r0 /\
  Forall (fun c => c <> r0 /\ (c ∉ others) /\ (c < length (heap w))%nat) (children p.2) /\
  Forall (fun k => (k < length (brokers w))%nat) (data_broker p.2) /\
  (length (children p.2) <= fuel)%nat.

End Rewiring.

(** ** A concrete instrument

    Tables of integer rows, integer states.  Transformer [1] ("A") and
    [2] ("B") shift every row; [9] is a model (it has [predict]). *)
Module Demo.

#[export] Instance ext : @External Z Z := {|
  name := fun t => match t with 1%nat => "A" | 2%nat => "B" | 9%nat => "HMM" | _ => "T" end;
  has_predict := fun t => Nat.eqb t 9;
  fit_transform := fun t st tbl => (map (fun r => (fst r, snd r + Z.of_nat t)) tbl, st + 1);
  transform := fun t st bs => (map (fun r => (fst r, snd r + Z.of_nat t)) (concat bs), st);
  model_fit := fun m st tbl => st + 100;
  model_update := fun m st tbl => st + 1;
  upload_candles := fun tk => [(1, 10); (2, 20); (3, 30); (4, 40)];
  remove_session_fit_transform := fun ss tk tbl => tbl;
  candle_path := "/candles/";
  broker_name := "t_invest"
|}.

Definition empty_world : @World Z Z := mkWorld [] [] ∅ ∅ (fun _ => 0) ∅ [] [].

(** One facade for [ticker] with pipeline [steps], built at [date]. *)
Definition build (ticker : string) (steps : list tref) (date : datetime) : M bref :=
  b <- Broker_init ticker None ;;
  Broker_make_pipeline b steps date ;;
  ret b.

(** Two roots for two different instruments. *)
Definition two_instruments : outcome bref :=
  (build "SBER" [9%nat] 2 ;; build "GAZP" [9%nat] 2) empty_world.

(** Two, and three, identical pipelines [A; HMM] for one instrument,
    followed by the optimizer pass. *)
Definition two_pipelines_optimized : outcome unit :=
  (b1 <- build "SBER" [1%nat; 9%nat] 2 ;;
   build "SBER" [1%nat; 9%nat] 2 ;;
   _optimize 20 b1) empty_world.

Definition three_pipelines_optimized : outcome unit :=
  (b1 <- build "SBER" [1%nat; 9%nat] 2 ;;
   build "SBER" [1%nat; 9%nat] 2 ;;
   build "SBER" [1%nat; 9%nat] 2 ;;
   _optimize 20 b1) empty_world.

(** One pipeline [A; HMM], computed in one batch at date 2, and at date 3. *)
Definition computed_at_2 : outcome (option Table) :=
  (b <- build "SBER" [1%nat; 9%nat] 2 ;; Broker_compute 20 b None) empty_world.

Definition computed_at_3 : outcome (option Table) :=
  (b <- build "SBER" [1%nat; 9%nat] 3 ;; Broker_compute 20 b None) empty_world.

(** The same pipeline computed at 2, then updated through 3 on its leaf
    (node [1]) and flushed, whatever the update does. *)
Definition updated_then_flushed : outcome unit :=
  match computed_at_2 with
  | Ok _ w =>
      match DataNode_update 1 3 w with
      | Ok _ w' => DataNode_cache_new_data 1 w'
      | Raise _ w' => DataNode_cache_new_data 1 w'
      | OutOfFuel => OutOfFuel
      | Dangling => Dangling
      end
  | Raise e w => Raise e w
  | OutOfFuel => OutOfFuel
  | Dangling => Dangling
  end.

(** The snapshot directory of that pipeline with three snapshots, at 1, 2
    and 5, and the facade (end date 2) loaded from it. *)
Definition put_snapshots (files : list (@Snapshot Z)) : @M Z Z unit :=
  fun w => Ok tt (with_fs (<["/candles/t_invest/SBER/HMM/A/":=files]> (fs w)) w).

Definition three_snapshots : list (@Snapshot Z) := [(1, [70; 71]); (2, [80; 81]); (5, [90; 91])].

Definition loaded : outcome unit :=
  (b <- build "SBER" [1%nat; 9%nat] 2 ;;
   put_snapshots three_snapshots ;;
   Broker_load_model 20 b false) empty_world.

Definition loaded_world : @World Z Z :=
  match loaded with Ok _ w => w | _ => empty_world end.


(** The built facade with an empty snapshot directory, and with a single
    snapshot later than its end date. *)
Definition built_world (files : list (@Snapshot Z)) : @World Z Z :=
  match (build "SBER" [1%nat; 9%nat] 2 ;; put_snapshots files) empty_world with
  | Ok _ w => w
  | _ => empty_world
  end.

(** A root constructed with a transformer, [DataNode(ticker, transformer=A)],
    never computed, and one batch of new candles. *)
Definition bare_root : @DataNode Z :=
  mkNode "SBER" (Some 1%nat) None None [] None [] 0 [] None.

Definition bare_root_world : @World Z Z :=
  mkWorld [bare_root] [] ∅ ∅ (fun _ => 0) ∅ [[(3, 30)]] [].


(** The pipeline fitted at its end date 2. *)
Definition fitted_world : @World Z Z :=
  match (b <- build "SBER" [1%nat; 9%nat] 2 ;; Broker_fit 20 b) empty_world with
  | Ok _ w => w
  | _ => empty_world
  end.


(** Three pipelines that consist of a model only: their leaves are the
    three roots. *)
Definition three_roots_optimized : outcome unit :=
  (b1 <- build "SBER" [9%nat] 2 ;;
   build "SBER" [9%nat] 2 ;;
   build "SBER" [9%nat] 2 ;;
   _optimize 20 b1) empty_world.

(** The three snapshots listed out of chronological order. *)
Definition unordered_snapshots : list (@Snapshot Z) :=
  [(5, [90; 91]); (1, [70; 71]); (2, [80; 81])].

(** A facade for SBER that was constructed and has no pipeline yet. *)
Definition initialised : @World Z Z :=
  match Broker_init "SBER" None empty_world with
  | Ok _ w => w
  | _ => empty_world
  end.

(** The pipeline [A; HMM] built on its own, before any snapshot directory
    exists; the same after [compute]. *)
Definition built_bare : @World Z Z :=
  match build "SBER" [1%nat; 9%nat] 2 empty_world with
  | Ok _ w => w
  | _ => empty_world
  end.

Definition computed_world : @World Z Z :=
  match Broker_compute 20 0 None (built_world []) with
  | Ok _ w => w
  | _ => empty_world
  end.

(** Two identical pipelines [A; HMM] of one instrument, before and after
    the optimizer pass. *)
Definition two_built : @World Z Z :=
  match (build "SBER" [1%nat; 9%nat] 2 ;; build "SBER" [1%nat; 9%nat] 2) empty_world with
  | Ok _ w => w
  | _ => empty_world
  end.

Definition two_optimized : @World Z Z :=
  match _optimize 20 0 two_built with
  | Ok _ w => w
  | _ => empty_world
  end.

(** [bare_root_world] after [update] through 3, and after the flush that
    follows. *)
Definition updated_bare_root : @World Z Z :=
  match DataNode_update 0 3 bare_root_world with
  | Ok _ w => w
  | _ => empty_world
  end.

Definition flushed_bare_root : @World Z Z :=
  match DataNode_cache_new_data 0 updated_bare_root with
  | Ok _ w => w
  | _ => empty_world
  end.

(** Three snapshots listed as 2, 1, 5. *)
Definition shuffled_snapshots : list (@Snapshot Z) :=
  [(2, [80; 81]); (1, [70; 71]); (5, [90; 91])].

(** The pipeline [A; HMM] built with end date 3, and its snapshot
    directory holding [files]. *)
Definition built_late (files : list (@Snapshot Z)) : @World Z Z :=
  match (build "SBER" [1%nat; 9%nat] 3 ;; put_snapshots files) empty_world with
  | Ok _ w => w
  | _ => empty_world
  end.

(** The two identical pipelines after [compute] through the first
    facade: the shared root and the first leaf hold data, the second leaf
    does not. *)
Definition two_computed : @World Z Z :=
  match Broker_compute 20 0 None two_built with
  | Ok _ w => w
  | _ => empty_world
  end.

(** The fitted pipeline with its snapshot directories on disk already,
    the innermost one holding [files]. *)
Definition fitted_beside (files : list (@Snapshot Z)) : @World Z Z :=
  with_fs (<["/candles/t_invest/SBER/HMM/A/":=files]>
             (<["/candles/t_invest/SBER/HMM":=[]]>
                (<["/candles/t_invest/SBER":=[]]> (fs fitted_world))))
          fitted_world.

(** The built facade (end date 2) after [load_model] found nothing but a
    snapshot at 5 and ended in its exception. *)
Definition starved_world : @World Z Z :=
  match Broker_load_model 20 0 false (built_world [(5, [90; 91])]) with
  | Raise _ w => w
  | _ => empty_world
  end.

End Demo.

(** * Properties *)

Section Properties.

Context {Row State : Type} {Ext : @External Row State}.

Implicit Types (w : @World Row State) (n : @DataNode Row).

(** ** Stepping through the store monad *)

Lemma bind_Ok_inv {A B} (m : M A) (k : A -> M B) w (b : B) w' :
  bind m k w = Ok b w' -> exists a w1, m w = Ok a w1 /\ k a w1 = Ok b w'.
Proof.
  unfold bind. destruct (m w) as [a w1|e w1| |]; try discriminate.
  intros H. exists a, w1. split; [reflexivity | exact H].
Qed.

Lemma bind_Ok {A B} (m : M A) (k : A -> M B) w a w1 :
  m w = Ok a w1 -> bind m k w = k a w1.
Proof. unfold bind. intros ->. reflexivity. Qed.

Lemma bind_Raise {A B} (m : M A) (k : A -> M B) w e w1 :
  m w = Raise e w1 -> bind m k w = Raise e w1.
Proof. unfold bind. intros ->. reflexivity. Qed.

Lemma get_node_Ok r w n : heap w !! r = Some n -> get_node r w = Ok n w.
Proof. unfold get_node. intros ->. reflexivity. Qed.

Lemma get_node_inv r w n w' : get_node r w = Ok n w' -> heap w !! r = Some n /\ w' = w.
Proof.
  unfold get_node. destruct (heap w !! r); [|discriminate].
  intros H. injection H as -> ->. split; reflexivity.
Qed.

Lemma get_broker_Ok b w bk : brokers w !! b = Some bk -> get_broker b w = Ok bk w.
Proof. unfold get_broker. intros ->. reflexivity. Qed.

Lemma get_broker_inv b w bk w' :
  get_broker b w = Ok bk w' -> brokers w !! b = Some bk /\ w' = w.
Proof.
  unfold get_broker. destruct (brokers w !! b); [|discriminate].
  intros H. injection H as -> ->. split; reflexivity.
Qed.

Lemma attr_of_inv {A} (o : option A) w a w' :
  attr_of o w = Ok a w' -> o = Some a /\ w' = w.
Proof.
  destruct o; simpl; [|discriminate].
  unfold ret. intros H. injection H as -> ->. split; reflexivity.
Qed.


Ltac wsimpl :=
  cbn [heap brokers nodes optimized states fs new_candles trace
       with_heap with_brokers with_nodes with_optimized with_states with_fs with_trace] in *.

(** Read back the node just written at a handle in range. *)
Ltac look Hlen :=
  rewrite list_lookup_insert_eq by (wsimpl; rewrite ?length_insert; exact Hlen).

(** Invert a primitive that returned. *)
Ltac mprim H :=
  lazymatch type of H with
  | get_node _ _ = Ok _ _ => apply get_node_inv in H as [H ->]
  | get_broker _ _ = Ok _ _ => apply get_broker_inv in H as [H ->]
  | attr_of _ _ = Ok _ _ => apply attr_of_inv in H as [H ->]
  | ret _ _ = Ok _ _ => unfold ret in H; inversion H; subst; clear H
  | put_node _ _ _ = Ok _ _ => unfold put_node in H; inversion H; subst; clear H
  | put_broker _ _ _ = Ok _ _ => unfold put_broker in H; inversion H; subst; clear H
  | put_state _ _ _ = Ok _ _ => unfold put_state in H; inversion H; subst; clear H
  | get_state _ _ = Ok _ _ => unfold get_state in H; inversion H; subst; clear H
  | log _ _ = Ok _ _ => unfold log in H; inversion H; subst; clear H
  | set_nodes _ _ _ = Ok _ _ => unfold set_nodes in H; inversion H; subst; clear H
  | set_optimized _ _ _ = Ok _ _ => unfold set_optimized in H; inversion H; subst; clear H
  | raise _ _ = Ok _ _ => discriminate H
  | out_of_fuel _ = Ok _ _ => discriminate H
  | _ => idtac
  end.

(** Invert a run that returned at its first bind: [a] is the value and
    [w1] the store the first step returned, [H1] what is known of it. *)
Tactic Notation "mstep" hyp(H) "as" ident(a) ident(w1) ident(H1) :=
  apply bind_Ok_inv in H as (a & w1 & H1 & H); cbv beta in H; mprim H1.


(** ** Structural equality *)

(** On two roots [__eq__] is decided by the transformers and the end
    dates alone; the tickers of the two nodes play no part. *)
Lemma DataNode_eq_roots fuel x y w s o :
  heap w !! x = Some s -> heap w !! y = Some o ->
  parent s = None -> parent o = None ->
  DataNode_eq (S fuel) x y w
  = Ok (opt_nat_eqb (transformer s) (transformer o)
        && opt_Z_eqb (end_date s) (end_date o)) w.
Proof.
  intros Hs Ho Hps Hpo. simpl.
  rewrite (bind_Ok _ _ _ _ _ (get_node_Ok _ _ _ Hs)).
  rewrite (bind_Ok _ _ _ _ _ (get_node_Ok _ _ _ Ho)).
  rewrite Hps, Hpo. destruct (opt_nat_eqb (transformer s) (transformer o)); simpl;
    [|reflexivity].
  unfold bind, ret. simpl. rewrite String.eqb_refl. reflexivity.
Qed.

(** ** The update path *)

(** [update] on a node that has a parent always ends in the [TypeError]
    of the argument-less call [self.parent.update()]; only [end_date] has
    been assigned by then. *)
Lemma DataNode_update_with_parent r d w n p :
  heap w !! r = Some n -> parent n = Some p ->
  DataNode_update r d w
  = Raise "TypeError" (with_heap (<[r:=set_end_date (Some d) n]> (heap w)) w).
Proof.
  intros Hr Hp. unfold DataNode_update.
  rewrite (bind_Ok _ _ _ _ _ (get_node_Ok _ _ _ Hr)).
  unfold bind at 1. unfold put_node at 1.
  assert (Hr' : heap (with_heap (<[r:=set_end_date (Some d) n]> (heap w)) w) !! r
                = Some (set_end_date (Some d) n)).
  { simpl. apply list_lookup_insert_eq. eapply lookup_lt_Some; eassumption. }
  rewrite (bind_Ok _ _ _ _ _ (get_node_Ok _ _ _ Hr')).
  simpl. rewrite Hp. reflexivity.
Qed.

(** [update] on a root without a transformer, the only kind of root
    [make_pipeline] creates, ends in the [AttributeError] of
    [None.transform]. *)
Lemma DataNode_update_plain_root r d w n :
  heap w !! r = Some n -> parent n = None -> transformer n = None ->
  exists w', DataNode_update r d w = Raise "AttributeError" w'.
Proof.
  intros Hr Hp Ht. unfold DataNode_update.
  rewrite (bind_Ok _ _ _ _ _ (get_node_Ok _ _ _ Hr)).
  unfold bind at 1. unfold put_node at 1.
  assert (Hlen : (r < length (heap w))%nat) by (eapply lookup_lt_Some; eassumption).
  match goal with |- context [with_heap ?h w] => set (w1 := with_heap h w) end.
  assert (Hr1 : heap w1 !! r = Some (set_end_date (Some d) n))
    by (simpl; apply list_lookup_insert_eq; exact Hlen).
  rewrite (bind_Ok _ _ _ _ _ (get_node_Ok _ _ _ Hr1)).
  simpl parent. rewrite Hp.
  unfold bind at 1. unfold bind at 1. unfold bind at 1. unfold put_node at 1.
  match goal with |- context [with_heap ?h w1] => set (w2 := with_heap h w1) end.
  assert (Hr2 : heap w2 !! r
                = Some (set_processed
                          (n_of_new_data_processed (set_end_date (Some d) n)
                           + (Z.of_nat (length (new_candles w1))
                              - n_of_new_data_processed (set_end_date (Some d) n)))
                          (set_end_date (Some d) n))).
  { simpl. apply list_lookup_insert_eq. rewrite length_insert. exact Hlen. }
  destruct (0 <? _); unfold ret;
    rewrite (bind_Ok _ _ _ _ _ (get_node_Ok _ _ _ Hr2)); simpl; rewrite Ht;
    simpl; eexists; reflexivity.
Qed.

(** ** Flushing and updating a node that was never computed *)

Lemma omap_id_Some {A} (l : list A) : omap id (map Some l) = l.
Proof. induction l as [|x l IH]; [reflexivity|]. simpl. f_equal. exact IH. Qed.

Lemma pd_concat_unset (l : list (@Table Row)) :
  pd_concat (None :: map Some l)
  = match l with [] => None | _ :: _ => Some (concat l) end.
Proof.
  unfold pd_concat. simpl omap. rewrite omap_id_Some. destruct l; reflexivity.
Qed.

(** C6, as the code has it: no method checks that [data] is set.  On a
    node whose [data] is unset, [cache_new_data] raises the [ValueError]
    of [pd.concat] and leaves the store as it was when no batch is
    pending; with batches pending it returns and [data] becomes their
    concatenation; and [update] on a root that has a transformer returns,
    with one more batch pending and [data] still unset. *)
Theorem update_and_flush_before_compute r d w n :
  heap w !! r = Some n -> data n = None ->
  (new_data n = [] -> DataNode_cache_new_data r w = Raise "ValueError" w) /\
  (new_data n <> [] ->
     exists w' n', DataNode_cache_new_data r w = Ok tt w' /\
       heap w' !! r = Some n' /\ data n' = Some (concat (new_data n)) /\ new_data n' = []) /\
  (parent n = None -> forall t, transformer n = Some t ->
     exists tbl w' n', DataNode_update r d w = Ok tbl w' /\
       heap w' !! r = Some n' /\ data n' = None /\ new_data n' = new_data n ++ [tbl]).
Proof.
  intros Hr Hd.
  assert (Hlen : (r < length (heap w))%nat) by (eapply lookup_lt_Some; eassumption).
  split; [|split].
  - intros Hnew. unfold DataNode_cache_new_data.
    rewrite (bind_Ok _ _ _ _ _ (get_node_Ok _ _ _ Hr)).
    rewrite Hd, pd_concat_unset, Hnew. reflexivity.
  - intros Hnew. unfold DataNode_cache_new_data.
    rewrite (bind_Ok _ _ _ _ _ (get_node_Ok _ _ _ Hr)).
    rewrite Hd, pd_concat_unset.
    destruct (new_data n) as [|t ts] eqn:El; [congruence|].
    unfold bind, put_node, get_node. wsimpl.
    look Hlen. look Hlen.
    eexists _, _. split; [reflexivity|]. wsimpl.
    look Hlen.
    split; [reflexivity|]. split; reflexivity.
  - intros Hp t Ht. unfold DataNode_update.
    rewrite (bind_Ok _ _ _ _ _ (get_node_Ok _ _ _ Hr)).
    unfold bind, put_node, get_node, attr_of, get_state, log, put_state, ret. wsimpl.
    look Hlen.
    cbn [parent set_end_date]. rewrite Hp.
    destruct (0 <? _); cbv beta iota; wsimpl; look Hlen;
      cbn [transformer set_processed set_end_date]; rewrite Ht; unfold raise;
      cbv beta iota; wsimpl;
      look Hlen; (eexists _, _, _; split; [reflexivity|]); wsimpl; look Hlen;
      (split; [reflexivity|]); (split; [simpl; exact Hd | reflexivity]).
Qed.

(** ** Loading when no snapshot is old enough *)

Lemma scan_none_before self w b e files :
  brokers w !! self = Some b -> broker_end_date b = Some e ->
  (forall f, f ∈ files -> e < f) ->
  scan_snapshots self files None w
  = Ok None (with_brokers (<[self:=set_next_cached_model_date
                               (Some (match files with [] => datetime_max | f :: _ => f end)) b]>
                             (brokers w)) w).
Proof.
  intros Hb He Hall. destruct files as [|f rest]; simpl.
  - unfold bind, get_broker. rewrite Hb. reflexivity.
  - unfold bind, get_broker. rewrite Hb, He.
    assert (e < f) by (apply Hall; constructor).
    destruct (Z.leb_spec f e); [lia|]. reflexivity.
Qed.

(** C5, as the code has it: when the snapshot directory lists no file at
    or before [end_date], [load_model] selects no file, records the
    horizon (the first listed file, or the maximal timestamp for an empty
    directory) and then calls [joblib.load(None)], whose [TypeError] ends
    the call.  Heap, transformer and model states, files and [fit_date]
    are as before. *)
Theorem load_model_without_snapshot fuel self compute_data w b m files e :
  brokers w !! self = Some b -> model b = Some m -> broker_end_date b = Some e ->
  fs w !! snapshot_dir b (name m) = Some files ->
  (forall f, f ∈ files -> e < fst f) ->
  Broker_load_model fuel self compute_data w
  = Raise "TypeError"
      (mkWorld (heap w)
         (<[self:=set_next_cached_model_date
                    (Some (match files with [] => datetime_max | f :: _ => fst f end)) b]>
            (brokers w))
         (nodes w) (optimized w) (states w) (fs w) (new_candles w)
         (trace w ++ [EvListdir (snapshot_dir b (name m));
                      EvJoblibLoad (snapshot_dir b (name m)) None])).
Proof.
  intros Hb Hm He Hfs Hall.
  unfold Broker_load_model.
  rewrite (bind_Ok _ _ _ _ _ (get_broker_Ok _ _ _ Hb)). rewrite Hm. simpl attr_of.
  unfold bind at 1. unfold ret at 1.
  unfold bind at 1. unfold os_listdir, bind at 1, log. simpl fs. rewrite Hfs.
  erewrite bind_Ok.
  2:{ apply scan_none_before with (e := e); [exact Hb | exact He |].
      intros f Hf. apply list_elem_of_fmap in Hf as (x & -> & Hx). apply Hall, Hx. }
  unfold bind at 1, joblib_load, bind at 1, log, raise. simpl.
  rewrite <- app_assoc. simpl.
  destruct files; reflexivity.
Qed.

(** A missing directory ends the call in [os.listdir]. *)
Lemma load_model_missing_directory fuel self compute_data w b m :
  brokers w !! self = Some b -> model b = Some m ->
  fs w !! snapshot_dir b (name m) = None ->
  Broker_load_model fuel self compute_data w
  = Raise "FileNotFoundError"
      (with_trace (trace w ++ [EvListdir (snapshot_dir b (name m))]) w).
Proof.
  intros Hb Hm Hfs. unfold Broker_load_model.
  rewrite (bind_Ok _ _ _ _ _ (get_broker_Ok _ _ _ Hb)). rewrite Hm. simpl attr_of.
  unfold bind at 1. unfold ret at 1.
  unfold bind at 1. unfold os_listdir, bind at 1, log. simpl fs.
  unfold Snapshot in *. rewrite Hfs.
  reflexivity.
Qed.

(** ** The snapshot scan *)

Lemma scan_broker_frame e l b :
  ticker_sign (scan_broker e l b) = ticker_sign b /\
  final_datanode (scan_broker e l b) = final_datanode b /\
  model (scan_broker e l b) = model b /\
  data_name (scan_broker e l b) = data_name b /\
  broker_end_date (scan_broker e l b) = broker_end_date b.
Proof.
  revert b. induction l as [|f rest IH]; intros b; simpl.
  - repeat split.
  - destruct (f <=? e); [|repeat split].
    destruct (IH (set_fit_date (Some f) b)) as (H1 & H2 & H3 & H4 & H5).
    rewrite H1, H2, H3, H4, H5. repeat split.
Qed.

Lemma scan_snapshots_eq self l : forall latest w b e,
  brokers w !! self = Some b -> broker_end_date b = Some e ->
  scan_snapshots self l latest w
  = Ok (scan_latest e l latest)
       (with_brokers (<[self:=scan_broker e l b]> (brokers w)) w).
Proof.
  induction l as [|f rest IH]; intros latest w b e Hb He; simpl.
  - unfold bind, get_broker. rewrite Hb. reflexivity.
  - unfold bind at 1, get_broker. rewrite Hb, He.
    destruct (f <=? e); [|reflexivity].
    unfold bind at 1, put_node. unfold put_broker at 1.
    assert (Hlen : (self < length (brokers w))%nat) by (eapply lookup_lt_Some; eassumption).
    erewrite IH; [|wsimpl; apply list_lookup_insert_eq; exact Hlen | exact He].
    wsimpl. rewrite list_insert_insert_eq. reflexivity.
Qed.

Lemma scan_all_later e l : forall latest b,
  Forall (fun y => e < y) l ->
  scan_latest e l latest = latest /\ fit_date (scan_broker e l b) = fit_date b /\
  next_cached_model_date (scan_broker e l b)
  = Some (match l with [] => datetime_max | y :: _ => y end).
Proof.
  intros latest b Hall. destruct l as [|y rest]; simpl; [repeat split|].
  inversion Hall; subst. destruct (Z.leb_spec y e); [lia|]. repeat split.
Qed.

Lemma filter_all (P : Z -> Prop) `{forall y, Decision (P y)} (l : list Z) :
  Forall P l -> filter P l = l.
Proof.
  induction 1 as [|y l Hy Hl IH]; [reflexivity|].
  rewrite filter_cons_True by exact Hy. rewrite IH. reflexivity.
Qed.

(** On a chronological listing the scan ends on the latest file at or
    before [e], and the horizon is the file after it. *)
Lemma scan_sorted e l : forall latest b x,
  StronglySorted Z.lt l -> x ∈ l -> x <= e ->
  (forall y, y ∈ l -> x < y -> e < y) ->
  scan_latest e l latest = Some x /\ fit_date (scan_broker e l b) = Some x /\
  next_cached_model_date (scan_broker e l b)
  = Some (match filter (fun y => x < y) l with [] => datetime_max | y :: _ => y end).
Proof.
  induction l as [|f rest IH]; intros latest b x Hs Hx Hle Hnext.
  - inversion Hx.
  - apply StronglySorted_inv in Hs as [Hs Hf].
    apply elem_of_cons in Hx as [->|Hx].
    + simpl. destruct (Z.leb_spec f e); [|lia].
      assert (Hall : Forall (fun y => e < y) rest).
      { apply Forall_forall. intros y Hy. apply Hnext; [right; exact Hy|].
        rewrite Forall_forall in Hf. apply Hf, Hy. }
      destruct (scan_all_later e rest (Some f) (set_fit_date (Some f) b) Hall)
        as (H1 & H2 & H3).
      rewrite H1, H2, H3. split; [reflexivity|]. split; [reflexivity|].
      rewrite filter_cons_False by lia.
      rewrite filter_all by exact Hf. reflexivity.
    + assert (f < x) by (rewrite Forall_forall in Hf; apply Hf, Hx).
      simpl. destruct (Z.leb_spec f e); [|lia].
      rewrite filter_cons_False by lia.
      apply IH; [exact Hs | exact Hx | exact Hle |].
      intros y Hy. apply Hnext. right. exact Hy.
Qed.

(** ** Saving and restoring along the chain *)

Lemma DataNode_save_model_chain h r ts :
  chain h r ts -> forall fuel w acc,
  heap w = h -> (length ts < fuel)%nat ->
  DataNode_save_model fuel r acc w
  = Ok (acc ++ map (states w) ts) (with_trace (trace w ++ map EvSaveState ts) w).
Proof.
  induction 1 as [r n Hr Hp|r p n t ts Hr Hp Ht Hc IH]; intros fuel w acc Hh Hfuel.
  - destruct fuel as [|fuel]; [simpl in Hfuel; lia|]. simpl.
    subst h. rewrite (bind_Ok _ _ _ _ _ (get_node_Ok _ _ _ Hr)). rewrite Hp.
    unfold ret. rewrite !app_nil_r. destruct w; reflexivity.
  - destruct fuel as [|fuel]; [simpl in Hfuel; lia|]. simpl in Hfuel. simpl.
    subst h. rewrite (bind_Ok _ _ _ _ _ (get_node_Ok _ _ _ Hr)). rewrite Hp, Ht.
    unfold attr_of, bind at 1, ret, bind at 1, get_state, bind at 1, log.
    rewrite IH; [|reflexivity|lia]. wsimpl.
    rewrite <- !app_assoc. reflexivity.
Qed.

Lemma DataNode_load_model_chain h r ts :
  chain h r ts -> forall w ss extra,
  heap w = h -> length ss = length ts ->
  DataNode_load_model r (ss ++ extra) w
  = Ok tt (with_states (assign ts ss (states w))
             (with_trace (trace w ++ map EvLoadState ts) w)).
Proof.
  induction 1 as [r n Hr Hp|r p n t ts Hr Hp Ht Hc IH]; intros w ss extra Hh Hlen.
  - destruct ss; [|discriminate]. subst h.
    assert (Heq : forall l, DataNode_load_model r l w = Ok tt w).
    { intros l. destruct l; simpl;
        rewrite (bind_Ok _ _ _ _ _ (get_node_Ok _ _ _ Hr)); rewrite Hp; reflexivity. }
    rewrite Heq. simpl. rewrite app_nil_r. destruct w; reflexivity.
  - destruct ss as [|s ss]; [discriminate|]. simpl in Hlen. subst h. simpl.
    rewrite (bind_Ok _ _ _ _ _ (get_node_Ok _ _ _ Hr)). rewrite Hp, Ht.
    unfold attr_of, bind at 1, ret, bind at 1, log, bind at 1, put_state.
    rewrite IH; [|reflexivity|lia]. wsimpl.
    rewrite <- !app_assoc. reflexivity.
Qed.

Lemma assign_other ts : forall (ss : list State) st x,
  x ∉ ts -> assign ts ss st x = st x.
Proof.
  induction ts as [|t ts IH]; intros ss st x Hx; [reflexivity|].
  destruct ss as [|s ss]; [reflexivity|]. simpl.
  apply not_elem_of_cons in Hx as [Hne Hx].
  rewrite IH by exact Hx. apply Nat.eqb_neq in Hne. rewrite Hne. reflexivity.
Qed.

(** Assigning to every object of [ts] its own value under [sigma]
    leaves each of them with that value, also when an object occurs more
    than once. *)
Lemma assign_own (sigma : nat -> State) ts : forall st x,
  x ∈ ts -> assign ts (map sigma ts) st x = sigma x.
Proof.
  induction ts as [|t ts IH]; intros st x Hx; [inversion Hx|].
  simpl. destruct (decide (x ∈ ts)) as [Hin|Hout].
  - apply IH, Hin.
  - apply elem_of_cons in Hx as [->|Hx]; [|contradiction].
    rewrite assign_other by exact Hout. rewrite Nat.eqb_refl. reflexivity.
Qed.

Lemma find_file_write_file d (c : list State) files :
  find_file d (write_file d c files) = Some c.
Proof.
  unfold find_file. induction files as [|f rest IH]; simpl.
  - rewrite decide_True by reflexivity. reflexivity.
  - destruct (Z.eqb_spec (fst f) d) as [Heq|Hne]; simpl.
    + rewrite decide_True by reflexivity. reflexivity.
    + rewrite decide_False by exact Hne.
      destruct (list_find (fun f : Z * list State => f.1 = d) (write_file d c rest))
        as [[i y]|]; simpl in *; [exact IH | discriminate].
Qed.

Lemma find_file_listed d (c : list State) files :
  find_file d files = Some c -> d ∈ map fst files.
Proof.
  unfold find_file.
  destruct (list_find (fun f : Z * list State => f.1 = d) files) as [[i y]|] eqn:E;
    [|discriminate].
  intros _. apply list_find_Some in E as (Hi & Hy & _).
  rewrite <- Hy. apply list_elem_of_fmap_2. eapply list_elem_of_lookup_2. exact Hi.
Qed.

Lemma mkdir_if_missing_Ok p w :
  exists w', mkdir_if_missing p w = Ok tt w' /\
    heap w' = heap w /\ brokers w' = brokers w /\ states w' = states w /\
    is_Some (fs w' !! p).
Proof.
  unfold mkdir_if_missing, os_path_isdir, bind, log. wsimpl.
  destruct (fs w !! p) as [files|] eqn:E.
  - rewrite bool_decide_eq_true_2 by eauto. simpl.
    eexists. split; [reflexivity|]. wsimpl. rewrite E. eauto.
  - rewrite bool_decide_eq_false_2 by (intros [? ?]; discriminate). simpl.
    unfold os_mkdir, bind, log. wsimpl. rewrite E.
    eexists. split; [reflexivity|]. wsimpl. rewrite lookup_insert_eq. eauto.
Qed.

Lemma Broker_save_model_Ok fuel self w b m d leaf ts :
  brokers w !! self = Some b -> model b = Some m -> fit_date b = Some d ->
  final_datanode b = Some leaf -> chain (heap w) leaf ts -> (length ts < fuel)%nat ->
  exists w1 files,
    Broker_save_model fuel self w = Ok tt w1 /\
    heap w1 = heap w /\ brokers w1 = brokers w /\ states w1 = states w /\
    fs w1 !! snapshot_dir b (name m) = Some files /\
    find_file d files = Some (map (states w) (m :: ts)).
Proof.
  intros Hb Hm Hd Hleaf Hc Hfuel. unfold Broker_save_model.
  rewrite (bind_Ok _ _ _ _ _ (get_broker_Ok _ _ _ Hb)). rewrite Hm.
  destruct (mkdir_if_missing_Ok (snapshot_root +:+ "/" +:+ ticker_sign b) w)
    as (wa & Ha & Hha & Hba & Hsa & _).
  rewrite (bind_Ok _ _ _ _ _ Ha).
  destruct (mkdir_if_missing_Ok
              (snapshot_root +:+ "/" +:+ ticker_sign b +:+ "/" +:+ name m) wa)
    as (wb & Hwb & Hhb & Hbb & Hsb & _).
  rewrite (bind_Ok _ _ _ _ _ Hwb).
  destruct (mkdir_if_missing_Ok (snapshot_dir b (name m)) wb)
    as (wc & Hwc & Hhc & Hbc & Hsc & [files Hfiles]).
  rewrite (bind_Ok _ _ _ _ _ Hwc).
  assert (Hb' : brokers wc !! self = Some b) by (rewrite Hbc, Hbb, Hba; exact Hb).
  rewrite (bind_Ok _ _ _ _ _ (get_broker_Ok _ _ _ Hb')). rewrite Hm, Hd, Hleaf.
  unfold attr_of, bind at 1, ret, bind at 1, bind at 1, get_state, bind at 1, log, bind at 1.
  set (w0 := with_trace (trace wc ++ [EvSaveState m]) wc).
  assert (Hh0 : heap w0 = heap w) by (subst w0; wsimpl; rewrite Hhc, Hhb, Hha; reflexivity).
  rewrite (bind_Ok _ _ _ _ _
             (DataNode_save_model_chain _ _ _ Hc fuel w0 [states wc m] Hh0 Hfuel)).
  subst w0.
  unfold joblib_dump, bind, log. wsimpl. unfold Snapshot in *. rewrite Hfiles.
  eexists _, _. split; [reflexivity|]. wsimpl.
  rewrite lookup_insert_eq.
  split; [rewrite Hhc, Hhb, Hha; reflexivity|].
  split; [rewrite Hbc, Hbb, Hba; reflexivity|].
  split; [rewrite Hsc, Hsb, Hsa; reflexivity|].
  split; [reflexivity|].
  rewrite find_file_write_file. rewrite Hsc, Hsb, Hsa. reflexivity.
Qed.

Lemma log_eq (ev : Event) w : log ev w = Ok tt (with_trace (trace w ++ [ev]) w).
Proof. reflexivity. Qed.

Lemma os_listdir_Ok p w files :
  fs w !! p = Some files ->
  os_listdir p w = Ok (map fst files) (with_trace (trace w ++ [EvListdir p]) w).
Proof. intros H. unfold os_listdir, bind, log. wsimpl. unfold Snapshot in *. rewrite H. reflexivity. Qed.

Lemma joblib_load_Ok dir d w files c :
  fs w !! dir = Some files -> find_file d files = Some c ->
  joblib_load dir (Some d) w
  = Ok c (with_trace (trace w ++ [EvJoblibLoad dir (Some d)]) w).
Proof.
  intros H Hc. unfold joblib_load, bind, log. wsimpl. unfold Snapshot in *.
  rewrite H. simpl. rewrite Hc. reflexivity.
Qed.

Lemma joblib_load_cases dir d w :
  (exists c, joblib_load dir (Some d) w
             = Ok c (with_trace (trace w ++ [EvJoblibLoad dir (Some d)]) w)) \/
  joblib_load dir (Some d) w
  = Raise "FileNotFoundError" (with_trace (trace w ++ [EvJoblibLoad dir (Some d)]) w).
Proof.
  unfold joblib_load, bind, log. wsimpl.
  destruct (fs w !! dir ≫= find_file d) as [c|]; [left; exists c; reflexivity | right; reflexivity].
Qed.

(** ** What follows the selection keeps it *)

Lemma keeps_refl w : keeps w w.
Proof.
  split; [reflexivity|]. split; [exists []; rewrite app_nil_r; reflexivity|].
  split; [reflexivity|]. intros self b Hb. exists b. repeat split; assumption.
Qed.

Lemma keeps_trans w1 w2 w3 : keeps w1 w2 -> keeps w2 w3 -> keeps w1 w3.
Proof.
  intros (Hl1 & [tr1 Ht1] & Hn1 & Hb1) (Hl2 & [tr2 Ht2] & Hn2 & Hb2).
  split; [congruence|]. split; [exists (tr1 ++ tr2); rewrite Ht2, Ht1, app_assoc; reflexivity|].
  split; [congruence|].
  intros self b Hb. destruct (Hb1 _ _ Hb) as (b' & Hb' & E1 & E2 & E3 & E4).
  destruct (Hb2 _ _ Hb') as (b'' & Hb'' & F1 & F2 & F3 & F4).
  exists b''. repeat split; congruence.
Qed.

Lemma keeps_heap_states w h st tr :
  length h = length (heap w) ->
  keeps w (mkWorld h (brokers w) (nodes w) (optimized w) st (fs w) (new_candles w)
                   (trace w ++ tr)).
Proof.
  intros Hl. split; [exact Hl|]. split; [exists tr; reflexivity|].
  split; [reflexivity|]. intros self b Hb. exists b. repeat split; assumption.
Qed.

Lemma DataNode_load_model_ends l : forall r w,
  (forall r n p, heap w !! r = Some n -> parent n = Some p -> (p < length (heap w))%nat) ->
  (r < length (heap w))%nat ->
  ends (DataNode_load_model r l w) w.
Proof.
  assert (Hstep : forall w ev t s,
             keeps w (with_states (fun x => if Nat.eqb x t then s else states w x)
                        (with_trace (trace w ++ [ev]) w))).
  { intros. apply (keeps_heap_states w (heap w) _ [ev]). reflexivity. }
  induction l as [|s rest IH]; intros r w Hcl Hr.
  - apply lookup_lt_is_Some_2 in Hr as [n Hn]. simpl.
    rewrite (bind_Ok _ _ _ _ _ (get_node_Ok _ _ _ Hn)).
    destruct (parent n); [|exists w; split; [reflexivity | apply keeps_refl]].
    destruct (transformer n); simpl; exists w; (split; [reflexivity | apply keeps_refl]).
  - pose proof Hr as Hr'. apply lookup_lt_is_Some_2 in Hr as [n Hn]. simpl.
    rewrite (bind_Ok _ _ _ _ _ (get_node_Ok _ _ _ Hn)).
    destruct (parent n) as [p|] eqn:Hp; [|exists w; split; [reflexivity | apply keeps_refl]].
    destruct (transformer n) as [t|]; simpl;
      [|exists w; split; [reflexivity | apply keeps_refl]].
    unfold bind at 1, ret at 1, bind at 1, log, bind at 1, put_state.
    match goal with |- ends (DataNode_load_model p rest ?w1) _ =>
      destruct (IH p w1) as (w' & Hf & Hk) end.
    + wsimpl. exact Hcl.
    + wsimpl. eapply Hcl; eassumption.
    + exists w'. split; [exact Hf|]. eapply keeps_trans; [apply Hstep | exact Hk].
Qed.

Lemma keeps_intro w w' tr :
  length (heap w') = length (heap w) -> brokers w' = brokers w ->
  trace w' = trace w ++ tr -> keeps w w'.
Proof.
  intros Hl Hb Ht. split; [exact Hl|]. split; [exists tr; exact Ht|].
  split; [rewrite Hb; reflexivity|].
  intros self b Hs. exists b. rewrite Hb. repeat split; assumption.
Qed.

Ltac kintro tr :=
  match goal with |- keeps ?a ?c => apply (keeps_intro a c tr) end.

Lemma DataNode_update_ends r d w :
  (r < length (heap w))%nat -> ends (DataNode_update r d w) w.
Proof.
  intros Hlen. pose proof Hlen as Hr. apply lookup_lt_is_Some_2 in Hr as [n Hn].
  destruct (parent n) as [p|] eqn:Hp.
  - rewrite (DataNode_update_with_parent _ _ _ _ _ Hn Hp).
    eexists. split; [reflexivity|].
    kintro (@nil Event); wsimpl;
      [apply length_insert | reflexivity | rewrite app_nil_r; reflexivity].
  - unfold DataNode_update.
    rewrite (bind_Ok _ _ _ _ _ (get_node_Ok _ _ _ Hn)).
    unfold bind, put_node, get_node, attr_of, get_state, log, put_state, ret. wsimpl.
    look Hlen. cbn [parent set_end_date]. rewrite Hp.
    destruct (0 <? _); cbv beta iota; wsimpl; look Hlen;
      cbn [transformer set_processed set_end_date];
      (destruct (transformer n) as [t|]; unfold raise; cbv beta iota; wsimpl;
       [look Hlen|]);
      (eexists; split; [reflexivity|]).
    all: first [ kintro [EvTransform t]; wsimpl;
                 [rewrite !length_insert; reflexivity | reflexivity | reflexivity]
               | kintro (@nil Event); wsimpl;
                 [rewrite !length_insert; reflexivity | reflexivity
                 | rewrite app_nil_r; reflexivity] ].
Qed.

Lemma keeps_put_broker w self b b' :
  brokers w !! self = Some b ->
  fit_date b' = fit_date b -> next_cached_model_date b' = next_cached_model_date b ->
  final_datanode b' = final_datanode b -> model b' = model b ->
  keeps w (with_brokers (<[self:=b']> (brokers w)) w).
Proof.
  intros Hb H1 H2 H3 H4. split; [reflexivity|].
  split; [exists []; wsimpl; rewrite app_nil_r; reflexivity|].
  split; [wsimpl; apply length_insert|].
  intros s x Hx. wsimpl. destruct (decide (s = self)) as [->|Hne].
  - exists b'. rewrite list_lookup_insert_eq by (eapply lookup_lt_Some; eassumption).
    rewrite Hb in Hx. injection Hx as <-. repeat split; assumption.
  - exists x. rewrite list_lookup_insert_ne by congruence. repeat split; assumption.
Qed.

Lemma Broker_update_ends self d w :
  (forall b r, brokers w !! self = Some b -> final_datanode b = Some r ->
               (r < length (heap w))%nat) ->
  (self < length (brokers w))%nat ->
  ends (Broker_update self d w) w.
Proof.
  intros Hcl Hself. apply lookup_lt_is_Some_2 in Hself as [b Hb].
  unfold Broker_update.
  rewrite (bind_Ok _ _ _ _ _ (get_broker_Ok _ _ _ Hb)).
  destruct (final_datanode b) as [leaf|] eqn:Hleaf; simpl attr_of;
    [|exists w; split; [reflexivity | apply keeps_refl]].
  unfold bind at 1, ret at 1.
  destruct (DataNode_update_ends leaf d w (Hcl _ _ Hb Hleaf)) as (w1 & Hf & Hk).
  unfold bind at 1.
  destruct (DataNode_update leaf d w) as [tbl w1'|ex w1'| |] eqn:Hu; try discriminate.
  2:{ exists w1. split; [exact Hf | exact Hk]. }
  simpl in Hf. injection Hf as ->.
  destruct Hk as (Hl & Htr & Hn & Hbk).
  destruct (Hbk _ _ Hb) as (b1 & Hb1 & E1 & E2 & E3 & E4).
  rewrite (bind_Ok _ _ _ _ _ (get_broker_Ok _ _ _ Hb1)).
  destruct (model b1) as [m|]; simpl attr_of.
  2:{ exists w1. split; [reflexivity|]. split; [exact Hl|]. split; [exact Htr|].
      split; [exact Hn | exact Hbk]. }
  unfold bind at 1, ret at 1, bind at 1, get_state, bind at 1, log, bind at 1, put_state.
  unfold bind at 1, get_broker. wsimpl. rewrite Hb1. unfold put_broker. wsimpl.
  eexists. split; [reflexivity|].
  eapply keeps_trans; [split; [exact Hl|]; split; [exact Htr|]; split; [exact Hn | exact Hbk]|].
  match goal with |- keeps w1 (with_brokers _ ?wP) => apply (keeps_trans w1 wP) end.
  - kintro [EvModelUpdate m]; reflexivity.
  - match goal with |- keeps ?a _ =>
      apply (keeps_put_broker a self b1 (set_broker_end_date (Some d) b1)) end;
      [exact Hb1 | reflexivity..].
Qed.

Lemma ends_bind {A B} (m : M A) (k : A -> M B) w :
  ends (m w) w ->
  (forall a w1, m w = Ok a w1 -> keeps w w1 -> ends (k a w1) w1) ->
  ends (bind m k w) w.
Proof.
  intros (w1 & Hf & Hk) Hcont. unfold bind.
  destruct (m w) as [a w1'|ex w1'| |] eqn:Hm; try discriminate.
  - simpl in Hf. injection Hf as ->.
    destruct (Hcont a w1 eq_refl Hk) as (w2 & Hf2 & Hk2).
    exists w2. split; [exact Hf2 | eapply keeps_trans; eassumption].
  - exists w1. split; [exact Hf | exact Hk].
Qed.

Lemma catch_up_ends self w :
  (forall b r, brokers w !! self = Some b -> final_datanode b = Some r ->
               (r < length (heap w))%nat) ->
  (self < length (brokers w))%nat ->
  ends (catch_up self w) w.
Proof.
  intros Hcl Hself. pose proof Hself as Hs. apply lookup_lt_is_Some_2 in Hs as [b Hb].
  unfold catch_up. rewrite (bind_Ok _ _ _ _ _ (get_broker_Ok _ _ _ Hb)).
  destruct (broker_end_date b) as [e|];
    [|exists w; split; [reflexivity | apply keeps_refl]].
  destruct (fit_date b) as [f|];
    [|exists w; split; [reflexivity | apply keeps_refl]].
  destruct (f <? e); [|exists w; split; [reflexivity | apply keeps_refl]].
  apply Broker_update_ends; assumption.
Qed.

(** After the scan has selected [x] on a chronological listing, whatever
    [load_model] goes on to do, by return or by exception, the facade
    keeps [fit_date = x] and the horizon, and the file loaded is [x]. *)
Lemma load_model_selects_sorted self fuel w b m e files x :
  closed w -> brokers w !! self = Some b -> model b = Some m ->
  broker_end_date b = Some e ->
  fs w !! snapshot_dir b (name m) = Some files ->
  StronglySorted Z.lt (map fst files) -> x ∈ map fst files -> x <= e ->
  (forall y, y ∈ map fst files -> x < y -> e < y) ->
  selects (Broker_load_model fuel self false w) self (snapshot_dir b (name m)) x
    (match filter (fun y => x < y) (map fst files) with
     | [] => datetime_max
     | y :: _ => y
     end).
Proof.
  intros [Hcl1 Hcl2] Hb Hm He Hfiles Hsorted Hx Hle Hnext.
  assert (Hlen : (self < length (brokers w))%nat) by (eapply lookup_lt_Some; eassumption).
  destruct (scan_sorted e (map fst files) None b x Hsorted Hx Hle Hnext)
    as (Hlatest & Hfit & Hhor).
  destruct (scan_broker_frame e (map fst files) b) as (_ & Hfin & Hmod & _ & Hend).
  unfold Broker_load_model.
  rewrite (bind_Ok _ _ _ _ _ (get_broker_Ok _ _ _ Hb)). rewrite Hm.
  simpl attr_of. unfold bind at 1, ret at 1.
  rewrite (bind_Ok _ _ _ _ _ (os_listdir_Ok _ _ _ Hfiles)).
  set (wL := with_trace (trace w ++ [EvListdir (snapshot_dir b (name m))]) w).
  rewrite (bind_Ok _ _ _ _ _ (scan_snapshots_eq self _ None wL b e Hb He)).
  rewrite Hlatest.
  set (bS := scan_broker e (map fst files) b) in *.
  set (wS := with_brokers (<[self:=bS]> (brokers wL)) wL).
  set (wJ := with_trace (trace wS ++ [EvJoblibLoad (snapshot_dir b (name m)) (Some x)]) wS).
  assert (HbJ : brokers wJ !! self = Some bS)
    by (subst wJ wS wL; wsimpl; apply list_lookup_insert_eq; exact Hlen).
  assert (HhJ : heap wJ = heap w) by reflexivity.
  assert (HtJ : EvJoblibLoad (snapshot_dir b (name m)) (Some x) ∈ trace wJ).
  { subst wJ. wsimpl. apply elem_of_app. right. constructor. }
  assert (Hsel : forall (o : outcome unit), ends o wJ ->
            selects o self (snapshot_dir b (name m)) x
              (match filter (fun y => x < y) (map fst files) with
               | [] => datetime_max | y :: _ => y end)).
  { intros o (w' & Hf & _ & [tr Htr] & _ & Hk).
    destruct (Hk _ _ HbJ) as (b' & Hb' & E1 & E2 & _).
    exists w', b'. split; [exact Hf|]. split; [exact Hb'|].
    split; [rewrite E1; exact Hfit|]. split; [rewrite E2; exact Hhor|].
    rewrite Htr. apply elem_of_app. left. exact HtJ. }
  apply Hsel.
  destruct (joblib_load_cases (snapshot_dir b (name m)) x wS) as [[data_list Hload]|Hload];
    fold wJ in Hload;
    [rewrite (bind_Ok _ _ _ _ _ Hload)
    |rewrite (bind_Raise _ _ _ _ _ Hload); exists wJ; split; [reflexivity | apply keeps_refl]].
  rewrite (bind_Ok _ _ _ _ _ (get_broker_Ok _ _ _ HbJ)). rewrite Hmod, Hm.
  simpl attr_of. unfold bind at 1, ret at 1.
  destruct data_list as [|st rest]; [exists wJ; split; [reflexivity | apply keeps_refl]|].
  simpl negb. cbv iota.
  apply ends_bind; [eexists; split; [reflexivity|]; kintro [EvLoadState m]; reflexivity|].
  intros [] w1 Hw1 _. rewrite log_eq in Hw1. injection Hw1 as <-.
  apply ends_bind; [eexists; split; [reflexivity|]; kintro (@nil Event);
                    wsimpl; rewrite ?app_nil_r; reflexivity|].
  intros [] w2 Hw2 _. unfold put_state in Hw2. injection Hw2 as <-.
  set (wP := with_states _ _).
  assert (HbP : brokers wP !! self = Some bS) by exact HbJ.
  rewrite (bind_Ok _ _ _ _ _ (get_broker_Ok _ _ _ HbP)). rewrite Hfin.
  destruct (final_datanode b) as [leaf|] eqn:Hleaf; simpl attr_of;
    [|exists wP; split; [reflexivity | apply keeps_refl]].
  unfold bind at 1, ret at 1.
  apply ends_bind.
  - apply DataNode_load_model_ends; [exact Hcl1 | eapply Hcl2; eassumption].
  - intros [] w3 _ (Hl3 & _ & Hn3 & Hk3).
    apply catch_up_ends.
    + intros b3 r Hb3 Hr3. destruct (Hk3 _ _ HbP) as (b3' & Hb3' & _ & _ & F3 & _).
      rewrite Hb3 in Hb3'. injection Hb3' as <-.
      rewrite Hl3. change (heap wP) with (heap w). eapply (Hcl2 _ _ _ Hb).
      congruence.
    + rewrite Hn3. change (brokers wP) with (brokers wJ).
      eapply lookup_lt_Some; exact HbJ.
Qed.

(** ** The optimizer pass only retargets facades *)

Lemma retargets_refl w : retargets w w.
Proof.
  split; [reflexivity|]. intros s b Hb. exists b. split; [exact Hb|].
  destruct b; reflexivity.
Qed.

Lemma retargets_trans w1 w2 w3 : retargets w1 w2 -> retargets w2 w3 -> retargets w1 w3.
Proof.
  intros [Hl1 H1] [Hl2 H2]. split; [congruence|].
  intros s b Hb. destruct (H1 _ _ Hb) as (b' & Hb' & E1).
  destruct (H2 _ _ Hb') as (b'' & Hb'' & E2).
  exists b''. split; [exact Hb''|]. rewrite E2 at 1. rewrite E1. reflexivity.
Qed.

Lemma retargets_same w w' : brokers w' = brokers w -> retargets w w'.
Proof.
  intros E. split; [rewrite E; reflexivity|]. intros s b Hb. exists b.
  rewrite E. split; [exact Hb|]. destruct b; reflexivity.
Qed.

Lemma DataNode_eq_pure fuel : forall x y w v w',
  DataNode_eq fuel x y w = Ok v w' -> w' = w.
Proof.
  induction fuel as [|fuel IH]; intros x y w v w' H; [discriminate|].
  simpl in H. mstep H as s w1 Hs. mstep H as o w2 Ho.
  destruct (negb _); [mprim H; reflexivity|].
  mstep H as same w3 Hp.
  assert (w3 = w).
  { destruct (parent s), (parent o); try (mprim Hp; fail).
    - eapply IH; exact Hp.
    - mprim Hp. reflexivity. }
  subst w3. destruct (negb same); [mprim H; reflexivity|].
  destruct (negb _); mprim H; reflexivity.
Qed.

Lemma reparent_children_brokers fuel : forall node same_node i w w',
  reparent_children fuel node same_node i w = Ok tt w' -> brokers w' = brokers w.
Proof.
  induction fuel as [|fuel IH]; intros node same_node i w w' H; [discriminate|].
  simpl in H. mstep H as sn w1 Hsn.
  destruct (children sn !! i) as [child|]; [|mprim H; reflexivity].
  mstep H as c w1 Hc. mstep H as u1 w2 Hu1. mstep H as n w3 Hn. mstep H as u2 w4 Hu2.
  apply IH in H. rewrite H. reflexivity.
Qed.

Lemma retarget_brokers_retargets node subscribers : forall w w',
  retarget_brokers node subscribers w = Ok tt w' -> retargets w w'.
Proof.
  induction subscribers as [|s rest IH]; intros w w' H; simpl in H.
  - mprim H. apply retargets_refl.
  - mstep H as b w1 Hb. mstep H as u w2 Hu. apply IH in H.
    eapply retargets_trans; [|exact H].
    split; [wsimpl; apply length_insert|].
    intros s' b' Hb'. wsimpl. destruct (decide (s' = s)) as [->|Hne].
    + rewrite list_lookup_insert_eq by (eapply lookup_lt_Some; eassumption).
      eexists. split; [reflexivity|]. rewrite Hb in Hb'. injection Hb' as <-. reflexivity.
    + rewrite list_lookup_insert_ne by congruence.
      exists b'. split; [exact Hb'|]. destruct b'; reflexivity.
Qed.

Lemma merge_into_retargets fuel node same_node w w' :
  merge_into fuel node same_node w = Ok tt w' -> retargets w w'.
Proof.
  unfold merge_into. intros H. mstep H as n w1 Hn. mstep H as sn w2 Hsn.
  mstep H as u1 w3 Hd.
  assert (E1 : brokers w3 = brokers w).
  { destruct (data n), (data sn); mprim Hd; reflexivity. }
  mstep H as u2 w4 Hr. destruct u2. apply reparent_children_brokers in Hr.
  mstep H as sn' w5 Hsn'. mstep H as u3 w6 Ht. destruct u3.
  apply retarget_brokers_retargets in Ht.
  mstep H as n' w7 Hn'. mstep H as sn'' w8 Hsn''. mprim H.
  eapply retargets_trans; [apply retargets_same; rewrite Hr; exact E1|].
  eapply retargets_trans; [exact Ht|]. apply retargets_same. reflexivity.
Qed.

Lemma merge_duplicates_retargets fuel key aliased node slice :
  forall j idx parent_nodes w l w',
  merge_duplicates fuel key aliased node slice j idx parent_nodes w = Ok l w' ->
  retargets w w'.
Proof.
  induction slice as [|same_node rest IH]; intros j idx parent_nodes w l w' H; simpl in H.
  - mprim H. apply retargets_refl.
  - mstep H as equal w1 He. apply DataNode_eq_pure in He. subst w1.
    destruct equal; [|eapply IH; exact H].
    mstep H as u w2 Hm. destruct u. apply merge_into_retargets in Hm.
    destruct (py_del parent_nodes (idx + 1 + j)) as [l'|]; [|mprim H].
    mstep H as u w3 Hs.
    assert (E : brokers w3 = brokers w2) by (destruct aliased; mprim Hs; reflexivity).
    apply IH in H.
    eapply retargets_trans; [exact Hm|].
    eapply retargets_trans; [apply retargets_same; exact E | exact H].
Qed.

Lemma dedup_layer_retargets fuel : forall key aliased i parent_nodes children_nodes w l w',
  dedup_layer fuel key aliased i parent_nodes children_nodes w = Ok l w' ->
  retargets w w'.
Proof.
  induction fuel as [|fuel IH]; intros key aliased i parent_nodes children_nodes w l w' H;
    [discriminate|].
  simpl in H. destruct (parent_nodes !! i) as [node|]; [|mprim H; apply retargets_refl].
  mstep H as n w1 Hn. mstep H as l' w2 Hm. apply merge_duplicates_retargets in Hm.
  apply IH in H. eapply retargets_trans; eassumption.
Qed.

Lemma optimize_layers_retargets fuel : forall key aliased parent_nodes w w',
  optimize_layers fuel key aliased parent_nodes w = Ok tt w' -> retargets w w'.
Proof.
  induction fuel as [|fuel IH]; intros key aliased parent_nodes w w' H; [discriminate|].
  simpl in H. destruct parent_nodes as [|r rest]; [mprim H; apply retargets_refl|].
  mstep H as ch w1 Hd. apply dedup_layer_retargets in Hd. apply IH in H.
  eapply retargets_trans; eassumption.
Qed.

(** A pass that returned has only retargeted facades, and has left the
    instrument of the calling facade marked as optimized. *)
Lemma optimize_post fuel self w w' :
  _optimize fuel self w = Ok tt w' ->
  retargets w w' /\
  exists b', brokers w' !! self = Some b' /\ optimized w' !! ticker_sign b' = Some true.
Proof.
  unfold _optimize. intros H. mstep H as b w1 Hb. mstep H as flag w2 Hf.
  unfold optimized_at in Hf. destruct (optimized w !! ticker_sign b) as [fl|] eqn:Hfl;
    [|discriminate]. injection Hf as <- <-.
  destruct fl.
  - mprim H. split; [apply retargets_refl|]. exists b. split; assumption.
  - mstep H as pool w1 Hp. unfold nodes_at in Hp.
    destruct (nodes w !! ticker_sign b); [|discriminate]. injection Hp as <- <-.
    mstep H as u w2 Ho. destruct u. apply optimize_layers_retargets in Ho.
    mstep H as b' w3 Hb'. mprim H.
    split; [eapply retargets_trans; [exact Ho | apply retargets_same; reflexivity]|].
    exists b'. split; [exact Hb'|]. wsimpl. apply lookup_insert_eq.
Qed.

(** ** compute only materializes *)

Lemma node_grows_refl n : node_grows n n.
Proof. repeat split; auto. Qed.

Lemma node_grows_trans n1 n2 n3 : node_grows n1 n2 -> node_grows n2 n3 -> node_grows n1 n3.
Proof.
  intros (P1 & T1 & D1 & E1) (P2 & T2 & D2 & E2).
  repeat split; [congruence | congruence | auto | auto].
Qed.

Lemma grows_refl w : grows w w.
Proof.
  repeat split; try reflexivity. intros r n Hn. exists n. split; [exact Hn | apply node_grows_refl].
Qed.

Lemma grows_trans w1 w2 w3 : grows w1 w2 -> grows w2 w3 -> grows w1 w3.
Proof.
  intros (B1 & O1 & N1 & L1 & H1) (B2 & O2 & N2 & L2 & H2).
  repeat split; try congruence.
  intros r n Hn. destruct (H1 _ _ Hn) as (n' & Hn' & G1).
  destruct (H2 _ _ Hn') as (n'' & Hn'' & G2).
  exists n''. split; [exact Hn'' | eapply node_grows_trans; eassumption].
Qed.

Lemma grows_write w w' r s s' :
  heap w !! r = Some s -> node_grows s s' ->
  heap w' = <[r:=s']> (heap w) ->
  brokers w' = brokers w -> optimized w' = optimized w -> nodes w' = nodes w ->
  grows w w'.
Proof.
  intros Hs Hg Hh Hb Ho Hn. repeat split; try assumption.
  - rewrite Hh. apply length_insert.
  - intros r' n Hr'. rewrite Hh. destruct (decide (r' = r)) as [->|Hne].
    + exists s'. rewrite list_lookup_insert_eq by (eapply lookup_lt_Some; eassumption).
      split; [reflexivity|]. rewrite Hs in Hr'. injection Hr' as <-. exact Hg.
    + exists n. rewrite list_lookup_insert_ne by congruence.
      split; [exact Hr' | apply node_grows_refl].
Qed.

Lemma apply_fit_transform_inv r w w' :
  apply_fit_transform r w = Ok tt w' ->
  exists s X, heap w !! r = Some s /\ heap w' = <[r:=set_data (Some X) s]> (heap w) /\
    brokers w' = brokers w /\ optimized w' = optimized w /\ nodes w' = nodes w.
Proof.
  unfold apply_fit_transform. intros H.
  mstep H as s w1 Hs. mstep H as t w2 Ht. mstep H as p w3 Hp. mstep H as pn w4 Hpn.
  mstep H as input w5 Hin.
  unfold expect_table in Hin. destruct (data pn); [|discriminate]. mprim Hin.
  mstep H as st w6 Hst. mstep H as u1 w7 Hl. mstep H as u2 w8 Hps.
  mstep H as s' w9 Hs'. mprim H. wsimpl.
  rewrite Hs in Hs'. injection Hs' as <-.
  eexists _, _. split; [exact Hs|]. repeat split; reflexivity.
Qed.

Lemma load_raw_inv r d w w' :
  load_raw r d w = Ok tt w' ->
  exists s X, heap w !! r = Some s /\ heap w' = <[r:=set_data (Some X) s]> (heap w) /\
    brokers w' = brokers w /\ optimized w' = optimized w /\ nodes w' = nodes w.
Proof.
  unfold load_raw. intros H.
  mstep H as s w1 Hs. mstep H as u1 w2 Hl. mstep H as u2 w3 Hp.
  destruct d as [d|]; [|discriminate].
  assert (Hlen : (r < length (heap w))%nat) by (eapply lookup_lt_Some; eassumption).
  mstep H as s1 w4 Hs1. wsimpl. rewrite list_lookup_insert_eq in Hs1 by exact Hlen.
  injection Hs1 as <-.
  mstep H as u3 w5 Hp2. mstep H as s2 w6 Hs2. wsimpl.
  rewrite list_insert_insert_eq in Hs2.
  rewrite list_lookup_insert_eq in Hs2 by exact Hlen. injection Hs2 as <-.
  cbn [remove_session set_data] in H.
  destruct (remove_session s) as [sessions|].
  - mstep H as input w7 Hin. cbn [data set_data option_map] in Hin.
    unfold expect_table in Hin. mprim Hin.
    mstep H as u4 w8 Hl2. mprim H. wsimpl. rewrite !list_insert_insert_eq.
    eexists _, _. split; [exact Hs|]. repeat split; reflexivity.
  - mprim H. wsimpl. rewrite ?list_insert_insert_eq.
    eexists _, _. split; [exact Hs|]. repeat split; reflexivity.
Qed.

Lemma grows_set_data w w' r s X :
  heap w !! r = Some s -> data s = None ->
  heap w' = <[r:=set_data (Some X) s]> (heap w) ->
  brokers w' = brokers w -> optimized w' = optimized w -> nodes w' = nodes w ->
  grows w w'.
Proof.
  intros Hs Hd Hh Hb Ho Hn.
  eapply grows_write; [exact Hs | | exact Hh | exact Hb | exact Ho | exact Hn].
  repeat split; simpl; [intros t Ht; congruence | auto].
Qed.

(** A node computation that returned has only grown the store, and has
    left the node and its parent materialized; the node's [end_date] is
    set unless no date was given. *)
Lemma DataNode_compute_spec fuel : forall r d w w',
  DataNode_compute fuel r d w = Ok tt w' ->
  grows w w' /\
  exists n', heap w' !! r = Some n' /\ is_Some (data n') /\
    (end_date n' = None -> d = None) /\
    (forall p, parent n' = Some p ->
       exists pn, heap w' !! p = Some pn /\ is_Some (data pn)).
Proof.
  induction fuel as [|fuel IH]; intros r d w w' H; [discriminate|].
  simpl in H. mstep H as s w0 Hs.
  assert (Hlen : (r < length (heap w))%nat) by (eapply lookup_lt_Some; eassumption).
  mstep H as u1 w1 He.
  (* the store [w1] after the assignment of [end_date] *)
  assert (H1 : grows w w1 /\ exists s1, heap w1 !! r = Some s1 /\ parent s1 = parent s /\
                 data s1 = data s /\ (end_date s1 = None -> d = None)).
  { destruct (end_date s) as [e|] eqn:Ee.
    - mprim He. split; [apply grows_refl|]. exists s.
      repeat split; [exact Hs | congruence].
    - mprim He. split.
      + eapply grows_write; [exact Hs | | reflexivity..].
        repeat split; simpl; [auto | congruence].
      + exists (set_end_date d s). wsimpl.
        rewrite list_lookup_insert_eq by exact Hlen. repeat split. simpl. auto. }
  clear He. destruct H1 as (G1 & s1 & Hs1 & Hp1 & Hd1 & He1).
  mstep H as s1' w2 Hs1'. rewrite Hs1 in Hs1'. injection Hs1' as <-.
  destruct (parent s1) as [p|] eqn:Hp.
  - mstep H as pn w2 Hpn. mstep H as u2 w3 Hc.
    (* the store [w3] after the parent was computed *)
    assert (H3 : grows w1 w3 /\ exists pn3, heap w3 !! p = Some pn3 /\ is_Some (data pn3)).
    { destruct (data pn) as [t|] eqn:Edp.
      - mprim Hc. split; [apply grows_refl|]. exists pn. split; [exact Hpn | eauto].
      - destruct u2. apply IH in Hc as (G & n' & Hn' & Hdn' & _). split; [exact G|].
        exists n'. split; assumption. }
    clear Hc. destruct H3 as (G3 & pn3 & Hpn3 & Hdp3).
    destruct G3 as (B3 & O3 & N3 & L3 & Hh3).
    destruct (Hh3 _ _ Hs1) as (s3 & Hs3 & P3 & T3 & D3 & E3).
    mstep H as s3' w4 Hs3'. rewrite Hs3 in Hs3'. injection Hs3' as <-.
    assert (G13 : grows w1 w3) by (repeat split; assumption).
    destruct (data s3) as [t|] eqn:Eds.
    + mprim H. split; [eapply grows_trans; eassumption|].
      exists s3. split; [exact Hs3|]. split; [rewrite Eds; eauto|]. split.
      * intros En. apply He1. destruct (end_date s1) as [e|] eqn:Ee; [|reflexivity].
        rewrite (E3 _ eq_refl) in En. discriminate.
      * intros p' Hp'. assert (p' = p) by congruence. subst p'.
        exists pn3. split; assumption.
    + destruct (apply_fit_transform_inv _ _ _ H) as (s4 & X & Hs4 & Hh4 & B4 & O4 & N4).
      rewrite Hs3 in Hs4. injection Hs4 as <-.
      split.
      * eapply grows_trans; [exact G1|]. eapply grows_trans; [exact G13|].
        eapply grows_set_data; eassumption.
      * exists (set_data (Some X) s3). rewrite Hh4.
        rewrite list_lookup_insert_eq by (eapply lookup_lt_Some; eassumption).
        split; [reflexivity|]. split; [simpl; eauto|]. split.
        -- simpl. intros En. apply He1. destruct (end_date s1) as [e|] eqn:Ee; [|reflexivity].
           rewrite (E3 _ eq_refl) in En. discriminate.
        -- simpl. intros p' Hp'. assert (p' = p) by congruence. subst p'.
           destruct (decide (p = r)) as [->|Hne].
           ++ eexists. rewrite list_lookup_insert_eq by (eapply lookup_lt_Some; eassumption).
              split; [reflexivity | simpl; eauto].
           ++ exists pn3. rewrite list_lookup_insert_ne by congruence.
              split; assumption.
  - destruct (data s1) as [t|] eqn:Eds.
    + mprim H. split; [exact G1|]. exists s1. split; [exact Hs1|].
      split; [rewrite Eds; eauto|]. split; [exact He1|].
      intros p' Hp'. congruence.
    + destruct (load_raw_inv _ _ _ _ H) as (s4 & X & Hs4 & Hh4 & B4 & O4 & N4).
      rewrite Hs1 in Hs4. injection Hs4 as <-.
      split.
      * eapply grows_trans; [exact G1|]. eapply grows_set_data; eassumption.
      * exists (set_data (Some X) s1). rewrite Hh4.
        rewrite list_lookup_insert_eq by (eapply lookup_lt_Some; eassumption).
        split; [reflexivity|]. split; [simpl; eauto|]. split; [simpl; exact He1|].
        simpl. intros p' Hp'. congruence.
Qed.

Lemma put_node_same r n w : heap w !! r = Some n -> with_heap (<[r:=n]> (heap w)) w = w.
Proof. intros H. rewrite list_insert_id by exact H. destruct w; reflexivity. Qed.

(** On a node that is materialized, with a materialized parent, [compute]
    returns at once and leaves the store as it is. *)
Lemma DataNode_compute_again fuel r date w n :
  heap w !! r = Some n -> is_Some (data n) ->
  (forall p, parent n = Some p -> exists pn, heap w !! p = Some pn /\ is_Some (data pn)) ->
  (end_date n = None -> date = None) ->
  DataNode_compute (S fuel) r date w = Ok tt w.
Proof.
  intros Hn [t Ht] Hp He. simpl.
  rewrite (bind_Ok _ _ _ _ _ (get_node_Ok _ _ _ Hn)).
  assert (Hfirst : match end_date n with
                   | Some _ => ret tt
                   | None => put_node r (set_end_date date n)
                   end w = Ok tt w).
  { destruct (end_date n) as [e|] eqn:Ee; [reflexivity|].
    rewrite (He eq_refl). unfold put_node.
    replace (set_end_date None n) with n by (destruct n; simpl in Ee; subst; reflexivity).
    rewrite put_node_same by exact Hn. reflexivity. }
  rewrite (bind_Ok _ _ _ _ _ Hfirst).
  rewrite (bind_Ok _ _ _ _ _ (get_node_Ok _ _ _ Hn)).
  destruct (parent n) as [p|] eqn:Epar.
  - destruct (Hp p eq_refl) as (pn & Hpn & [tp Htp]).
    rewrite (bind_Ok _ _ _ _ _ (get_node_Ok _ _ _ Hpn)). rewrite Htp.
    unfold bind at 1, ret at 1.
    rewrite (bind_Ok _ _ _ _ _ (get_node_Ok _ _ _ Hn)). rewrite Ht. reflexivity.
  - rewrite Ht. reflexivity.
Qed.

(** What a facade computation that returned leaves behind. *)
Lemma Broker_compute_post fuel self d w t w1 :
  Broker_compute fuel self d w = Ok t w1 ->
  exists b b1 leaf n,
    brokers w !! self = Some b /\ brokers w1 !! self = Some b1 /\
    broker_end_date b1 = broker_end_date b /\
    optimized w1 !! ticker_sign b1 = Some true /\
    final_datanode b1 = Some leaf /\ heap w1 !! leaf = Some n /\
    data n = t /\ is_Some t /\
    (end_date n = None ->
     match d with None => broker_end_date b | Some _ => d end = None) /\
    (forall p, parent n = Some p -> exists pn, heap w1 !! p = Some pn /\ is_Some (data pn)).
Proof.
  unfold Broker_compute. intros H.
  mstep H as b w0 Hb. mstep H as u wo Ho. destruct u.
  apply optimize_post in Ho as ([_ Hret] & bo & Hbo & Hflag).
  destruct (Hret _ _ Hb) as (bo' & Hbo' & Ebo). rewrite Hbo in Hbo'. injection Hbo' as <-.
  mstep H as bo' w2 Hbo'. rewrite Hbo in Hbo'. injection Hbo' as <-.
  mstep H as leaf w3 Hleaf. mstep H as u wc Hc. destruct u.
  apply DataNode_compute_spec in Hc
    as ((Bc & Oc & _ & _ & _) & n & Hn & Hdn & Hen & Hpn).
  mstep H as b1 w4 Hb1. rewrite Bc, Hbo in Hb1. injection Hb1 as <-.
  mstep H as leaf' w5 Hleaf'. rewrite Hleaf in Hleaf'. injection Hleaf' as <-.
  mstep H as n' w6 Hn'. rewrite Hn in Hn'. injection Hn' as <-. mprim H.
  exists b, bo, leaf, n.
  split; [exact Hb|]. split; [rewrite Bc; exact Hbo|].
  split; [rewrite Ebo; reflexivity|]. split; [rewrite Oc; exact Hflag|].
  split; [exact Hleaf|]. split; [exact Hn|]. split; [reflexivity|].
  split; [exact Hdn|]. split; [exact Hen | exact Hpn].
Qed.

Lemma Broker_compute_again fuel self d w b leaf n :
  brokers w !! self = Some b -> optimized w !! ticker_sign b = Some true ->
  final_datanode b = Some leaf -> heap w !! leaf = Some n -> is_Some (data n) ->
  (forall p, parent n = Some p -> exists pn, heap w !! p = Some pn /\ is_Some (data pn)) ->
  (end_date n = None -> match d with None => broker_end_date b | Some _ => d end = None) ->
  Broker_compute (S fuel) self d w = Ok (data n) w.
Proof.
  intros Hb Hflag Hleaf Hn Hdn Hpn Hen. unfold Broker_compute.
  rewrite (bind_Ok _ _ _ _ _ (get_broker_Ok _ _ _ Hb)).
  assert (Hopt : _optimize (S fuel) self w = Ok tt w).
  { unfold _optimize. rewrite (bind_Ok _ _ _ _ _ (get_broker_Ok _ _ _ Hb)).
    unfold bind, optimized_at. rewrite Hflag. reflexivity. }
  rewrite (bind_Ok _ _ _ _ _ Hopt).
  rewrite (bind_Ok _ _ _ _ _ (get_broker_Ok _ _ _ Hb)). rewrite Hleaf.
  simpl attr_of. unfold bind at 1, ret at 1.
  rewrite (bind_Ok _ _ _ _ _ (DataNode_compute_again fuel leaf _ w n Hn Hdn Hpn Hen)).
  rewrite (bind_Ok _ _ _ _ _ (get_broker_Ok _ _ _ Hb)). rewrite Hleaf.
  simpl attr_of. unfold bind at 1, ret at 1.
  rewrite (bind_Ok _ _ _ _ _ (get_node_Ok _ _ _ Hn)). reflexivity.
Qed.

(** Data that is set is still there, unchanged, after any node
    computation that returned. *)
Lemma DataNode_compute_keeps_data fuel r date w w' k n x :
  DataNode_compute fuel r date w = Ok tt w' ->
  heap w !! k = Some n -> data n = Some x ->
  exists n', heap w' !! k = Some n' /\ data n' = Some x.
Proof.
  intros H Hk Hx. apply DataNode_compute_spec in H as ((_ & _ & _ & _ & Hh) & _).
  destruct (Hh _ _ Hk) as (n' & Hn' & _ & _ & Hd & _).
  exists n'. split; [exact Hn' | apply Hd, Hx].
Qed.

Lemma DataNode_compute_root_first fuel r dt w s :
  heap w !! r = Some s -> parent s = None -> data s = None -> remove_session s = None ->
  exists w' s', DataNode_compute (S fuel) r (Some dt) w = Ok tt w' /\
    heap w' !! r = Some s' /\
    data s' = Some (truncate dt (upload_candles (ticker s))) /\
    parent s' = None /\ is_Some (end_date s').
Proof.
  intros Hs Hp Hd Hr.
  assert (Hlen : (r < length (heap w))%nat) by (eapply lookup_lt_Some; eassumption).
  simpl. rewrite (bind_Ok _ _ _ _ _ (get_node_Ok _ _ _ Hs)).
  assert (H1 : exists w1 s1,
             match end_date s with
             | Some _ => ret tt
             | None => put_node r (set_end_date (Some dt) s)
             end w = Ok tt w1 /\ heap w1 !! r = Some s1 /\
             (r < length (heap w1))%nat /\
             parent s1 = None /\ data s1 = None /\ remove_session s1 = None /\
             ticker s1 = ticker s /\ is_Some (end_date s1)).
  { destruct (end_date s) eqn:Ee.
    - exists w, s. repeat split; try assumption. rewrite Ee. eauto.
    - eexists _, _. split; [reflexivity|]. wsimpl.
      rewrite list_lookup_insert_eq by exact Hlen.
      split; [reflexivity|]. rewrite length_insert. repeat split; try assumption.
      simpl. eauto. }
  destruct H1 as (w1 & s1 & Hfirst & Hs1 & Hlen1 & Hp1 & Hd1 & Hr1 & Ht1 & He1).
  rewrite (bind_Ok _ _ _ _ _ Hfirst).
  rewrite (bind_Ok _ _ _ _ _ (get_node_Ok _ _ _ Hs1)). rewrite Hp1, Hd1.
  unfold load_raw. rewrite (bind_Ok _ _ _ _ _ (get_node_Ok _ _ _ Hs1)).
  unfold bind, log, put_node, get_node. wsimpl.
  look Hlen1. wsimpl. look Hlen1.
  cbn [remove_session set_data]. rewrite Hr1. unfold ret.
  eexists _, _. split; [reflexivity|]. wsimpl. look Hlen1.
  split; [reflexivity|]. split; [simpl; rewrite Ht1; reflexivity|].
  split; [simpl; exact Hp1 | simpl; exact He1].
Qed.

(** A root without session filter that is computed for the date [dt]
    holds the raw rows up to [dt], and no later computation, for whatever
    date, touches the store again. *)
Lemma DataNode_compute_root fuel r dt w s :
  heap w !! r = Some s -> parent s = None -> data s = None -> remove_session s = None ->
  exists w' s', DataNode_compute (S fuel) r (Some dt) w = Ok tt w' /\
    heap w' !! r = Some s' /\
    data s' = Some (truncate dt (upload_candles (ticker s))) /\
    forall fuel' dt', DataNode_compute (S fuel') r dt' w' = Ok tt w'.
Proof.
  intros Hs Hp Hd Hr.
  destruct (DataNode_compute_root_first fuel r dt w s Hs Hp Hd Hr)
    as (w' & s' & Hc & Hs' & Hd' & Hp' & [e He']).
  exists w', s'. split; [exact Hc|]. split; [exact Hs'|]. split; [exact Hd'|].
  intros fuel' dt'. apply (DataNode_compute_again fuel' r dt' w' s' Hs').
  - rewrite Hd'. eauto.
  - intros p Hpp. congruence.
  - intros En. congruence.
Qed.

(** C7: a facade computation that returned has a table to return, and the
    same call again returns the same table and leaves the store, trace of
    external calls included, exactly as it was: no [fit_transform], no
    upload.  And whatever a node computation does, data that was set
    before it is still there afterwards. *)
Theorem compute_idempotent fuel fuel' self d w t w1 :
  Broker_compute fuel self d w = Ok t w1 ->
  is_Some t /\ Broker_compute (S fuel') self d w1 = Ok t w1 /\
  (forall fuel2 r date w2 k n x,
      DataNode_compute fuel2 r date w1 = Ok tt w2 ->
      heap w1 !! k = Some n -> data n = Some x ->
      exists n', heap w2 !! k = Some n' /\ data n' = Some x).
Proof.
  intros H.
  destruct (Broker_compute_post _ _ _ _ _ _ H)
    as (b & b1 & leaf & n & Hb & Hb1 & Ee & Hflag & Hleaf & Hn & Ht & Hst & Hen & Hpn).
  split; [exact Hst|]. subst t. split.
  - apply (Broker_compute_again fuel' self d w1 b1 leaf n); try assumption.
    rewrite Ee. exact Hen.
  - intros fuel2 r date w2 k n0 x. apply DataNode_compute_keeps_data.
Qed.

(** C10: after a facade computation for a date that returned, a further
    call with any date argument [d'] returns the table of the first call
    and leaves the store exactly as it was, so every node keeps its
    [data] and its [end_date].  In particular a root materialized for the
    date [dt] holds the raw rows up to [dt] and keeps them under any later
    date. *)
Theorem compute_ignores_new_date fuel fuel' self d d' w b t w1 :
  brokers w !! self = Some b ->
  is_Some (match d with None => broker_end_date b | Some _ => d end) ->
  Broker_compute fuel self d w = Ok t w1 ->
  is_Some t /\ Broker_compute (S fuel') self d' w1 = Ok t w1 /\
  (forall w0 r s dt, heap w0 !! r = Some s -> parent s = None -> data s = None ->
     remove_session s = None ->
     exists w2 s', DataNode_compute (S fuel') r (Some dt) w0 = Ok tt w2 /\
       heap w2 !! r = Some s' /\
       data s' = Some (truncate dt (upload_candles (ticker s))) /\
       forall fuel2 dt', DataNode_compute (S fuel2) r dt' w2 = Ok tt w2).
Proof.
  intros Hb0 Hdate H.
  destruct (Broker_compute_post _ _ _ _ _ _ H)
    as (b' & b1 & leaf & n & Hb & Hb1 & Ee & Hflag & Hleaf & Hn & Ht & Hst & Hen & Hpn).
  rewrite Hb0 in Hb. injection Hb as <-.
  split; [exact Hst|]. subst t. split.
  - apply (Broker_compute_again fuel' self d' w1 b1 leaf n); try assumption.
    intros En. apply Hen in En. rewrite En in Hdate. destruct Hdate; discriminate.
  - intros w0 r s dt. apply DataNode_compute_root.
Qed.

(** ** What make_pipeline builds *)

Lemma named_frame steps : forall (b : @DataTransformerBroker),
  ticker_sign (named steps b) = ticker_sign b /\
  final_datanode (named steps b) = final_datanode b /\
  model (named steps b) = model_step steps (model b) /\
  data_name (named steps b) = fold_left extend_name (node_steps steps) (data_name b) /\
  broker_end_date (named steps b) = broker_end_date b /\
  fit_date (named steps b) = fit_date b /\
  next_cached_model_date (named steps b) = next_cached_model_date b /\
  broker_remove_session (named steps b) = broker_remove_session b.
Proof.
  induction steps as [|step rest IH]; intros b; simpl; [repeat split|].
  destruct (bool_decide (rest = []) && has_predict step).
  - destruct (IH (set_model (Some step) b)) as (H1 & H2 & H3 & H4 & H5 & H6 & H7 & H8).
    repeat split; assumption.
  - destruct (IH (set_data_name (extend_name (data_name b) step) b))
      as (H1 & H2 & H3 & H4 & H5 & H6 & H7 & H8).
    repeat split; assumption.
Qed.

Lemma world_eta w :
  mkWorld (heap w) (brokers w) (nodes w) (optimized w) (states w) (fs w)
          (new_candles w) (trace w) = w.
Proof. destruct w; reflexivity. Qed.

(** The loop of [make_pipeline], started below the node [nd] that was
    created last. *)
Lemma add_steps_spec self steps : forall w b pre nd,
  heap w = pre ++ [nd] -> brokers w !! self = Some b ->
  add_steps self steps (length pre) w
  = Ok (length pre + length (node_steps steps))%nat
       (with_brokers (<[self:=named steps b]> (brokers w))
          (with_heap (pre ++ limbs (ticker_sign b) (length pre) nd (node_steps steps)) w)).
Proof.
  induction steps as [|step rest IH]; intros w b pre nd Hh Hb.
  - simpl. unfold ret. rewrite Nat.add_0_r. f_equal.
    rewrite list_insert_id by exact Hb. rewrite <- Hh. destruct w; reflexivity.
  - assert (Hlen : (self < length (brokers w))%nat) by (eapply lookup_lt_Some; eassumption).
    simpl. destruct (bool_decide (rest = []) && has_predict step) eqn:Ec.
    + rewrite (bind_Ok _ _ _ _ _ (get_broker_Ok _ _ _ Hb)).
      unfold bind at 1, put_broker at 1.
      erewrite IH; [| wsimpl; exact Hh | wsimpl; apply list_lookup_insert_eq; exact Hlen].
      wsimpl. rewrite list_insert_insert_eq. reflexivity.
    + rewrite (bind_Ok _ _ _ _ _ (get_broker_Ok _ _ _ Hb)).
      unfold bind at 1, new_node at 1. rewrite Hh.
      unfold bind at 1, get_node at 1. wsimpl.
      rewrite lookup_app_l by (rewrite length_app; simpl; lia).
      rewrite list_lookup_middle by reflexivity.
      unfold bind at 1, put_node at 1. wsimpl.
      unfold bind at 1, get_broker at 1. wsimpl. rewrite Hb.
      unfold bind at 1, put_broker at 1. wsimpl.
      rewrite length_app. simpl length.
      replace (length pre + 1)%nat with (S (length pre)) by lia.
      set (nd' := set_children (children nd ++ [S (length pre)]) nd).
      set (new := mkNode (ticker_sign b) (Some step) (Some (length pre)) None [] None [] 0 [] None).
      assert (Hins : <[length pre:=nd']> ((pre ++ [nd]) ++ [new]) = (pre ++ [nd']) ++ [new]).
      { rewrite <- !app_assoc. rewrite insert_app_r_alt by lia.
        rewrite Nat.sub_diag. reflexivity. }
      rewrite Hins.
      replace (S (length pre)) with (length (pre ++ [nd'])) at 1
        by (rewrite length_app; simpl; lia).
      erewrite IH; [| wsimpl; reflexivity | wsimpl; apply list_lookup_insert_eq; exact Hlen].
      wsimpl. rewrite list_insert_insert_eq.
      rewrite length_app. simpl length.
      replace (length pre + 1)%nat with (S (length pre)) by lia.
      f_equal; [lia|]. unfold extend_name. cbn [ticker_sign set_data_name].
      rewrite <- !app_assoc. reflexivity.
Qed.

Lemma limbs_length sign at_ (nd : @DataNode Row) ts : length (limbs sign at_ nd ts) = S (length ts).
Proof. revert at_ nd. induction ts as [|t ts IH]; intros; simpl; [reflexivity|]. rewrite IH. reflexivity. Qed.

Lemma spine_length sign self at_ (nd : @DataNode Row) ts : length (spine sign self at_ nd ts) = S (length ts).
Proof. revert at_ nd. induction ts as [|t ts IH]; intros; simpl; [reflexivity|]. rewrite IH. reflexivity. Qed.

(** The last of the appended nodes, and the heap once [self] is
    subscribed to it. *)
Lemma limbs_last sign self ts : forall (pre : list (@DataNode Row)) nd,
  exists leaf,
    (pre ++ limbs sign (length pre) nd ts) !! (length pre + length ts)%nat = Some leaf /\
    <[(length pre + length ts)%nat := set_data_broker (data_broker leaf ++ [self]) leaf]>
      (pre ++ limbs sign (length pre) nd ts)
    = pre ++ spine sign self (length pre) nd ts.
Proof.
  induction ts as [|t ts IH]; intros pre nd; simpl.
  - exists nd. rewrite Nat.add_0_r. split; [apply list_lookup_middle; reflexivity|].
    rewrite insert_app_r_alt by lia. rewrite Nat.sub_diag. reflexivity.
  - set (nd' := set_children (children nd ++ [S (length pre)]) nd).
    set (new := mkNode sign (Some t) (Some (length pre)) None [] None [] 0 [] None).
    destruct (IH (pre ++ [nd']) new) as (leaf & Hl & Hi).
    rewrite length_app in Hl, Hi. simpl length in Hl, Hi.
    replace (length pre + 1)%nat with (S (length pre)) in Hl, Hi by lia.
    rewrite <- !app_assoc in Hl, Hi. simpl in Hl, Hi.
    replace (length pre + S (length ts))%nat with (S (length pre) + length ts)%nat by lia.
    exists leaf. split; [exact Hl|]. simpl. rewrite Hi. rewrite <- app_assoc. reflexivity.
Qed.

(** What [make_pipeline] does, in full. *)
Lemma Broker_make_pipeline_spec self steps date w b pool :
  brokers w !! self = Some b -> nodes w !! ticker_sign b = Some pool ->
  Broker_make_pipeline self steps date w
  = Ok tt
      (mkWorld
         (heap w ++ spine (ticker_sign b) self (length (heap w)) (fresh_root b)
                      (node_steps steps))
         (<[self:=set_final_datanode
                    (Some (length (heap w) + length (node_steps steps))%nat)
                    (named steps (set_broker_end_date (Some date) b))]> (brokers w))
         (<[ticker_sign b:=pool ++ [length (heap w)]]> (nodes w))
         (<[ticker_sign b:=false]> (optimized w))
         (states w) (fs w) (new_candles w) (trace w)).
Proof.
  intros Hb Hpool.
  assert (Hlen : (self < length (brokers w))%nat) by (eapply lookup_lt_Some; eassumption).
  unfold Broker_make_pipeline.
  rewrite (bind_Ok _ _ _ _ _ (get_broker_Ok _ _ _ Hb)).
  unfold bind at 1, new_node at 1.
  unfold bind at 1, nodes_at at 1. wsimpl. rewrite Hpool.
  unfold bind at 1, set_nodes at 1. wsimpl.
  unfold bind at 1, get_broker at 1. wsimpl. rewrite Hb.
  unfold bind at 1, put_broker at 1. wsimpl.
  fold (@fresh_root Row b).
  set (b1 := set_broker_end_date (Some date) b).
  erewrite bind_Ok.
  2:{ apply (add_steps_spec self steps _ b1 (heap w) (fresh_root b));
        [wsimpl; reflexivity | wsimpl; apply list_lookup_insert_eq; exact Hlen]. }
  wsimpl. rewrite list_insert_insert_eq.
  unfold bind at 1, get_broker at 1. wsimpl.
  rewrite list_lookup_insert_eq by exact Hlen.
  unfold bind at 1, put_broker at 1. wsimpl. rewrite list_insert_insert_eq.
  destruct (limbs_last (ticker_sign b1) self (node_steps steps) (heap w) (fresh_root b))
    as (leaf & Hleaf & Hins).
  unfold bind at 1, get_node at 1. wsimpl. rewrite Hleaf.
  unfold bind at 1, put_node at 1. wsimpl. rewrite Hins.
  unfold bind at 1, get_broker at 1. wsimpl.
  rewrite list_lookup_insert_eq by exact Hlen.
  unfold set_optimized. wsimpl.
  destruct (named_frame steps b1) as (E1 & _).
  cbn [ticker_sign set_final_datanode]. rewrite E1. reflexivity.
Qed.

(** The parent chain of the last node of a spine. *)
Lemma chain_spine sign self ts : forall (pre : list (@DataNode Row)) nd cs,
  (forall x tail, parent x = parent nd -> transformer x = transformer nd ->
                  chain (pre ++ x :: tail) (length pre) cs) ->
  chain (pre ++ spine sign self (length pre) nd ts) (length pre + length ts)%nat
        (rev ts ++ cs).
Proof.
  induction ts as [|t ts IH]; intros pre nd cs Hnd; simpl.
  - rewrite Nat.add_0_r. apply Hnd; reflexivity.
  - set (nd' := set_children (children nd ++ [S (length pre)]) nd).
    set (new := mkNode sign (Some t) (Some (length pre)) None [] None [] 0 [] None).
    specialize (IH (pre ++ [nd']) new (t :: cs)).
    rewrite length_app in IH. simpl length in IH.
    replace (length pre + 1)%nat with (S (length pre)) in IH by lia.
    rewrite <- !app_assoc in IH. simpl in IH.
    replace (length pre + S (length ts))%nat with (S (length pre + length ts)) by lia.
    rewrite <- app_assoc. simpl. apply IH.
    intros x tail Hp Ht. simpl in Hp, Ht.
    eapply chain_step with (p := length pre) (n := x).
    + replace (S (length pre)) with (length (pre ++ [nd']))
        by (rewrite length_app; simpl; lia).
      apply list_lookup_middle. reflexivity.
    + exact Hp.
    + exact Ht.
    + rewrite <- app_assoc. simpl. apply Hnd; reflexivity.
Qed.

Lemma model_step_last steps : forall m,
  model_step steps m
  = match last steps with
    | Some s => if has_predict s then Some s else m
    | None => m
    end.
Proof.
  induction steps as [|s rest IH]; intros m; [reflexivity|].
  simpl model_step. destruct rest as [|s' rest'].
  - simpl. destruct (has_predict s); reflexivity.
  - rewrite bool_decide_eq_false_2 by discriminate. simpl andb. cbv iota.
    rewrite IH. reflexivity.
Qed.

Lemma node_steps_last steps :
  node_steps steps
  = match last steps with
    | Some s => if has_predict s then removelast steps else steps
    | None => steps
    end.
Proof.
  induction steps as [|s rest IH]; [reflexivity|].
  simpl node_steps. destruct rest as [|s' rest'].
  - simpl. destruct (has_predict s); reflexivity.
  - rewrite bool_decide_eq_false_2 by discriminate. simpl andb. cbv iota.
    rewrite IH. change (last (s :: s' :: rest')) with (last (s' :: rest')).
    destruct (last (s' :: rest')) as [x|]; [|reflexivity].
    destruct (has_predict x); reflexivity.
Qed.

Lemma append_assoc (a b c : string) : (a +:+ b) +:+ c = a +:+ (b +:+ c).
Proof.
  induction a as [|x a IH]; [reflexivity|].
  change (String x ((a +:+ b) +:+ c) = String x (a +:+ (b +:+ c))). rewrite IH. reflexivity.
Qed.

Lemma append_nonempty (a b : string) : a <> "" -> a +:+ b <> "".
Proof. destruct a; [congruence|]. intros _. discriminate. Qed.

Lemma append_nil_r (a : string) : a +:+ "" = a.
Proof.
  induction a as [|x a IH]; [reflexivity|].
  change (String x (a +:+ "") = String x a). rewrite IH. reflexivity.
Qed.

Lemma concat_empty_cons (x : string) (l : list string) :
  String.concat "" (x :: l) = x +:+ String.concat "" l.
Proof. destruct l; [symmetry; apply append_nil_r | reflexivity]. Qed.

(** With non-empty step names, the loop joins them with a double
    underscore. *)
Lemma fold_extend_name ts : forall acc,
  acc <> "" ->
  fold_left extend_name ts acc
  = acc +:+ String.concat "" (map (fun t => "__" +:+ name t) ts).
Proof.
  induction ts as [|t ts IH]; intros acc Hacc.
  - symmetry. apply append_nil_r.
  - cbn [fold_left map]. rewrite concat_empty_cons.
    assert (He : extend_name acc t = acc +:+ "__" +:+ name t).
    { unfold extend_name. apply String.eqb_neq in Hacc. rewrite Hacc. reflexivity. }
    rewrite He. rewrite IH by (apply append_nonempty; exact Hacc).
    rewrite append_assoc. reflexivity.
Qed.

Lemma concat_sep_cons (x : string) (l : list string) :
  String.concat "__" (x :: l) = x +:+ String.concat "" (map (fun y => "__" +:+ y) l).
Proof.
  revert x. induction l as [|y l IH]; intros x.
  - symmetry. apply append_nil_r.
  - change (String.concat "__" (x :: y :: l)) with (x +:+ "__" +:+ String.concat "__" (y :: l)).
    rewrite IH. cbn [map]. rewrite concat_empty_cons. rewrite append_assoc. reflexivity.
Qed.

Lemma fold_extend_name_join ts :
  Forall (fun t => name t <> "") ts ->
  fold_left extend_name ts "" = String.concat "__" (map name ts).
Proof.
  destruct ts as [|t ts]; [reflexivity|]. intros Hall.
  apply Forall_cons in Hall as [Ht _]. cbn [fold_left map].
  change (extend_name "" t) with (name t).
  rewrite fold_extend_name by exact Ht. rewrite concat_sep_cons.
  rewrite map_map. reflexivity.
Qed.

(** The last node of a spine: the one node the facade subscribes to. *)
Lemma spine_leaf sign self ts : forall (pre : list (@DataNode Row)) nd,
  exists leaf,
    (pre ++ spine sign self (length pre) nd ts) !! (length pre + length ts)%nat = Some leaf /\
    data_broker leaf = match ts with [] => data_broker nd | _ :: _ => [] end ++ [self] /\
    transformer leaf = match last ts with None => transformer nd | Some t => Some t end /\
    (ts = [] -> parent leaf = parent nd) /\
    (ts <> [] -> is_Some (parent leaf)).
Proof.
  induction ts as [|t ts IH]; intros pre nd; simpl spine.
  - eexists. rewrite Nat.add_0_r. split; [apply list_lookup_middle; reflexivity|].
    repeat split. intros H. congruence.
  - set (nd' := set_children (children nd ++ [S (length pre)]) nd).
    set (new := mkNode sign (Some t) (Some (length pre)) None [] None [] 0 [] None).
    destruct (IH (pre ++ [nd']) new) as (leaf & Hl & Hd & Ht & Hp0 & Hp1).
    rewrite length_app in Hl. simpl length in Hl.
    replace (length pre + 1)%nat with (S (length pre)) in Hl by lia.
    rewrite <- !app_assoc in Hl. simpl in Hl.
    replace (length pre + length (t :: ts))%nat with (S (length pre) + length ts)%nat
      by (simpl; lia).
    exists leaf. split; [exact Hl|].
    split; [rewrite Hd; destruct ts; reflexivity|].
    split.
    { rewrite Ht. destruct ts as [|t' ts']; [reflexivity|].
      change (last (t :: t' :: ts')) with (last (t' :: ts')).
      destruct (last (t' :: ts')) eqn:E; [reflexivity|].
      apply last_None in E. discriminate. }
    split; [discriminate|]. intros _.
    destruct ts as [|t' ts']; [rewrite Hp0 by reflexivity; simpl; eauto|].
    apply Hp1. discriminate.
Qed.

(** X1: [make_pipeline] on a facade of the store returns.  It appends one
    root and one node per step that is not the model step, each the parent
    of the next: the facade's leaf is the last of them, and its parent
    chain carries the node steps in reverse.  The facade is the one
    subscriber of the leaf, the nodes that were there stay as they were,
    the pool of the instrument gains the root, and the instrument is
    marked as not optimized. *)
Theorem make_pipeline_builds_chain self steps date w b pool :
  brokers w !! self = Some b -> nodes w !! ticker_sign b = Some pool ->
  exists w' leaf,
    Broker_make_pipeline self steps date w = Ok tt w' /\
    leaf = (length (heap w) + length (node_steps steps))%nat /\
    length (heap w') = S leaf /\
    final_datanode <$> brokers w' !! self = Some (Some leaf) /\
    chain (heap w') leaf (rev (node_steps steps)) /\
    data_broker <$> heap w' !! leaf = Some [self] /\
    (forall r n, heap w !! r = Some n -> heap w' !! r = Some n) /\
    nodes w' !! ticker_sign b = Some (pool ++ [length (heap w)]) /\
    optimized w' !! ticker_sign b = Some false.
Proof.
  intros Hb Hpool.
  assert (Hlen : (self < length (brokers w))%nat) by (eapply lookup_lt_Some; eassumption).
  eexists _, _. split; [apply (Broker_make_pipeline_spec _ _ _ _ _ _ Hb Hpool)|].
  split; [reflexivity|]. wsimpl.
  split; [rewrite length_app, spine_length; lia|].
  split; [rewrite list_lookup_insert_eq by exact Hlen; reflexivity|].
  split.
  { rewrite <- (app_nil_r (rev (node_steps steps))). apply chain_spine.
    intros x tail Hp _. eapply chain_root; [apply list_lookup_middle; reflexivity | exact Hp]. }
  split.
  { destruct (spine_leaf (ticker_sign b) self (node_steps steps) (heap w) (@fresh_root Row b))
      as (leaf & Hl & Hd & _).
    rewrite Hl. simpl. rewrite Hd. destruct (node_steps steps); reflexivity. }
  split; [intros r n Hr; apply lookup_app_l_Some; exact Hr|].
  split; apply lookup_insert_eq.
Qed.

(** X2: what [make_pipeline] leaves in the facade.  The model is the
    last step when that step has [predict] and is not touched otherwise;
    the node steps are all the other steps.  [data_name] grows by one
    name per node step from whatever it was (it is not reset); from the
    empty name, with non-empty step names, it is their join by a double
    underscore.  [end_date] is the date given; [fit_date] and the horizon
    stay. *)
Theorem make_pipeline_model_and_name self steps date w b pool :
  brokers w !! self = Some b -> nodes w !! ticker_sign b = Some pool ->
  exists w' b',
    Broker_make_pipeline self steps date w = Ok tt w' /\
    brokers w' !! self = Some b' /\
    model b' = match last steps with
               | Some s => if has_predict s then Some s else model b
               | None => model b
               end /\
    node_steps steps = match last steps with
                       | Some s => if has_predict s then removelast steps else steps
                       | None => steps
                       end /\
    data_name b' = fold_left extend_name (node_steps steps) (data_name b) /\
    (data_name b = "" -> Forall (fun t => name t <> "") (node_steps steps) ->
     data_name b' = String.concat "__" (map name (node_steps steps))) /\
    broker_end_date b' = Some date /\
    fit_date b' = fit_date b /\ next_cached_model_date b' = next_cached_model_date b.
Proof.
  intros Hb Hpool.
  assert (Hlen : (self < length (brokers w))%nat) by (eapply lookup_lt_Some; eassumption).
  eexists _, _. split; [apply (Broker_make_pipeline_spec _ _ _ _ _ _ Hb Hpool)|]. wsimpl.
  split; [apply list_lookup_insert_eq; exact Hlen|].
  destruct (named_frame steps (set_broker_end_date (Some date) b))
    as (_ & _ & Hm & Hn & He & Hf & Hc & _).
  cbn [model data_name broker_end_date fit_date next_cached_model_date set_final_datanode].
  split; [rewrite Hm; apply model_step_last|].
  split; [apply node_steps_last|].
  split; [exact Hn|].
  split; [intros E Hall; rewrite Hn; simpl; rewrite E; apply fold_extend_name_join, Hall|].
  split; [exact He|]. split; [exact Hf | exact Hc].
Qed.

(** [__init__], in full. *)
Lemma Broker_init_spec sign rs w :
  Broker_init sign rs w
  = Ok (length (brokers w))
       (mkWorld (heap w)
          (brokers w ++ [mkBroker sign None None "" None None None rs])
          (match nodes w !! sign with Some _ => nodes w | None => <[sign:=[]]> (nodes w) end)
          (<[sign:=false]> (optimized w))
          (states w) (fs w) (new_candles w) (trace w)).
Proof.
  unfold Broker_init, bind, set_nodes, set_optimized, ret. wsimpl.
  destruct (nodes w !! sign) as [pool|] eqn:E.
  - rewrite bool_decide_eq_true_2 by eauto. reflexivity.
  - rewrite bool_decide_eq_false_2 by (intros [? ?]; discriminate). reflexivity.
Qed.

(** X3: a facade can always be constructed and given a pipeline: neither
    call raises, whatever the store and the steps.  The pool of its
    instrument gains exactly the new root and the pools of the other
    instruments stay.  [reload_model] on it, before any [load_model],
    raises the [TypeError] of the comparison with [None] and leaves the
    store as it is. *)
Theorem new_facade_cannot_reload sign rs steps date w :
  exists self w1 w2,
    Broker_init sign rs w = Ok self w1 /\
    Broker_make_pipeline self steps date w1 = Ok tt w2 /\
    nodes w2 !! sign = Some (default [] (nodes w !! sign) ++ [length (heap w)]) /\
    (forall other, other <> sign -> nodes w2 !! other = nodes w !! other) /\
    forall fuel cur_date, Broker_reload_model fuel self cur_date w2 = Raise "TypeError" w2.
Proof.
  eexists _, _, _. split; [apply Broker_init_spec|].
  set (w1 := mkWorld _ _ _ _ _ _ _ _).
  assert (Hb : brokers w1 !! length (brokers w)
               = Some (mkBroker sign None None "" None None None rs))
    by (subst w1; wsimpl; apply list_lookup_middle; reflexivity).
  assert (Hpool : nodes w1 !! sign = Some (default [] (nodes w !! sign))).
  { subst w1. wsimpl. destruct (nodes w !! sign) as [pool|] eqn:E; simpl;
      [exact E | apply lookup_insert_eq]. }
  split; [apply (Broker_make_pipeline_spec _ steps date w1 _ _ Hb Hpool)|].
  wsimpl. cbn [ticker_sign]. split; [apply lookup_insert_eq|].
  split.
  { intros other Hne. rewrite lookup_insert_ne by congruence. subst w1. wsimpl.
    destruct (nodes w !! sign); [reflexivity|]. apply lookup_insert_ne. congruence. }
  intros fuel cur_date. unfold Broker_reload_model, bind, get_broker. wsimpl.
  rewrite list_lookup_insert_eq by (eapply lookup_lt_Some; exact Hb).
  destruct (named_frame steps (set_broker_end_date (Some date)
              (mkBroker sign None None "" None None None rs)))
    as (_ & _ & _ & _ & _ & _ & Hc & _).
  cbn [next_cached_model_date set_final_datanode]. rewrite Hc. reflexivity.
Qed.

(** X4: when the last step has no [predict], or there is no step, the
    new facade has no model: [save_model] raises [ValueError] and
    [load_model] raises the [AttributeError] of [None.name], both before
    any external call and with the store as it is. *)
Theorem pipeline_without_model sign rs steps date w :
  match last steps with Some s => has_predict s = false | None => True end ->
  exists self w1 w2,
    Broker_init sign rs w = Ok self w1 /\
    Broker_make_pipeline self steps date w1 = Ok tt w2 /\
    model <$> brokers w2 !! self = Some None /\
    (forall fuel, Broker_save_model fuel self w2 = Raise "ValueError" w2) /\
    (forall fuel compute_data,
        Broker_load_model fuel self compute_data w2 = Raise "AttributeError" w2).
Proof.
  intros Hlast.
  eexists _, _, _. split; [apply Broker_init_spec|].
  set (w1 := mkWorld _ _ _ _ _ _ _ _).
  assert (Hb : brokers w1 !! length (brokers w)
               = Some (mkBroker sign None None "" None None None rs))
    by (subst w1; wsimpl; apply list_lookup_middle; reflexivity).
  assert (Hpool : nodes w1 !! sign = Some (default [] (nodes w !! sign))).
  { subst w1. wsimpl. destruct (nodes w !! sign) as [pool|] eqn:E; simpl;
      [exact E | apply lookup_insert_eq]. }
  split; [apply (Broker_make_pipeline_spec _ steps date w1 _ _ Hb Hpool)|].
  destruct (named_frame steps (set_broker_end_date (Some date)
              (mkBroker sign None None "" None None None rs)))
    as (_ & _ & Hm & _).
  rewrite model_step_last in Hm. cbn [model set_broker_end_date] in Hm.
  assert (Hm' : model (named steps (set_broker_end_date (Some date)
                  (mkBroker sign None None "" None None None rs))) = None).
  { rewrite Hm. destruct (last steps) as [s|]; [rewrite Hlast|]; reflexivity. }
  clear Hm. wsimpl.
  split; [rewrite list_lookup_insert_eq by (eapply lookup_lt_Some; exact Hb); simpl;
          rewrite Hm'; reflexivity|].
  split.
  - intros fuel. unfold Broker_save_model, bind, get_broker. wsimpl.
    rewrite list_lookup_insert_eq by (eapply lookup_lt_Some; exact Hb).
    cbn [model set_final_datanode]. rewrite Hm'. reflexivity.
  - intros fuel c. unfold Broker_load_model, bind, get_broker. wsimpl.
    rewrite list_lookup_insert_eq by (eapply lookup_lt_Some; exact Hb).
    cbn [model set_final_datanode]. rewrite Hm'. reflexivity.
Qed.

(** [update] on a root without a transformer: the [AttributeError] comes
    before any external call. *)
Lemma DataNode_update_plain_root_frame r d w n :
  heap w !! r = Some n -> parent n = None -> transformer n = None ->
  exists w', DataNode_update r d w = Raise "AttributeError" w' /\
    brokers w' = brokers w /\ states w' = states w /\ trace w' = trace w.
Proof.
  intros Hr Hp Ht.
  assert (Hlen : (r < length (heap w))%nat) by (eapply lookup_lt_Some; eassumption).
  unfold DataNode_update.
  rewrite (bind_Ok _ _ _ _ _ (get_node_Ok _ _ _ Hr)).
  unfold bind, put_node, get_node, attr_of, get_state, log, put_state, ret. wsimpl.
  look Hlen. cbn [parent set_end_date]. rewrite Hp.
  destruct (0 <? _); cbv beta iota; wsimpl; look Hlen;
    cbn [transformer set_processed set_end_date]; rewrite Ht; unfold raise;
    eexists; (split; [reflexivity|]); repeat split.
Qed.

(** X5: [update] never returns on a facade as [make_pipeline] builds it.
    With a node step the leaf has a parent, and the call ends in the
    [TypeError] of [self.parent.update()]; without one the leaf is the
    root, which has no transformer, and the call ends in
    [AttributeError].  Either way no transformer and no model was called,
    and the facade keeps its [end_date]. *)
Theorem update_fails_on_built_pipeline self steps date new_date w b pool :
  brokers w !! self = Some b -> nodes w !! ticker_sign b = Some pool ->
  exists w' w'',
    Broker_make_pipeline self steps date w = Ok tt w' /\
    Broker_update self new_date w'
    = Raise (match node_steps steps with [] => "AttributeError" | _ :: _ => "TypeError" end)
            w'' /\
    brokers w'' = brokers w' /\ states w'' = states w' /\ trace w'' = trace w'.
Proof.
  intros Hb Hpool.
  assert (Hlen : (self < length (brokers w))%nat) by (eapply lookup_lt_Some; eassumption).
  pose proof (Broker_make_pipeline_spec self steps date w b pool Hb Hpool) as Hmk.
  set (w' := mkWorld _ _ _ _ _ _ _ _) in Hmk.
  destruct (spine_leaf (ticker_sign b) self (node_steps steps) (heap w) (@fresh_root Row b))
    as (leaf & Hl & _ & Ht & Hp0 & Hp1).
  assert (Hl' : heap w' !! (length (heap w) + length (node_steps steps))%nat = Some leaf)
    by exact Hl.
  assert (Hb' : exists b', brokers w' !! self = Some b' /\
            final_datanode b' = Some (length (heap w) + length (node_steps steps))%nat).
  { eexists. subst w'. wsimpl. split; [apply list_lookup_insert_eq; exact Hlen | reflexivity]. }
  destruct Hb' as (b' & Hb' & Hfin).
  assert (Hup : forall e w'', DataNode_update (length (heap w) + length (node_steps steps))
                                new_date w' = Raise e w'' ->
                              Broker_update self new_date w' = Raise e w'').
  { intros e w'' Hu. unfold Broker_update.
    rewrite (bind_Ok _ _ _ _ _ (get_broker_Ok _ _ _ Hb')). rewrite Hfin.
    simpl attr_of. unfold bind at 1, ret at 1. apply bind_Raise. exact Hu. }
  exists w'. destruct (node_steps steps) as [|t ts] eqn:Ens.
  - destruct (DataNode_update_plain_root_frame _ new_date w' leaf Hl')
      as (w'' & Hu & E1 & E2 & E3);
      [apply Hp0; reflexivity | rewrite Ht; reflexivity|].
    exists w''. split; [exact Hmk|]. split; [apply Hup, Hu|]. repeat split; assumption.
  - destruct Hp1 as [p Hp]; [discriminate|].
    eexists. split; [exact Hmk|].
    split; [apply Hup, (DataNode_update_with_parent _ _ _ _ _ Hl' Hp)|].
    repeat split.
Qed.

(** ** Structural equality is an equivalence *)

Lemma opt_nat_eqb_sym a b : opt_nat_eqb a b = opt_nat_eqb b a.
Proof. destruct a, b; simpl; try reflexivity. apply Nat.eqb_sym. Qed.

Lemma opt_Z_eqb_sym a b : opt_Z_eqb a b = opt_Z_eqb b a.
Proof. destruct a, b; simpl; try reflexivity. apply Z.eqb_sym. Qed.

Lemma opt_nat_eqb_eq a b : opt_nat_eqb a b = true <-> a = b.
Proof.
  destruct a, b; simpl; split; try congruence; try discriminate.
  - intros H. apply Nat.eqb_eq in H. congruence.
  - intros H. injection H as ->. apply Nat.eqb_refl.
Qed.

Lemma opt_Z_eqb_eq a b : opt_Z_eqb a b = true <-> a = b.
Proof.
  destruct a, b; simpl; split; try congruence; try discriminate.
  - intros H. apply Z.eqb_eq in H. congruence.
  - intros H. injection H as ->. apply Z.eqb_refl.
Qed.

(** X6: [__eq__] is symmetric: [a == b] and [b == a] have the same
    outcome, an exception included; and a comparison that returns leaves
    the store as it is. *)
Theorem DataNode_eq_symmetric fuel : forall x y w,
  DataNode_eq fuel x y w = DataNode_eq fuel y x w /\
  (forall v w', DataNode_eq fuel x y w = Ok v w' -> w' = w).
Proof.
  intros x y w. split; [|intros v w'; apply DataNode_eq_pure].
  revert x y w. induction fuel as [|fuel IH]; intros x y w; [reflexivity|].
  simpl.
  destruct (heap w !! x) as [s|] eqn:Hs, (heap w !! y) as [o|] eqn:Ho.
  2:{ rewrite (bind_Ok _ _ _ _ _ (get_node_Ok _ _ _ Hs)).
      unfold bind, get_node. rewrite Ho. reflexivity. }
  2:{ rewrite (bind_Ok _ _ _ _ _ (get_node_Ok _ _ _ Ho)).
      unfold bind, get_node. rewrite Hs. reflexivity. }
  2:{ unfold bind, get_node. rewrite Hs, Ho. reflexivity. }
  rewrite (bind_Ok _ _ _ _ _ (get_node_Ok _ _ _ Hs)).
  rewrite (bind_Ok _ _ _ _ _ (get_node_Ok _ _ _ Ho)).
  rewrite (bind_Ok _ _ _ _ _ (get_node_Ok _ _ _ Ho)).
  rewrite (bind_Ok _ _ _ _ _ (get_node_Ok _ _ _ Hs)).
  rewrite (opt_nat_eqb_sym (transformer o) (transformer s)).
  destruct (negb (opt_nat_eqb (transformer s) (transformer o))); [reflexivity|].
  rewrite !String.eqb_refl. cbn [negb].
  rewrite (opt_Z_eqb_sym (end_date o) (end_date s)).
  destruct (parent s) as [p|], (parent o) as [q|]; try reflexivity.
  unfold bind. rewrite (IH p q w). reflexivity.
Qed.

(** X7: [__eq__] is transitive on the nodes it calls equal. *)
Theorem DataNode_eq_transitive fuel : forall x y z w w1 w2,
  DataNode_eq fuel x y w = Ok true w1 -> DataNode_eq fuel y z w = Ok true w2 ->
  DataNode_eq fuel x z w = Ok true w.
Proof.
  induction fuel as [|fuel IH]; intros x y z w w1 w2 H1 H2; [discriminate|].
  simpl in H1, H2. simpl.
  mstep H1 as s wa Hs. mstep H1 as o wb Ho.
  mstep H2 as o' wc Ho'. rewrite Ho in Ho'. injection Ho' as <-.
  mstep H2 as u wd Hu.
  rewrite (bind_Ok _ _ _ _ _ (get_node_Ok _ _ _ Hs)).
  rewrite (bind_Ok _ _ _ _ _ (get_node_Ok _ _ _ Hu)).
  destruct (opt_nat_eqb (transformer s) (transformer o)) eqn:E1; cbn [negb] in H1;
    cbv iota in H1; [|mprim H1].
  destruct (opt_nat_eqb (transformer o) (transformer u)) eqn:E2; cbn [negb] in H2;
    cbv iota in H2; [|mprim H2].
  apply opt_nat_eqb_eq in E1, E2.
  assert (E3 : opt_nat_eqb (transformer s) (transformer u) = true)
    by (apply opt_nat_eqb_eq; congruence).
  rewrite E3. cbn [negb].
  mstep H1 as same1 we Hp1. mstep H2 as same2 wf Hp2.
  destruct same1; cbn [negb] in H1; [|mprim H1].
  destruct same2; cbn [negb] in H2; [|mprim H2].
  rewrite String.eqb_refl in H1, H2. cbn [negb] in H1, H2.
  unfold ret in H1, H2. injection H1 as F1 _. injection H2 as F2 _.
  apply opt_Z_eqb_eq in F1, F2.
  assert (Hpar : match parent s, parent u with
                 | None, None => ret true
                 | Some p, Some q => DataNode_eq fuel p q
                 | _, _ => raise "AttributeError"
                 end w = Ok true w).
  { destruct (parent s) as [p|], (parent o) as [q|], (parent u) as [r|];
      try (mprim Hp1; fail); try (mprim Hp2; fail); try reflexivity.
    pose proof (DataNode_eq_pure _ _ _ _ _ _ Hp1) as ->.
    pose proof (DataNode_eq_pure _ _ _ _ _ _ Hp2) as ->.
    eapply IH; eassumption. }
  rewrite (bind_Ok _ _ _ _ _ Hpar). cbn [negb].
  rewrite String.eqb_refl. cbn [negb]. unfold ret. f_equal.
  apply opt_Z_eqb_eq. congruence.
Qed.

(** X8: a node whose parent chain ends in a root is equal to itself. *)
Theorem DataNode_eq_reflexive h r ts :
  chain h r ts -> forall fuel w, heap w = h -> (length ts < fuel)%nat ->
  DataNode_eq fuel r r w = Ok true w.
Proof.
  induction 1 as [r n Hr Hp|r p n t ts Hr Hp Ht Hc IH]; intros fuel w Hh Hfuel;
    (destruct fuel as [|fuel]; [simpl in Hfuel; lia|]); subst h; simpl;
    rewrite (bind_Ok _ _ _ _ _ (get_node_Ok _ _ _ Hr));
    rewrite (bind_Ok _ _ _ _ _ (get_node_Ok _ _ _ Hr));
    rewrite (proj2 (opt_nat_eqb_eq _ _) eq_refl); cbn [negb]; rewrite Hp.
  - unfold bind, ret. simpl. rewrite String.eqb_refl. simpl.
    rewrite (proj2 (opt_Z_eqb_eq _ _) eq_refl). reflexivity.
  - rewrite (bind_Ok _ _ _ _ _ (IH fuel w eq_refl ltac:(simpl in Hfuel; lia))).
    cbn [negb]. rewrite String.eqb_refl. cbn [negb].
    rewrite (proj2 (opt_Z_eqb_eq _ _) eq_refl). reflexivity.
Qed.

(** ** compute runs the pipeline *)

Lemma fresh_chain_agree (h h' : list (@DataNode Row)) r ts sign rs :
  fresh_chain h r ts sign rs ->
  (forall k, (k <= r)%nat -> h' !! k = h !! k) ->
  fresh_chain h' r ts sign rs.
Proof.
  induction 1 as [r n Hr Hp Hd|r p n t ts sign rs Hr Hp Hlt Ht Hd Hc IH]; intros Hag.
  - apply fresh_chain_root; [rewrite Hag by lia; exact Hr | exact Hp | exact Hd].
  - eapply fresh_chain_step; [rewrite Hag by lia; exact Hr | exact Hp | exact Hlt
                             | exact Ht | exact Hd |].
    apply IH. intros k Hk. apply Hag. lia.
Qed.

Lemma fresh_chain_data (h : list (@DataNode Row)) r ts sign rs :
  fresh_chain h r ts sign rs -> exists n, h !! r = Some n /\ data n = None.
Proof. inversion 1; subst; eauto. Qed.

(** The root branch of [compute] on a root without data. *)
Lemma DataNode_compute_fresh_root fuel r d w n :
  heap w !! r = Some n -> parent n = None -> data n = None ->
  exists w' n',
    DataNode_compute (S fuel) r (Some d) w = Ok tt w' /\
    heap w' = <[r:=n']> (heap w) /\
    data n' = Some (raw_table (ticker n) (remove_session n) d) /\
    states w' = states w /\ brokers w' = brokers w /\
    trace w' = trace w ++ EvUploadCandles (ticker n)
                 :: match remove_session n with
                    | None => []
                    | Some _ => [EvRemoveSession (ticker n)]
                    end.
Proof.
  intros Hn Hp Hd.
  assert (Hlen : (r < length (heap w))%nat) by (eapply lookup_lt_Some; eassumption).
  simpl. rewrite (bind_Ok _ _ _ _ _ (get_node_Ok _ _ _ Hn)).
  assert (H1 : exists s1,
             match end_date n with
             | Some _ => ret tt
             | None => put_node r (set_end_date (Some d) n)
             end w = Ok tt (with_heap (<[r:=s1]> (heap w)) w) /\
             parent s1 = None /\ data s1 = None /\ remove_session s1 = remove_session n /\
             ticker s1 = ticker n).
  { destruct (end_date n) eqn:Ee.
    - exists n. rewrite put_node_same by exact Hn. repeat split; assumption.
    - eexists. split; [reflexivity|]. repeat split; assumption. }
  destruct H1 as (s1 & Hfirst & Hp1 & Hd1 & Hr1 & Ht1).
  rewrite (bind_Ok _ _ _ _ _ Hfirst).
  unfold bind at 1, get_node at 1. wsimpl. look Hlen. rewrite Hp1, Hd1.
  unfold load_raw. unfold bind at 1, get_node at 1. wsimpl. look Hlen.
  unfold bind, log, put_node, get_node. wsimpl.
  look Hlen. wsimpl. look Hlen.
  cbn [remove_session set_data data option_map expect_table ticker]. rewrite Hr1, Ht1.
  unfold raw_table.
  destruct (remove_session n) as [sessions|]; unfold ret; wsimpl;
    (eexists _, _; split; [reflexivity|]); wsimpl; rewrite !list_insert_insert_eq;
    (split; [reflexivity|]); (split; [reflexivity|]); (split; [reflexivity|]);
    (split; [reflexivity|]).
  - rewrite <- app_assoc. reflexivity.
  - reflexivity.
Qed.

(** [compute] along a chain that is still to be computed. *)
Lemma DataNode_compute_fresh_chain ts : forall r sign rs fuel d w,
  fresh_chain (heap w) r ts sign rs -> (length ts < fuel)%nat ->
  exists w' n',
    DataNode_compute fuel r (Some d) w = Ok tt w' /\
    heap w' !! r = Some n' /\
    data n' = Some (fst (run_chain ts (states w) (raw_table sign rs d))) /\
    states w' = snd (run_chain ts (states w) (raw_table sign rs d)) /\
    trace w' = trace w ++ EvUploadCandles sign
                 :: match rs with None => [] | Some _ => [EvRemoveSession sign] end
                 ++ map EvFitTransform (rev ts) /\
    length (heap w') = length (heap w) /\
    (forall k, (r < k)%nat -> heap w' !! k = heap w !! k) /\
    brokers w' = brokers w.
Proof.
  induction ts as [|t ts IH]; intros r sign rs fuel d w Hc Hfuel.
  - destruct fuel as [|fuel]; [simpl in Hfuel; lia|].
    inversion Hc as [r' n Hn Hp Hd|]; subst.
    destruct (DataNode_compute_fresh_root fuel r d w n Hn Hp Hd)
      as (w' & n' & Hrun & Hh & Hdata & Hst & Hbr & Htr).
    assert (Hlen : (r < length (heap w))%nat) by (eapply lookup_lt_Some; eassumption).
    exists w', n'. split; [exact Hrun|].
    split; [rewrite Hh; apply list_lookup_insert_eq; exact Hlen|].
    split; [exact Hdata|]. split; [exact Hst|].
    split; [rewrite Htr, app_nil_r; reflexivity|].
    split; [rewrite Hh; apply length_insert|].
    split; [|exact Hbr].
    intros k Hk. rewrite Hh. apply list_lookup_insert_ne. lia.
  - destruct fuel as [|fuel]; [simpl in Hfuel; lia|]. simpl in Hfuel.
    inversion Hc as [|r' p n t' ts' sign' rs' Hn Hp Hlt Ht Hd Hcp]; subst.
    assert (Hlen : (r < length (heap w))%nat) by (eapply lookup_lt_Some; eassumption).
    simpl DataNode_compute. rewrite (bind_Ok _ _ _ _ _ (get_node_Ok _ _ _ Hn)).
    assert (H1 : exists s1,
               match end_date n with
               | Some _ => ret tt
               | None => put_node r (set_end_date (Some d) n)
               end w = Ok tt (with_heap (<[r:=s1]> (heap w)) w) /\
               parent s1 = Some p /\ data s1 = None /\ transformer s1 = Some t).
    { destruct (end_date n) eqn:Ee.
      - exists n. rewrite put_node_same by exact Hn. repeat split; assumption.
      - eexists. split; [reflexivity|]. repeat split; assumption. }
    destruct H1 as (s1 & Hfirst & Hp1 & Hd1 & Ht1).
    rewrite (bind_Ok _ _ _ _ _ Hfirst).
    set (w1 := with_heap (<[r:=s1]> (heap w)) w).
    assert (Hs1 : heap w1 !! r = Some s1) by (apply list_lookup_insert_eq; exact Hlen).
    rewrite (bind_Ok _ _ _ _ _ (get_node_Ok _ _ _ Hs1)). rewrite Hp1.
    assert (Hcp1 : fresh_chain (heap w1) p ts sign rs).
    { eapply fresh_chain_agree; [exact Hcp|]. intros k Hk. subst w1. wsimpl.
      apply list_lookup_insert_ne. lia. }
    destruct (fresh_chain_data _ _ _ _ _ Hcp1) as (pn & Hpn & Hdp).
    rewrite (bind_Ok _ _ _ _ _ (get_node_Ok _ _ _ Hpn)). rewrite Hdp.
    destruct (IH p sign rs fuel d w1 Hcp1 ltac:(lia))
      as (w3 & pn3 & Hrun & Hpn3 & Hdata3 & Hst3 & Htr3 & Hlen3 & Habove & Hbr3).
    rewrite (bind_Ok _ _ _ _ _ Hrun).
    assert (Hs3 : heap w3 !! r = Some s1) by (rewrite Habove by exact Hlt; exact Hs1).
    rewrite (bind_Ok _ _ _ _ _ (get_node_Ok _ _ _ Hs3)). rewrite Hd1.
    unfold apply_fit_transform.
    rewrite (bind_Ok _ _ _ _ _ (get_node_Ok _ _ _ Hs3)). rewrite Ht1, Hp1.
    simpl attr_of. unfold bind at 1, ret at 1. unfold bind at 1, ret at 1.
    rewrite (bind_Ok _ _ _ _ _ (get_node_Ok _ _ _ Hpn3)). rewrite Hdata3.
    unfold expect_table, bind at 1, ret at 1.
    unfold bind, get_state, log, put_state, get_node, put_node. wsimpl. rewrite Hs3.
    eexists _, _. split; [reflexivity|]. wsimpl.
    assert (Hlen' : (r < length (heap w3))%nat) by (eapply lookup_lt_Some; eassumption).
    split; [apply list_lookup_insert_eq; exact Hlen'|].
    change (states w1) with (states w) in *. change (trace w1) with (trace w) in *.
    cbn [run_chain fst snd data set_data]. rewrite Hst3.
    split; [reflexivity|]. split; [reflexivity|].
    split.
    { rewrite Htr3. simpl rev. rewrite map_app. simpl map.
      rewrite <- !app_assoc. simpl. rewrite <- !app_assoc. reflexivity. }
    split; [rewrite length_insert, Hlen3; subst w1; wsimpl; apply length_insert|].
    split; [|rewrite Hbr3; reflexivity].
    intros k Hk. rewrite list_lookup_insert_ne by lia.
    rewrite Habove by lia. subst w1. wsimpl. apply list_lookup_insert_ne. lia.
Qed.

(** X9: [compute] on a chain that holds no data yet loads the raw table
    at the root, truncates it to the date and filters the sessions, then
    runs [fit_transform] of every transformer once, root to leaf, each on
    the table of its parent and from the state its transformer is in.
    The leaf holds the result; no node created after the leaf and no
    facade is touched. *)
Theorem compute_runs_pipeline ts r sign rs fuel d w :
  fresh_chain (heap w) r ts sign rs -> (length ts < fuel)%nat ->
  exists w' n',
    DataNode_compute fuel r (Some d) w = Ok tt w' /\
    heap w' !! r = Some n' /\
    data n' = Some (fst (run_chain ts (states w) (raw_table sign rs d))) /\
    states w' = snd (run_chain ts (states w) (raw_table sign rs d)) /\
    trace w' = trace w ++ EvUploadCandles sign
                 :: match rs with None => [] | Some _ => [EvRemoveSession sign] end
                 ++ map EvFitTransform (rev ts) /\
    length (heap w') = length (heap w) /\
    (forall k, (r < k)%nat -> heap w' !! k = heap w !! k) /\
    brokers w' = brokers w.
Proof. apply DataNode_compute_fresh_chain. Qed.

(** ** fit, the incremental update and the flush *)

(** X10: [fit], after the computation it starts with.  On an empty table
    it raises the [IndexError] of [data.index[-1]]: nothing is stamped and
    no model is called.  On a facade without model it raises
    [AttributeError] when [fit_date] has already been set to the
    timestamp of the last row.  Otherwise it returns with that [fit_date]
    and the model fitted once, on the whole table. *)
Theorem fit_after_compute fuel self w o wc :
  Broker_compute fuel self None w = Ok o wc ->
  exists t b,
    o = Some t /\ brokers wc !! self = Some b /\
    match last t, model b with
    | None, _ => Broker_fit fuel self w = Raise "IndexError" wc
    | Some row, None =>
        Broker_fit fuel self w
        = Raise "AttributeError"
            (with_brokers (<[self:=set_fit_date (Some (fst row)) b]> (brokers wc)) wc)
    | Some row, Some m =>
        Broker_fit fuel self w
        = Ok tt (mkWorld (heap wc)
                   (<[self:=set_fit_date (Some (fst row)) b]> (brokers wc))
                   (nodes wc) (optimized wc)
                   (fun x => if Nat.eqb x m then model_fit m (states wc m) t else states wc x)
                   (fs wc) (new_candles wc) (trace wc ++ [EvModelFit m]))
    end.
Proof.
  intros H.
  destruct (Broker_compute_post _ _ _ _ _ _ H)
    as (b0 & b & leaf & n & _ & Hb & _ & _ & _ & _ & _ & [t ->] & _).
  assert (Hlen : (self < length (brokers wc))%nat) by (eapply lookup_lt_Some; eassumption).
  exists t, b. split; [reflexivity|]. split; [exact Hb|].
  assert (Hfit : Broker_fit fuel self w
                 = (stamp <- last_index t ;;
                    b <- get_broker self ;;
                    put_broker self (set_fit_date (Some stamp) b) ;;
                    b <- get_broker self ;;
                    m <- attr_of (model b) ;;
                    st <- get_state m ;;
                    log (EvModelFit m) ;;
                    put_state m (model_fit m st t)) wc).
  { unfold Broker_fit. rewrite (bind_Ok _ _ _ _ _ H). reflexivity. }
  rewrite Hfit. clear Hfit. unfold last_index.
  destruct (last t) as [row|]; [|destruct (model b); reflexivity].
  destruct (model b) as [m|] eqn:Em;
    unfold bind at 1, ret at 1;
    rewrite (bind_Ok _ _ _ _ _ (get_broker_Ok _ _ _ Hb));
    unfold bind at 1, put_broker at 1;
    unfold bind at 1, get_broker at 1; wsimpl;
    rewrite list_lookup_insert_eq by exact Hlen;
    cbn [model set_fit_date]; rewrite Em; reflexivity.
Qed.

Lemma last_batches_unprocessed (l : list (@Table Row)) (k : Z) :
  0 <= k <= Z.of_nat (length l) ->
  (if 0 <? Z.of_nat (length l) - k then last_batches (Z.of_nat (length l) - k) l else [])
  = drop (Z.to_nat k) l.
Proof.
  intros Hk. destruct (Z.ltb_spec 0 (Z.of_nat (length l) - k)).
  - unfold last_batches. f_equal. lia.
  - symmetry. apply drop_ge. lia.
Qed.

(** [update] on a root that has a transformer. *)
Lemma DataNode_update_root r d w n t :
  heap w !! r = Some n -> parent n = None -> transformer n = Some t ->
  0 <= n_of_new_data_processed n <= Z.of_nat (length (new_candles w)) ->
  DataNode_update r d w
  = Ok (fst (transform t (states w t)
               (drop (Z.to_nat (n_of_new_data_processed n)) (new_candles w))))
       (mkWorld
          (<[r:=mkNode (ticker n) (transformer n) (parent n) (Some d) (children n) (data n)
                  (new_data n ++ [fst (transform t (states w t)
                     (drop (Z.to_nat (n_of_new_data_processed n)) (new_candles w)))])
                  (Z.of_nat (length (new_candles w))) (data_broker n) (remove_session n)]>
             (heap w))
          (brokers w) (nodes w) (optimized w)
          (fun x => if Nat.eqb x t
                    then snd (transform t (states w t)
                                (drop (Z.to_nat (n_of_new_data_processed n)) (new_candles w)))
                    else states w x)
          (fs w) (new_candles w) (trace w ++ [EvTransform t])).
Proof.
  intros Hr Hp Ht Hk.
  assert (Hlen : (r < length (heap w))%nat) by (eapply lookup_lt_Some; eassumption).
  pose proof (last_batches_unprocessed (new_candles w) _ Hk) as Hlast.
  unfold DataNode_update.
  rewrite (bind_Ok _ _ _ _ _ (get_node_Ok _ _ _ Hr)).
  unfold bind, put_node, get_node, attr_of, get_state, log, put_state, ret. wsimpl.
  look Hlen. cbn [parent set_end_date n_of_new_data_processed]. rewrite Hp.
  destruct (0 <? _); cbv beta iota; wsimpl; look Hlen;
    cbn [transformer set_processed set_end_date]; rewrite Ht; cbv beta iota; wsimpl;
    look Hlen; [rewrite Hlast | rewrite <- Hlast];
    unfold with_heap, with_states, with_trace; wsimpl;
    rewrite !list_insert_insert_eq;
    unfold set_new_data, set_processed, set_end_date; simpl; rewrite ?Hp, ?Ht;
    replace (n_of_new_data_processed n
             + (Z.of_nat (length (new_candles w)) - n_of_new_data_processed n))
      with (Z.of_nat (length (new_candles w))) by lia; reflexivity.
Qed.

(** X11: [update] on a root that has a transformer hands it exactly the
    batches of [new_candles] that were not processed yet, stages what
    [transform] returns as one more pending batch, sets [end_date] and
    moves the counter to the number of batches; [data] stays. *)
Theorem update_hands_over_new_batches r d w n t :
  heap w !! r = Some n -> parent n = None -> transformer n = Some t ->
  0 <= n_of_new_data_processed n <= Z.of_nat (length (new_candles w)) ->
  exists w' n',
    DataNode_update r d w
    = Ok (fst (transform t (states w t)
                 (drop (Z.to_nat (n_of_new_data_processed n)) (new_candles w)))) w' /\
    heap w' !! r = Some n' /\
    n_of_new_data_processed n' = Z.of_nat (length (new_candles w)) /\
    new_data n'
    = new_data n ++ [fst (transform t (states w t)
                            (drop (Z.to_nat (n_of_new_data_processed n)) (new_candles w)))] /\
    end_date n' = Some d /\ data n' = data n /\
    states w' t = snd (transform t (states w t)
                         (drop (Z.to_nat (n_of_new_data_processed n)) (new_candles w))) /\
    trace w' = trace w ++ [EvTransform t] /\
    new_candles w' = new_candles w.
Proof.
  intros Hr Hp Ht Hk.
  assert (Hlen : (r < length (heap w))%nat) by (eapply lookup_lt_Some; eassumption).
  eexists _, _. split; [apply (DataNode_update_root r d w n t Hr Hp Ht Hk)|]. wsimpl.
  split; [apply list_lookup_insert_eq; exact Hlen|].
  rewrite Nat.eqb_refl. repeat split.
Qed.

Lemma pd_concat_set (t0 : @Table Row) (l : list (@Table Row)) :
  pd_concat (Some t0 :: map Some l) = Some (t0 ++ concat l).
Proof. unfold pd_concat. simpl omap. rewrite omap_id_Some. reflexivity. Qed.

(** A flush that returned: what it wrote. *)
Lemma DataNode_cache_new_data_inv r w w' :
  DataNode_cache_new_data r w = Ok tt w' ->
  exists n,
    heap w !! r = Some n /\
    w' = with_heap (<[r:=set_new_data [] (set_processed 0
                       (set_data (Some (default [] (data n) ++ concat (new_data n))) n))]>
                      (heap w)) w.
Proof.
  unfold DataNode_cache_new_data at 1. intros H. mstep H as n w0 Hn.
  assert (Hlen : (r < length (heap w))%nat) by (eapply lookup_lt_Some; eassumption).
  assert (Hcat : pd_concat (data n :: map Some (new_data n))
                 = match data n, new_data n with
                   | None, [] => None
                   | _, _ => Some (default [] (data n) ++ concat (new_data n))
                   end).
  { destruct (data n) as [t0|]; [rewrite pd_concat_set; reflexivity|].
    rewrite pd_concat_unset. destruct (new_data n); reflexivity. }
  rewrite Hcat in H.
  set (t' := default [] (data n) ++ concat (new_data n)) in *.
  assert (H' : (put_node r (set_data (Some t') n);; s <- get_node r;;
                put_node r (set_processed 0 s);; s0 <- get_node r;;
                put_node r (set_new_data [] s0)) w = Ok tt w').
  { destruct (data n), (new_data n); try exact H. discriminate H. }
  clear H Hcat. exists n. split; [exact Hn|].
  unfold bind, put_node, get_node in H'. wsimpl.
  rewrite list_lookup_insert_eq in H' by exact Hlen. wsimpl.
  rewrite list_lookup_insert_eq in H' by (rewrite length_insert; exact Hlen).
  unfold with_heap in *. wsimpl. rewrite !list_insert_insert_eq in H'.
  injection H' as <-. reflexivity.
Qed.

(** A flush on a node that holds data returns. *)
Lemma DataNode_cache_new_data_set r w n t0 :
  heap w !! r = Some n -> data n = Some t0 ->
  DataNode_cache_new_data r w
  = Ok tt (with_heap (<[r:=set_new_data [] (set_processed 0
                        (set_data (Some (t0 ++ concat (new_data n))) n))]> (heap w)) w).
Proof.
  intros Hn Hd.
  assert (Hlen : (r < length (heap w))%nat) by (eapply lookup_lt_Some; eassumption).
  unfold DataNode_cache_new_data.
  rewrite (bind_Ok _ _ _ _ _ (get_node_Ok _ _ _ Hn)). rewrite Hd, pd_concat_set.
  unfold bind, put_node, get_node. wsimpl.
  rewrite list_lookup_insert_eq by exact Hlen. wsimpl.
  rewrite list_lookup_insert_eq by (rewrite length_insert; exact Hlen).
  unfold with_heap. wsimpl. rewrite !list_insert_insert_eq. reflexivity.
Qed.

(** X12: a flush that returned has replaced [data] by its rows followed
    by the pending batches in order, emptied the pending list and reset
    the counter, without an external call; a second flush changes
    nothing. *)
Theorem cache_new_data_commits r w w' :
  DataNode_cache_new_data r w = Ok tt w' ->
  exists n n',
    heap w !! r = Some n /\ heap w' !! r = Some n' /\
    data n' = Some (default [] (data n) ++ concat (new_data n)) /\
    new_data n' = [] /\ n_of_new_data_processed n' = 0 /\
    end_date n' = end_date n /\
    states w' = states w /\ trace w' = trace w /\
    DataNode_cache_new_data r w' = Ok tt w'.
Proof.
  intros H. destruct (DataNode_cache_new_data_inv r w w' H) as (n & Hn & ->).
  assert (Hlen : (r < length (heap w))%nat) by (eapply lookup_lt_Some; eassumption).
  set (t' := default [] (data n) ++ concat (new_data n)) in *.
  set (s' := set_new_data [] (set_processed 0 (set_data (Some t') n))).
  set (w1 := with_heap (<[r:=s']> (heap w)) w).
  assert (Hs' : heap w1 !! r = Some s') by (apply list_lookup_insert_eq; exact Hlen).
  exists n, s'. split; [exact Hn|]. split; [exact Hs'|].
  repeat (split; [reflexivity|]).
  rewrite (DataNode_cache_new_data_set r w1 s' t' Hs' eq_refl).
  f_equal. subst w1. unfold with_heap. wsimpl. rewrite list_insert_insert_eq.
  simpl. rewrite app_nil_r. reflexivity.
Qed.

(** X13: of two updates in a row the second hands an empty list to
    [transform].  An update after a flush hands over every batch of
    [new_candles] again: the flush resets the counter and leaves
    [new_candles] as it is. *)
Theorem update_batches_across_calls r d d' w n t :
  heap w !! r = Some n -> parent n = None -> transformer n = Some t ->
  (0 <= n_of_new_data_processed n <= Z.of_nat (length (new_candles w)) ->
   exists tbl w1 w2,
     DataNode_update r d w = Ok tbl w1 /\
     DataNode_update r d' w1 = Ok (fst (transform t (states w1 t) [])) w2) /\
  (forall w1, DataNode_cache_new_data r w = Ok tt w1 ->
   exists w2,
     DataNode_update r d w1 = Ok (fst (transform t (states w t) (new_candles w))) w2).
Proof.
  intros Hn Hp Ht.
  assert (Hlen : (r < length (heap w))%nat) by (eapply lookup_lt_Some; eassumption).
  split.
  - intros Hk. eexists _, _, _.
    split; [apply (DataNode_update_root r d w n t Hn Hp Ht Hk)|].
    set (w1 := mkWorld _ _ _ _ _ _ _ _).
    set (n1 := mkNode _ _ _ _ _ _ _ _ _ _) in w1.
    assert (Hn1 : heap w1 !! r = Some n1) by (apply list_lookup_insert_eq; exact Hlen).
    rewrite (DataNode_update_root r d' w1 n1 t Hn1 Hp Ht)
      by (subst n1 w1; simpl; lia).
    subst n1 w1. cbn [n_of_new_data_processed new_candles].
    rewrite Nat2Z.id, drop_all. reflexivity.
  - intros w1 Hc. destruct (DataNode_cache_new_data_inv r w w1 Hc) as (n0 & Hn0 & ->).
    rewrite Hn in Hn0. injection Hn0 as <-.
    set (n1 := set_new_data _ _).
    set (w1 := with_heap _ w).
    assert (Hn1 : heap w1 !! r = Some n1) by (apply list_lookup_insert_eq; exact Hlen).
    eexists.
    rewrite (DataNode_update_root r d w1 n1 t Hn1 Hp Ht)
      by (subst n1 w1; simpl; lia).
    subst n1 w1. cbn [n_of_new_data_processed set_new_data set_processed new_candles with_heap
                      states].
    reflexivity.
Qed.

(** ** The optimizer pass only rewires *)

Lemma node_rewired_refl n : node_rewired n n.
Proof. repeat split; auto. Qed.

Lemma node_rewired_trans n1 n2 n3 :
  node_rewired n1 n2 -> node_rewired n2 n3 -> node_rewired n1 n3.
Proof.
  intros (A1 & A2 & A3 & A4 & A5 & A6 & A7 & A8 & A9 & A10)
         (B1 & B2 & B3 & B4 & B5 & B6 & B7 & B8 & B9 & B10).
  repeat split; try congruence; auto; etransitivity; eassumption.
Qed.

Lemma rewires_refl key w : rewires key w w.
Proof.
  repeat split; auto. intros r n Hn. exists n. split; [exact Hn | apply node_rewired_refl].
Qed.

Lemma rewires_trans key w1 w2 w3 : rewires key w1 w2 -> rewires key w2 w3 -> rewires key w1 w3.
Proof.
  intros (A1 & A2 & A3 & A4 & A5 & A6 & A7 & A8) (B1 & B2 & B3 & B4 & B5 & B6 & B7 & B8).
  repeat split; try congruence.
  - intros k Hk. rewrite B7, A7 by exact Hk. reflexivity.
  - intros r n Hn. destruct (A8 _ _ Hn) as (n' & Hn' & G1).
    destruct (B8 _ _ Hn') as (n'' & Hn'' & G2).
    exists n''. split; [exact Hn'' | eapply node_rewired_trans; eassumption].
Qed.

Lemma rewires_put_node key w r s s' :
  heap w !! r = Some s -> node_rewired s s' ->
  rewires key w (with_heap (<[r:=s']> (heap w)) w).
Proof.
  intros Hs Hg. repeat split; wsimpl; try reflexivity.
  - apply length_insert.
  - intros r' n Hr'. destruct (decide (r' = r)) as [->|Hne].
    + exists s'. rewrite list_lookup_insert_eq by (eapply lookup_lt_Some; eassumption).
      split; [reflexivity|]. rewrite Hs in Hr'. injection Hr' as <-. exact Hg.
    + exists n. rewrite list_lookup_insert_ne by congruence.
      split; [exact Hr' | apply node_rewired_refl].
Qed.

Lemma rewires_same_heap key w w' :
  heap w' = heap w -> states w' = states w -> fs w' = fs w ->
  new_candles w' = new_candles w -> trace w' = trace w -> optimized w' = optimized w ->
  (forall k, k <> key -> nodes w' !! k = nodes w !! k) ->
  rewires key w w'.
Proof.
  intros Hh Hs Hf Hc Ht Ho Hn. repeat split; try assumption; [rewrite Hh; reflexivity|].
  intros r n Hr. exists n. rewrite Hh. split; [exact Hr | apply node_rewired_refl].
Qed.

Lemma reparent_children_rewires key fuel : forall node same_node i w w',
  reparent_children fuel node same_node i w = Ok tt w' -> rewires key w w'.
Proof.
  induction fuel as [|fuel IH]; intros node same_node i w w' H; [discriminate|].
  simpl in H. mstep H as sn w1 Hsn.
  destruct (children sn !! i) as [child|]; [|mprim H; apply rewires_refl].
  mstep H as c w1 Hc. mstep H as u1 w2 Hu1. mstep H as n w3 Hn. mstep H as u2 w4 Hu2.
  apply IH in H.
  match type of H with rewires _ (with_heap _ ?wa) _ =>
    apply (rewires_trans key w wa);
      [apply (rewires_put_node key w child c); [exact Hc|]; repeat split; simpl; auto|];
    eapply rewires_trans; [|exact H];
    apply (rewires_put_node key wa node n); [exact Hn|]
  end.
  repeat split; simpl; auto. apply prefix_app_r. reflexivity.
Qed.

Lemma retarget_brokers_rewires key node subscribers : forall w w',
  retarget_brokers node subscribers w = Ok tt w' -> rewires key w w'.
Proof.
  induction subscribers as [|s rest IH]; intros w w' H; simpl in H.
  - mprim H. apply rewires_refl.
  - mstep H as b w1 Hb. mstep H as u w2 Hu. apply IH in H.
    eapply rewires_trans; [|exact H]. apply rewires_same_heap; auto.
Qed.

Lemma merge_into_rewires key fuel node same_node w w' :
  merge_into fuel node same_node w = Ok tt w' -> rewires key w w'.
Proof.
  unfold merge_into. intros H. mstep H as n w1 Hn. mstep H as sn w2 Hsn.
  mstep H as u1 w3 Hd.
  assert (R1 : rewires key w w3).
  { destruct (data n) eqn:Edn, (data sn); mprim Hd; try apply rewires_refl.
    apply (rewires_put_node key w node n); [exact Hn|].
    repeat split; simpl; auto. intros t0 Ht0. congruence. }
  mstep H as u2 w4 Hr. destruct u2. apply (reparent_children_rewires key) in Hr.
  mstep H as sn' w5 Hsn'. mstep H as u3 w6 Ht. destruct u3.
  apply (retarget_brokers_rewires key) in Ht.
  mstep H as n' w7 Hn'. mstep H as sn'' w8 Hsn''. mprim H.
  eapply rewires_trans; [exact R1|]. eapply rewires_trans; [exact Hr|].
  eapply rewires_trans; [exact Ht|].
  apply (rewires_put_node key w6 node n'); [exact Hn'|].
  repeat split; simpl; auto. apply prefix_app_r. reflexivity.
Qed.

Lemma merge_duplicates_rewires fuel key aliased node slice :
  forall j idx parent_nodes w l w',
  merge_duplicates fuel key aliased node slice j idx parent_nodes w = Ok l w' ->
  rewires key w w'.
Proof.
  induction slice as [|same_node rest IH]; intros j idx parent_nodes w l w' H; simpl in H.
  - mprim H. apply rewires_refl.
  - mstep H as equal w1 He. apply DataNode_eq_pure in He. subst w1.
    destruct equal; [|eapply IH; exact H].
    mstep H as u w2 Hm. destruct u. apply (merge_into_rewires key) in Hm.
    destruct (py_del parent_nodes (idx + 1 + j)) as [l'|]; [|mprim H].
    mstep H as u w3 Hs.
    assert (R : rewires key w2 w3).
    { destruct aliased; mprim Hs; [|apply rewires_refl].
      apply rewires_same_heap; auto. intros k Hk. wsimpl. apply lookup_insert_ne. congruence. }
    apply IH in H.
    eapply rewires_trans; [exact Hm|]. eapply rewires_trans; [exact R | exact H].
Qed.

Lemma dedup_layer_rewires fuel : forall key aliased i parent_nodes children_nodes w l w',
  dedup_layer fuel key aliased i parent_nodes children_nodes w = Ok l w' ->
  rewires key w w'.
Proof.
  induction fuel as [|fuel IH]; intros key aliased i parent_nodes children_nodes w l w' H;
    [discriminate|].
  simpl in H. destruct (parent_nodes !! i) as [node|]; [|mprim H; apply rewires_refl].
  mstep H as n w1 Hn. mstep H as l' w2 Hm. apply merge_duplicates_rewires in Hm.
  apply IH in H. eapply rewires_trans; eassumption.
Qed.

Lemma optimize_layers_rewires fuel : forall key aliased parent_nodes w w',
  optimize_layers fuel key aliased parent_nodes w = Ok tt w' -> rewires key w w'.
Proof.
  induction fuel as [|fuel IH]; intros key aliased parent_nodes w w' H; [discriminate|].
  simpl in H. destruct parent_nodes as [|r rest]; [mprim H; apply rewires_refl|].
  mstep H as ch w1 Hd. apply dedup_layer_rewires in Hd. apply IH in H.
  eapply rewires_trans; eassumption.
Qed.

(** X14: an optimizer pass that returned made no external call and
    created no object.  Every node keeps its ticker, its transformer, its
    [end_date], its pending batches, the data it held and, if it had one,
    a parent; children and subscribers were only appended; facades were
    only retargeted; the pools and flags of the other instruments stay.
    The instrument is marked as optimized, and a further pass changes
    nothing. *)
Theorem optimize_only_rewires fuel self w w' b :
  brokers w !! self = Some b ->
  _optimize fuel self w = Ok tt w' ->
  states w' = states w /\ fs w' = fs w /\ new_candles w' = new_candles w /\
  trace w' = trace w /\ length (heap w') = length (heap w) /\
  (forall r n, heap w !! r = Some n ->
     exists n', heap w' !! r = Some n' /\ node_rewired n n') /\
  retargets w w' /\
  (forall k, k <> ticker_sign b ->
     nodes w' !! k = nodes w !! k /\ optimized w' !! k = optimized w !! k) /\
  optimized w' !! ticker_sign b = Some true /\
  (forall fuel', _optimize fuel' self w' = Ok tt w').
Proof.
  intros Hb H.
  destruct (optimize_post _ _ _ _ H) as (Hret & b' & Hb' & Hflag).
  assert (Hsign : ticker_sign b' = ticker_sign b).
  { destruct Hret as [_ Hr]. destruct (Hr _ _ Hb) as (b'' & Hb'' & E).
    rewrite Hb' in Hb''. injection Hb'' as <-. rewrite E. reflexivity. }
  assert (Hagain : forall fuel', _optimize fuel' self w' = Ok tt w').
  { intros fuel'. unfold _optimize.
    rewrite (bind_Ok _ _ _ _ _ (get_broker_Ok _ _ _ Hb')).
    unfold bind, optimized_at. rewrite Hflag. reflexivity. }
  rewrite Hsign in Hflag.
  unfold _optimize in H. mstep H as b0 w1 Hb0. rewrite Hb in Hb0. injection Hb0 as <-.
  mstep H as flag w2 Hf.
  unfold optimized_at in Hf. destruct (optimized w !! ticker_sign b) as [fl|] eqn:Hfl;
    [|discriminate]. injection Hf as <- <-.
  destruct fl.
  - mprim H. repeat (split; [reflexivity|]).
    split; [intros r n Hn; exists n; split; [exact Hn | apply node_rewired_refl]|].
    split; [exact Hret|]. split; [intros k _; split; reflexivity|].
    split; [exact Hflag | exact Hagain].
  - mstep H as pool w1 Hp. unfold nodes_at in Hp.
    destruct (nodes w !! ticker_sign b); [|discriminate]. injection Hp as <- <-.
    mstep H as u w2 Ho. destruct u.
    apply optimize_layers_rewires in Ho as (R1 & R2 & R3 & R4 & R5 & R6 & R7 & R8).
    mstep H as b1 w3 Hb1. mprim H. wsimpl.
    assert (Hs1 : ticker_sign b1 = ticker_sign b).
    { rewrite Hb' in Hb1. injection Hb1 as <-. exact Hsign. }
    split; [exact R2|]. split; [exact R3|]. split; [exact R4|]. split; [exact R5|].
    split; [exact R1|]. split; [exact R8|]. split; [exact Hret|].
    split; [|split; [exact Hflag | exact Hagain]].
    intros k Hk. split; [apply R7; exact Hk|].
    rewrite Hs1, R6. apply lookup_insert_ne. congruence.
Qed.

(** ** A pipeline on its own *)

(** The pass over a layer that holds one node with a line below it
    finds nothing to merge. *)
Lemma optimize_layers_line h r k :
  line h r k -> forall fuel key aliased w, heap w = h -> (k + 3 <= fuel)%nat ->
  optimize_layers fuel key aliased [r] w = Ok tt w.
Proof.
  induction 1 as [r n Hr Hc|r c n k Hr Hc Hl IH]; intros fuel key aliased w Hh Hfuel;
    subst h; (destruct fuel as [|[|[|fuel]]]; [lia..|]).
  - change (optimize_layers (S (S (S fuel))) key aliased [r] w)
      with ((children_nodes <- dedup_layer (S (S fuel)) key aliased 0 [r] [] ;;
             optimize_layers (S (S fuel)) key false children_nodes) w).
    assert (Hd : dedup_layer (S (S fuel)) key aliased 0 [r] [] w = Ok [] w).
    { change (dedup_layer (S (S fuel)) key aliased 0 [r] [] w)
        with ((n0 <- get_node r ;;
               parent_nodes' <- merge_duplicates (S fuel) key aliased r [] 0 0 [r] ;;
               dedup_layer (S fuel) key aliased 1 parent_nodes' ([] ++ children n0)) w).
      rewrite (bind_Ok _ _ _ _ _ (get_node_Ok _ _ _ Hr)). rewrite Hc. reflexivity. }
    rewrite (bind_Ok _ _ _ _ _ Hd). reflexivity.
  - change (optimize_layers (S (S (S fuel))) key aliased [r] w)
      with ((children_nodes <- dedup_layer (S (S fuel)) key aliased 0 [r] [] ;;
             optimize_layers (S (S fuel)) key false children_nodes) w).
    assert (Hd : dedup_layer (S (S fuel)) key aliased 0 [r] [] w = Ok [c] w).
    { change (dedup_layer (S (S fuel)) key aliased 0 [r] [] w)
        with ((n0 <- get_node r ;;
               parent_nodes' <- merge_duplicates (S fuel) key aliased r [] 0 0 [r] ;;
               dedup_layer (S fuel) key aliased 1 parent_nodes' ([] ++ children n0)) w).
      rewrite (bind_Ok _ _ _ _ _ (get_node_Ok _ _ _ Hr)). rewrite Hc. reflexivity. }
    rewrite (bind_Ok _ _ _ _ _ Hd). apply IH; [reflexivity | lia].
Qed.

(** The pass over a pool that holds one pipeline only sets the flag. *)
Lemma _optimize_line fuel self w b r k flag :
  brokers w !! self = Some b ->
  optimized w !! ticker_sign b = Some flag ->
  nodes w !! ticker_sign b = Some [r] ->
  line (heap w) r k -> (k + 3 <= fuel)%nat ->
  _optimize fuel self w
  = Ok tt (with_optimized (<[ticker_sign b:=true]> (optimized w)) w).
Proof.
  intros Hb Hflag Hpool Hline Hfuel. unfold _optimize.
  rewrite (bind_Ok _ _ _ _ _ (get_broker_Ok _ _ _ Hb)).
  unfold bind at 1, optimized_at at 1. rewrite Hflag. destruct flag.
  - unfold ret. f_equal. rewrite insert_id by exact Hflag. destruct w; reflexivity.
  - unfold bind at 1, nodes_at at 1. rewrite Hpool.
    rewrite (bind_Ok _ _ _ _ _
               (optimize_layers_line _ _ _ Hline fuel (ticker_sign b) true w eq_refl Hfuel)).
    rewrite (bind_Ok _ _ _ _ _ (get_broker_Ok _ _ _ Hb)). reflexivity.
Qed.

(** X15: on an instrument whose pool is one root with a single line of
    nodes below it, the optimizer pass only sets the flag. *)
Theorem optimize_leaves_lone_pipeline fuel self w b r k flag :
  brokers w !! self = Some b ->
  optimized w !! ticker_sign b = Some flag ->
  nodes w !! ticker_sign b = Some [r] ->
  line (heap w) r k -> (k + 3 <= fuel)%nat ->
  _optimize fuel self w
  = Ok tt (with_optimized (<[ticker_sign b:=true]> (optimized w)) w).
Proof. apply _optimize_line. Qed.

(** A spine is a line, and a chain still to be computed. *)
Lemma line_spine sign self ts : forall (pre : list (@DataNode Row)) nd,
  children nd = [] ->
  line (pre ++ spine sign self (length pre) nd ts) (length pre) (length ts).
Proof.
  induction ts as [|t ts IH]; intros pre nd Hnd; simpl.
  - eapply line_end; [apply list_lookup_middle; reflexivity | exact Hnd].
  - set (nd' := set_children (children nd ++ [S (length pre)]) nd).
    set (new := mkNode sign (Some t) (Some (length pre)) None [] None [] 0 [] None).
    eapply line_next with (c := S (length pre)).
    + apply list_lookup_middle. reflexivity.
    + simpl. rewrite Hnd. reflexivity.
    + specialize (IH (pre ++ [nd']) new eq_refl).
      rewrite length_app in IH. simpl length in IH.
      replace (length pre + 1)%nat with (S (length pre)) in IH by lia.
      rewrite <- app_assoc in IH. exact IH.
Qed.

Lemma fresh_chain_spine sign0 rs0 sign self ts : forall (pre : list (@DataNode Row)) nd cs,
  (forall x tail, parent x = parent nd -> transformer x = transformer nd ->
                  data x = data nd -> ticker x = ticker nd ->
                  remove_session x = remove_session nd ->
                  fresh_chain (pre ++ x :: tail) (length pre) cs sign0 rs0) ->
  data nd = None ->
  fresh_chain (pre ++ spine sign self (length pre) nd ts) (length pre + length ts)%nat
              (rev ts ++ cs) sign0 rs0.
Proof.
  induction ts as [|t ts IH]; intros pre nd cs Hnd Hd; simpl.
  - rewrite Nat.add_0_r. apply Hnd; reflexivity.
  - set (nd' := set_children (children nd ++ [S (length pre)]) nd).
    set (new := mkNode sign (Some t) (Some (length pre)) None [] None [] 0 [] None).
    specialize (IH (pre ++ [nd']) new (t :: cs)).
    rewrite length_app in IH. simpl length in IH.
    replace (length pre + 1)%nat with (S (length pre)) in IH by lia.
    rewrite <- !app_assoc in IH. simpl in IH.
    replace (length pre + S (length ts))%nat with (S (length pre + length ts)) by lia.
    rewrite <- app_assoc. simpl. apply IH; [|reflexivity].
    intros x tail Hp Ht Hdx _ _. simpl in Hp, Ht, Hdx.
    eapply fresh_chain_step with (p := length pre) (n := x).
    + replace (S (length pre)) with (length (pre ++ [nd']))
        by (rewrite length_app; simpl; lia).
      apply list_lookup_middle. reflexivity.
    + exact Hp.
    + lia.
    + exact Ht.
    + exact Hdx.
    + rewrite <- app_assoc. simpl. apply Hnd; [reflexivity..|]. simpl. reflexivity.
Qed.

(** X16: a facade built alone on an instrument computes its pipeline:
    the raw table up to the date (the argument of [compute], or the
    facade's [end_date] when there is none), session-filtered, run through
    [fit_transform] of the node steps in pipeline order, every
    transformer called once.  The optimizer pass in between changes
    nothing but the flag. *)
Theorem fresh_facade_computes_its_pipeline sign rs steps date arg fuel w :
  default [] (nodes w !! sign) = [] ->
  (length (node_steps steps) + 3 <= fuel)%nat ->
  exists self w1 w2 w3,
    Broker_init sign rs w = Ok self w1 /\
    Broker_make_pipeline self steps date w1 = Ok tt w2 /\
    Broker_compute fuel self arg w2
    = Ok (Some (fst (run_chain (rev (node_steps steps)) (states w)
                       (raw_table sign rs (default date arg))))) w3 /\
    states w3 = snd (run_chain (rev (node_steps steps)) (states w)
                       (raw_table sign rs (default date arg))) /\
    trace w3 = trace w ++ EvUploadCandles sign
                 :: match rs with None => [] | Some _ => [EvRemoveSession sign] end
                 ++ map EvFitTransform (node_steps steps).
Proof.
  intros Hfresh Hfuel.
  pose proof (Broker_init_spec sign rs w) as Hinit.
  set (w1 := mkWorld _ _ _ _ _ _ _ _) in Hinit.
  set (b0 := mkBroker sign None None "" None None None rs).
  assert (Hb : brokers w1 !! length (brokers w) = Some b0)
    by (subst w1; wsimpl; apply list_lookup_middle; reflexivity).
  assert (Hpool : nodes w1 !! ticker_sign b0 = Some []).
  { subst w1. wsimpl. simpl. destruct (nodes w !! sign) as [pool|] eqn:E; simpl in *;
      [rewrite E; f_equal; exact Hfresh | apply lookup_insert_eq]. }
  pose proof (Broker_make_pipeline_spec _ steps date w1 _ _ Hb Hpool) as Hmk.
  set (ts := node_steps steps) in *.
  set (self := length (brokers w)) in *.
  set (L := length (heap w1)) in *.
  set (b2 := set_final_datanode (Some (L + length ts)%nat)
               (named steps (set_broker_end_date (Some date) b0))) in *.
  set (w2 := mkWorld _ _ _ _ _ _ _ _) in Hmk.
  destruct (named_frame steps (set_broker_end_date (Some date) b0))
    as (Hsign & _ & _ & _ & Hend & _).
  assert (Hb2 : brokers w2 !! self = Some b2).
  { subst w2. wsimpl. apply list_lookup_insert_eq. eapply lookup_lt_Some. exact Hb. }
  assert (Hsign2 : ticker_sign b2 = sign) by exact Hsign.
  assert (Hend2 : broker_end_date b2 = Some date) by exact Hend.
  assert (Hline : line (heap w2) L (length ts)).
  { subst w2. wsimpl. apply line_spine. reflexivity. }
  assert (Hopt : _optimize fuel self w2
                 = Ok tt (with_optimized (<[ticker_sign b2:=true]> (optimized w2)) w2)).
  { apply (_optimize_line fuel self w2 b2 L (length ts) false); try assumption.
    - rewrite Hsign2. subst w2. wsimpl. apply lookup_insert_eq.
    - rewrite Hsign2. subst w2. wsimpl. apply lookup_insert_eq. }
  set (wo := with_optimized _ w2) in Hopt.
  assert (Hfc : fresh_chain (heap wo) (L + length ts) (rev ts) sign rs).
  { subst wo w2. wsimpl. rewrite <- (app_nil_r (rev ts)).
    apply (fresh_chain_spine sign rs); [|reflexivity].
    intros x tail Hp _ Hd Htk Hrs. simpl in Hp, Hd, Htk, Hrs.
    assert (Hx : (heap w1 ++ x :: tail) !! L = Some x)
      by (apply list_lookup_middle; reflexivity).
    pose proof (fresh_chain_root _ _ _ Hx Hp Hd) as Hroot.
    rewrite Htk, Hrs in Hroot. exact Hroot. }
  destruct (DataNode_compute_fresh_chain (rev ts) (L + length ts) sign rs fuel
              (default date arg) wo Hfc
              ltac:(rewrite length_rev; lia))
    as (w3 & n3 & Hrun & Hn3 & Hdata & Hst & Htr & _ & _ & Hbr).
  assert (Hbo : brokers wo !! self = Some b2) by exact Hb2.
  assert (Hb3 : brokers w3 !! self = Some b2) by (rewrite Hbr; exact Hbo).
  exists self, w1, w2, w3. split; [exact Hinit|]. split; [exact Hmk|].
  split; [|split; [exact Hst|rewrite Htr, rev_involutive; reflexivity]].
  unfold Broker_compute.
  rewrite (bind_Ok _ _ _ _ _ (get_broker_Ok _ _ _ Hb2)). rewrite Hend2.
  replace (match arg with Some _ => arg | None => Some date end)
    with (Some (default date arg)) by (destruct arg; reflexivity).
  rewrite (bind_Ok _ _ _ _ _ Hopt).
  rewrite (bind_Ok _ _ _ _ _ (get_broker_Ok _ _ _ Hbo)).
  change (final_datanode b2) with (Some (L + length ts)%nat).
  simpl attr_of. unfold bind at 1, ret at 1.
  rewrite (bind_Ok _ _ _ _ _ Hrun).
  rewrite (bind_Ok _ _ _ _ _ (get_broker_Ok _ _ _ Hb3)).
  change (final_datanode b2) with (Some (L + length ts)%nat).
  simpl attr_of. unfold bind at 1, ret at 1.
  rewrite (bind_Ok _ _ _ _ _ (get_node_Ok _ _ _ Hn3)). rewrite Hdata. reflexivity.
Qed.

(** ** More on snapshots *)

(** The scan takes the listing as it comes: it runs over the entries at
    or before [e] and stops at the first later one. *)
Lemma scan_until_later e l1 : forall latest (b : @DataTransformerBroker) x rest,
  Forall (fun y => y <= e) l1 -> x <= e ->
  match rest with [] => True | T :: _ => e < T end ->
  scan_latest e (l1 ++ x :: rest) latest = Some x /\
  fit_date (scan_broker e (l1 ++ x :: rest) b) = Some x /\
  next_cached_model_date (scan_broker e (l1 ++ x :: rest) b)
  = Some (match rest with [] => datetime_max | T :: _ => T end).
Proof.
  induction l1 as [|y l1 IH]; intros latest b x rest Hall Hx Hrest.
  - simpl. destruct (Z.leb_spec x e); [|lia].
    destruct rest as [|T rest']; simpl; [repeat split|].
    destruct (Z.leb_spec T e); [lia|]. repeat split.
  - apply Forall_cons in Hall as [Hy Hall]. simpl.
    destruct (Z.leb_spec y e); [|lia]. apply IH; assumption.
Qed.

(** Once the scan has settled on [x] with horizon [hz], [load_model]
    loads the file [x], and the facade keeps [fit_date = x] and the
    horizon however the call goes on. *)
Lemma load_model_selects_scanned self fuel w b m e files x hz :
  closed w -> brokers w !! self = Some b -> model b = Some m ->
  broker_end_date b = Some e ->
  fs w !! snapshot_dir b (name m) = Some files ->
  scan_latest e (map fst files) None = Some x ->
  fit_date (scan_broker e (map fst files) b) = Some x ->
  next_cached_model_date (scan_broker e (map fst files) b) = Some hz ->
  selects (Broker_load_model fuel self false w) self (snapshot_dir b (name m)) x hz.
Proof.
  intros [Hcl1 Hcl2] Hb Hm He Hfiles Hlatest Hfit Hhor.
  assert (Hlen : (self < length (brokers w))%nat) by (eapply lookup_lt_Some; eassumption).
  destruct (scan_broker_frame e (map fst files) b) as (_ & Hfin & Hmod & _ & Hend).
  unfold Broker_load_model.
  rewrite (bind_Ok _ _ _ _ _ (get_broker_Ok _ _ _ Hb)). rewrite Hm.
  simpl attr_of. unfold bind at 1, ret at 1.
  rewrite (bind_Ok _ _ _ _ _ (os_listdir_Ok _ _ _ Hfiles)).
  set (wL := with_trace (trace w ++ [EvListdir (snapshot_dir b (name m))]) w).
  rewrite (bind_Ok _ _ _ _ _ (scan_snapshots_eq self _ None wL b e Hb He)).
  rewrite Hlatest.
  set (bS := scan_broker e (map fst files) b) in *.
  set (wS := with_brokers (<[self:=bS]> (brokers wL)) wL).
  set (wJ := with_trace (trace wS ++ [EvJoblibLoad (snapshot_dir b (name m)) (Some x)]) wS).
  assert (HbJ : brokers wJ !! self = Some bS)
    by (subst wJ wS wL; wsimpl; apply list_lookup_insert_eq; exact Hlen).
  assert (HtJ : EvJoblibLoad (snapshot_dir b (name m)) (Some x) ∈ trace wJ).
  { subst wJ. wsimpl. apply elem_of_app. right. constructor. }
  assert (Hsel : forall (o : outcome unit), ends o wJ ->
            selects o self (snapshot_dir b (name m)) x hz).
  { intros o (w' & Hf & _ & [tr Htr] & _ & Hk).
    destruct (Hk _ _ HbJ) as (b' & Hb' & E1 & E2 & _).
    exists w', b'. split; [exact Hf|]. split; [exact Hb'|].
    split; [rewrite E1; exact Hfit|]. split; [rewrite E2; exact Hhor|].
    rewrite Htr. apply elem_of_app. left. exact HtJ. }
  apply Hsel.
  destruct (joblib_load_cases (snapshot_dir b (name m)) x wS) as [[data_list Hload]|Hload];
    fold wJ in Hload;
    [rewrite (bind_Ok _ _ _ _ _ Hload)
    |rewrite (bind_Raise _ _ _ _ _ Hload); exists wJ; split; [reflexivity | apply keeps_refl]].
  rewrite (bind_Ok _ _ _ _ _ (get_broker_Ok _ _ _ HbJ)). rewrite Hmod, Hm.
  simpl attr_of. unfold bind at 1, ret at 1.
  destruct data_list as [|st rest]; [exists wJ; split; [reflexivity | apply keeps_refl]|].
  simpl negb. cbv iota.
  apply ends_bind; [eexists; split; [reflexivity|]; kintro [EvLoadState m]; reflexivity|].
  intros [] w1 Hw1 _. rewrite log_eq in Hw1. injection Hw1 as <-.
  apply ends_bind; [eexists; split; [reflexivity|]; kintro (@nil Event);
                    wsimpl; rewrite ?app_nil_r; reflexivity|].
  intros [] w2 Hw2 _. unfold put_state in Hw2. injection Hw2 as <-.
  set (wP := with_states _ _).
  assert (HbP : brokers wP !! self = Some bS) by exact HbJ.
  rewrite (bind_Ok _ _ _ _ _ (get_broker_Ok _ _ _ HbP)). rewrite Hfin.
  destruct (final_datanode b) as [leaf|] eqn:Hleaf; simpl attr_of;
    [|exists wP; split; [reflexivity | apply keeps_refl]].
  unfold bind at 1, ret at 1.
  apply ends_bind.
  - apply DataNode_load_model_ends; [exact Hcl1 | eapply Hcl2; eassumption].
  - intros [] w3 _ (Hl3 & _ & Hn3 & Hk3).
    apply catch_up_ends.
    + intros b3 r Hb3 Hr3. destruct (Hk3 _ _ HbP) as (b3' & Hb3' & _ & _ & F3 & _).
      rewrite Hb3 in Hb3'. injection Hb3' as <-.
      rewrite Hl3. change (heap wP) with (heap w). eapply (Hcl2 _ _ _ Hb).
      congruence.
    + rewrite Hn3. change (brokers wP) with (brokers wJ).
      eapply lookup_lt_Some; exact HbJ.
Qed.

(** X17: [load_model] takes the directory listing as it comes.  The
    snapshot it loads is the entry just before the first entry later than
    [end_date] (the last entry when there is none), and the horizon is
    that later entry (the maximal timestamp when there is none), whether
    or not the listing is in chronological order, and however the call
    goes on after the selection. *)
Theorem load_model_follows_listing_order self fuel w b m e files l1 x rest :
  closed w -> brokers w !! self = Some b -> model b = Some m ->
  broker_end_date b = Some e ->
  fs w !! snapshot_dir b (name m) = Some files ->
  map fst files = l1 ++ x :: rest ->
  Forall (fun y => y <= e) l1 -> x <= e ->
  match rest with [] => True | T :: _ => e < T end ->
  selects (Broker_load_model fuel self false w) self (snapshot_dir b (name m)) x
          (match rest with [] => datetime_max | T :: _ => T end).
Proof.
  intros Hcl Hb Hm He Hfiles Hlist Hall Hx Hrest.
  destruct (scan_until_later e l1 None b x rest Hall Hx Hrest) as (H1 & H2 & H3).
  rewrite <- Hlist in H1, H2, H3.
  eapply load_model_selects_scanned; eassumption.
Qed.

(** X18: without the snapshot directory [load_model] ends in the
    [FileNotFoundError] of [os.listdir]; only the trace of external calls
    has grown. *)
Theorem load_model_without_directory fuel self compute_data w b m :
  brokers w !! self = Some b -> model b = Some m ->
  fs w !! snapshot_dir b (name m) = None ->
  Broker_load_model fuel self compute_data w
  = Raise "FileNotFoundError"
      (with_trace (trace w ++ [EvListdir (snapshot_dir b (name m))]) w).
Proof. apply load_model_missing_directory. Qed.

Lemma DataNode_load_model_short h r ts :
  chain h r ts -> forall w ss,
  heap w = h -> (length ss < length ts)%nat ->
  DataNode_load_model r ss w
  = Raise "IndexError"
      (with_states (assign (take (length ss) ts) ss (states w))
         (with_trace (trace w ++ map EvLoadState (take (length ss) ts)) w)).
Proof.
  induction 1 as [r n Hr Hp|r p n t ts Hr Hp Ht Hc IH]; intros w ss Hh Hlen.
  - simpl in Hlen. lia.
  - subst h. destruct ss as [|s ss]; simpl.
    + rewrite (bind_Ok _ _ _ _ _ (get_node_Ok _ _ _ Hr)). rewrite Hp, Ht.
      unfold attr_of, bind, ret, raise. rewrite app_nil_r. destruct w; reflexivity.
    + simpl in Hlen.
      rewrite (bind_Ok _ _ _ _ _ (get_node_Ok _ _ _ Hr)). rewrite Hp, Ht.
      unfold attr_of, bind at 1, ret, bind at 1, log, bind at 1, put_state.
      rewrite IH; [|reflexivity|lia]. wsimpl.
      rewrite <- !app_assoc. reflexivity.
Qed.

(** X19: [DataNode.load_model] against a list of another length than the
    chain.  A shorter list raises [IndexError] after the transformers it
    does cover have been restored; of a longer list the surplus is
    ignored. *)
Theorem load_model_length_mismatch h r ts :
  chain h r ts -> forall w ss,
  heap w = h ->
  ((length ss < length ts)%nat ->
   DataNode_load_model r ss w
   = Raise "IndexError"
       (with_states (assign (take (length ss) ts) ss (states w))
          (with_trace (trace w ++ map EvLoadState (take (length ss) ts)) w))) /\
  ((length ts <= length ss)%nat ->
   DataNode_load_model r ss w
   = Ok tt (with_states (assign ts (take (length ts) ss) (states w))
              (with_trace (trace w ++ map EvLoadState ts) w))).
Proof.
  intros Hc w ss Hh. split.
  - apply (DataNode_load_model_short h r ts Hc w ss Hh).
  - intros Hlen. rewrite <- (take_drop (length ts) ss) at 1.
    apply (DataNode_load_model_chain h r ts Hc w _ _ Hh).
    rewrite length_take. lia.
Qed.

Lemma made_dirs_trans w1 w2 w3 : made_dirs w1 w2 -> made_dirs w2 w3 -> made_dirs w1 w3.
Proof.
  intros (A1 & A2 & A3 & A4 & A5 & tr1 & A6 & A7) (B1 & B2 & B3 & B4 & B5 & tr2 & B6 & B7).
  repeat split; try congruence.
  - intros d files H. apply B4, A4, H.
  - intros d files H Hne. apply A5; [|exact Hne]. apply B5; assumption.
  - exists (tr1 ++ tr2). split; [rewrite B6, A6, app_assoc; reflexivity|].
    apply Forall_app. split; assumption.
Qed.

Lemma mkdir_if_missing_made p w :
  exists w', mkdir_if_missing p w = Ok tt w' /\ made_dirs w w' /\ is_Some (fs w' !! p).
Proof.
  unfold mkdir_if_missing, os_path_isdir, bind, log. wsimpl.
  destruct (fs w !! p) as [files|] eqn:E.
  - rewrite bool_decide_eq_true_2 by eauto. simpl.
    eexists. split; [reflexivity|]. split; [|wsimpl; unfold Snapshot in *; rewrite E; eauto].
    split; [reflexivity|]. split; [reflexivity|]. split; [reflexivity|]. wsimpl.
    split; [auto|]. split; [auto|].
    exists [EvIsdir p]. split; [reflexivity|]. repeat constructor.
  - rewrite bool_decide_eq_false_2 by (intros [? ?]; discriminate). simpl.
    unfold os_mkdir, bind, log. wsimpl. rewrite E.
    eexists. split; [reflexivity|]. split; [|wsimpl; rewrite lookup_insert_eq; eauto].
    split; [reflexivity|]. split; [reflexivity|]. split; [reflexivity|]. wsimpl.
    split; [|split].
    + intros d files H. rewrite lookup_insert_ne; [exact H|]. intros ->.
      unfold Snapshot in *. congruence.
    + intros d files H Hne. destruct (decide (d = p)) as [->|Hd].
      * rewrite lookup_insert_eq in H. congruence.
      * rewrite lookup_insert_ne in H by congruence. exact H.
    + exists [EvIsdir p; EvMkdir p]. split; [rewrite <- app_assoc; reflexivity|].
      repeat constructor.
Qed.

(** X20: [save_model] on a facade that has a model but was never fitted
    raises the [AttributeError] of [None.strftime], after it has looked
    for and made the three snapshot directories: they exist afterwards,
    every directory keeps its files, no file was written and no state was
    asked for. *)
Theorem save_model_before_fit fuel self w b m :
  brokers w !! self = Some b -> model b = Some m -> fit_date b = None ->
  exists w',
    Broker_save_model fuel self w = Raise "AttributeError" w' /\
    made_dirs w w' /\
    is_Some (fs w' !! (snapshot_root +:+ "/" +:+ ticker_sign b)) /\
    is_Some (fs w' !! (snapshot_root +:+ "/" +:+ ticker_sign b +:+ "/" +:+ name m)) /\
    is_Some (fs w' !! snapshot_dir b (name m)).
Proof.
  intros Hb Hm Hd. unfold Broker_save_model.
  rewrite (bind_Ok _ _ _ _ _ (get_broker_Ok _ _ _ Hb)). rewrite Hm.
  destruct (mkdir_if_missing_made (snapshot_root +:+ "/" +:+ ticker_sign b) w)
    as (wa & Ha & Ma & [fa Ia]).
  rewrite (bind_Ok _ _ _ _ _ Ha).
  destruct (mkdir_if_missing_made
              (snapshot_root +:+ "/" +:+ ticker_sign b +:+ "/" +:+ name m) wa)
    as (wb & Hwb & Mb & [fb Ib]).
  rewrite (bind_Ok _ _ _ _ _ Hwb).
  destruct (mkdir_if_missing_made (snapshot_dir b (name m)) wb)
    as (wc & Hwc & Mc & Ic).
  rewrite (bind_Ok _ _ _ _ _ Hwc).
  assert (Mab : made_dirs w wb) by (eapply made_dirs_trans; eassumption).
  assert (Mac : made_dirs w wc) by (eapply made_dirs_trans; eassumption).
  assert (Hb' : brokers wc !! self = Some b).
  { destruct Mac as (_ & E & _). rewrite E. exact Hb. }
  rewrite (bind_Ok _ _ _ _ _ (get_broker_Ok _ _ _ Hb')). rewrite Hm, Hd.
  exists wc. split; [reflexivity|]. split; [exact Mac|].
  destruct Mb as (_ & _ & _ & Kb & _). destruct Mc as (_ & _ & _ & Kc & _).
  split; [rewrite (Kc _ _ (Kb _ _ Ia)); eauto|].
  split; [rewrite (Kc _ _ Ib); eauto | exact Ic].
Qed.

(** ** Merging equal roots *)

Lemma set_children_nil_r n : set_children (children n ++ []) n = n.
Proof. rewrite app_nil_r. destruct n; reflexivity. Qed.

(** The loop that moves the children of [ri] under [r0]. *)
Lemma reparent_children_spec r0 ri ni todo : forall done fuel w n0x,
  heap w !! ri = Some ni -> children ni = done ++ todo ->
  heap w !! r0 = Some n0x -> ri <> r0 ->
  Forall (fun c => c <> r0 /\ c <> ri /\ (c < length (heap w))%nat) todo ->
  (length todo < fuel)%nat ->
  exists w',
    reparent_children fuel r0 ri (length done) w = Ok tt w' /\
    heap w' !! r0 = Some (set_children (children n0x ++ todo) n0x) /\
    length (heap w') = length (heap w) /\
    (forall x, x <> r0 -> x ∉ todo -> heap w' !! x = heap w !! x) /\
    (forall c, c ∈ todo -> exists nc, heap w' !! c = Some nc /\ parent nc = Some r0) /\
    brokers w' = brokers w /\ nodes w' = nodes w.
Proof.
  induction todo as [|c todo IH]; intros done fuel w n0x Hri Hch Hr0 Hne Hall Hfuel.
  - destruct fuel as [|fuel]; [simpl in Hfuel; lia|]. simpl.
    rewrite (bind_Ok _ _ _ _ _ (get_node_Ok _ _ _ Hri)).
    rewrite app_nil_r in Hch. rewrite Hch.
    rewrite (lookup_ge_None_2 done (length done)) by lia.
    exists w. split; [reflexivity|]. rewrite set_children_nil_r.
    repeat split; try assumption; try reflexivity.
    intros c Hc. inversion Hc.
  - destruct fuel as [|fuel]; [simpl in Hfuel; lia|]. simpl in Hfuel.
    apply Forall_cons in Hall as [(Hc0 & Hci & Hclen) Hall].
    simpl reparent_children.
    rewrite (bind_Ok _ _ _ _ _ (get_node_Ok _ _ _ Hri)).
    rewrite Hch. rewrite list_lookup_middle by reflexivity.
    destruct (lookup_lt_is_Some_2 _ _ Hclen) as [nc Hnc].
    rewrite (bind_Ok _ _ _ _ _ (get_node_Ok _ _ _ Hnc)).
    unfold bind at 1, put_node at 1.
    set (w1 := with_heap (<[c:=set_parent (Some r0) nc]> (heap w)) w).
    assert (Hr01 : heap w1 !! r0 = Some n0x)
      by (subst w1; wsimpl; rewrite list_lookup_insert_ne by congruence; exact Hr0).
    rewrite (bind_Ok _ _ _ _ _ (get_node_Ok _ _ _ Hr01)).
    unfold bind at 1, put_node at 1.
    set (n0y := set_children (children n0x ++ [c]) n0x).
    set (w2 := with_heap (<[r0:=n0y]> (heap w1)) w1).
    assert (Hlen2 : length (heap w2) = length (heap w))
      by (subst w2 w1; wsimpl; rewrite !length_insert; reflexivity).
    assert (Hr0len : (r0 < length (heap w))%nat) by (eapply lookup_lt_Some; eassumption).
    assert (Hr02 : heap w2 !! r0 = Some n0y).
    { subst w2 w1. wsimpl. apply list_lookup_insert_eq. rewrite length_insert. exact Hr0len. }
    assert (Hri2 : heap w2 !! ri = Some ni).
    { subst w2 w1. wsimpl. rewrite !list_lookup_insert_ne by congruence. exact Hri. }
    assert (Hc2 : heap w2 !! c = Some (set_parent (Some r0) nc)).
    { subst w2 w1. wsimpl. rewrite list_lookup_insert_ne by congruence.
      apply list_lookup_insert_eq. exact Hclen. }
    destruct (IH (done ++ [c]) fuel w2 n0y Hri2) as (w' & Hrun & H0 & Hl & Hfr & Hpar & Hbr & Hnd).
    + rewrite <- app_assoc. exact Hch.
    + exact Hr02.
    + exact Hne.
    + rewrite Hlen2. exact Hall.
    + lia.
    + rewrite length_app in Hrun. simpl length in Hrun.
      replace (length done + 1)%nat with (S (length done)) in Hrun by lia.
      exists w'. split; [exact Hrun|].
      split.
      { rewrite H0. f_equal. subst n0y. unfold set_children. simpl.
        rewrite <- app_assoc. reflexivity. }
      split; [rewrite Hl; exact Hlen2|].
      split.
      { intros x Hx0 Hx. apply not_elem_of_cons in Hx as [Hxc Hx].
        rewrite Hfr by assumption. subst w2 w1. wsimpl.
        rewrite !list_lookup_insert_ne by congruence. reflexivity. }
      split; [|split; [rewrite Hbr; reflexivity | rewrite Hnd; reflexivity]].
      intros c' Hc'. destruct (decide (c' ∈ todo)) as [Hin|Hout]; [apply Hpar, Hin|].
      apply elem_of_cons in Hc' as [->|Hc']; [|contradiction].
      exists (set_parent (Some r0) nc). rewrite Hfr by assumption.
      split; [exact Hc2 | reflexivity].
Qed.

(** The loop that points the facades of a merged node to [r0]. *)
Lemma retarget_brokers_spec r0 bks : forall w,
  Forall (fun k => (k < length (brokers w))%nat) bks ->
  exists w',
    retarget_brokers r0 bks w = Ok tt w' /\
    heap w' = heap w /\ nodes w' = nodes w /\
    length (brokers w') = length (brokers w) /\
    forall k b, brokers w !! k = Some b ->
      exists b', brokers w' !! k = Some b' /\
        (k ∈ bks \/ final_datanode b = Some r0 -> final_datanode b' = Some r0).
Proof.
  induction bks as [|k0 bks IH]; intros w Hall.
  - exists w. split; [reflexivity|]. repeat split; try reflexivity.
    intros k b Hb. exists b. split; [exact Hb|]. intros [Hk|Hf]; [inversion Hk | exact Hf].
  - apply Forall_cons in Hall as [Hk0 Hall]. simpl.
    destruct (lookup_lt_is_Some_2 _ _ Hk0) as [b0 Hb0].
    rewrite (bind_Ok _ _ _ _ _ (get_broker_Ok _ _ _ Hb0)).
    unfold bind at 1, put_broker at 1.
    set (w1 := with_brokers (<[k0:=set_final_datanode (Some r0) b0]> (brokers w)) w).
    destruct (IH w1) as (w' & Hrun & Hh & Hn & Hl & Hk).
    { subst w1. wsimpl. rewrite length_insert. exact Hall. }
    exists w'. split; [exact Hrun|]. split; [rewrite Hh; reflexivity|].
    split; [rewrite Hn; reflexivity|].
    split; [rewrite Hl; subst w1; wsimpl; apply length_insert|].
    intros k b Hb. destruct (decide (k = k0)) as [->|Hne].
    + destruct (Hk k0 (set_final_datanode (Some r0) b0)) as (b' & Hb' & Hf).
      { subst w1. wsimpl. apply list_lookup_insert_eq. exact Hk0. }
      exists b'. split; [exact Hb'|]. intros _. apply Hf. right. reflexivity.
    + destruct (Hk k b) as (b' & Hb' & Hf).
      { subst w1. wsimpl. rewrite list_lookup_insert_ne by congruence. exact Hb. }
      exists b'. split; [exact Hb'|]. intros [Hin|Hfin]; apply Hf.
      * left. apply elem_of_cons in Hin as [->|Hin]; [contradiction | exact Hin].
      * right. exact Hfin.
Qed.

(** One merge: [ri] is folded into [r0]. *)
Lemma merge_into_spec fuel r0 ri w n0x ni :
  heap w !! r0 = Some n0x -> heap w !! ri = Some ni -> ri <> r0 ->
  Forall (fun c => c <> r0 /\ c <> ri /\ (c < length (heap w))%nat) (children ni) ->
  Forall (fun k => (k < length (brokers w))%nat) (data_broker ni) ->
  (length (children ni) < fuel)%nat ->
  exists w' n0',
    merge_into fuel r0 ri w = Ok tt w' /\
    heap w' !! r0 = Some n0' /\
    children n0' = children n0x ++ children ni /\
    data_broker n0' = data_broker n0x ++ data_broker ni /\
    parent n0' = parent n0x /\ transformer n0' = transformer n0x /\
    end_date n0' = end_date n0x /\
    data n0' = match data n0x with Some d => Some d | None => data ni end /\
    length (heap w') = length (heap w) /\
    (forall x, x <> r0 -> x ∉ children ni -> heap w' !! x = heap w !! x) /\
    (forall c, c ∈ children ni -> exists nc, heap w' !! c = Some nc /\ parent nc = Some r0) /\
    length (brokers w') = length (brokers w) /\
    (forall k b, brokers w !! k = Some b ->
       exists b', brokers w' !! k = Some b' /\
         (k ∈ data_broker ni \/ final_datanode b = Some r0 -> final_datanode b' = Some r0)) /\
    nodes w' = nodes w.
Proof.
  intros Hr0 Hri Hne Hch Hbk Hfuel.
  assert (Hr0len : (r0 < length (heap w))%nat) by (eapply lookup_lt_Some; eassumption).
  unfold merge_into.
  rewrite (bind_Ok _ _ _ _ _ (get_node_Ok _ _ _ Hr0)).
  rewrite (bind_Ok _ _ _ _ _ (get_node_Ok _ _ _ Hri)).
  set (n0a := match data n0x, data ni with
              | None, Some d => set_data (Some d) n0x
              | _, _ => n0x
              end).
  set (wa := with_heap (<[r0:=n0a]> (heap w)) w).
  assert (Hadopt : match data n0x, data ni with
                   | None, Some d => put_node r0 (set_data (Some d) n0x)
                   | _, _ => ret tt
                   end w = Ok tt wa).
  { subst wa n0a. destruct (data n0x), (data ni); try reflexivity;
      unfold ret; rewrite put_node_same by exact Hr0; reflexivity. }
  rewrite (bind_Ok _ _ _ _ _ Hadopt).
  assert (Hr0a : heap wa !! r0 = Some n0a) by (apply list_lookup_insert_eq; exact Hr0len).
  assert (Hria : heap wa !! ri = Some ni)
    by (subst wa; wsimpl; rewrite list_lookup_insert_ne by congruence; exact Hri).
  assert (Hlena : length (heap wa) = length (heap w)) by (apply length_insert).
  destruct (reparent_children_spec r0 ri ni (children ni) [] fuel wa n0a Hria eq_refl Hr0a Hne)
    as (wb & Hrun & Hr0b & Hlenb & Hfrb & Hparb & Hbrb & Hndb);
    [rewrite Hlena; exact Hch | exact Hfuel|].
  simpl length in Hrun. rewrite (bind_Ok _ _ _ _ _ Hrun).
  assert (Hrib : heap wb !! ri = Some ni).
  { rewrite Hfrb; [exact Hria | exact Hne|]. intros Hin.
    rewrite Forall_forall in Hch. destruct (Hch _ Hin) as (_ & Hx & _). congruence. }
  rewrite (bind_Ok _ _ _ _ _ (get_node_Ok _ _ _ Hrib)).
  destruct (retarget_brokers_spec r0 (data_broker ni) wb) as (wc & Hrt & Hhc & Hnc & Hlc & Hkc).
  { rewrite Hbrb. exact Hbk. }
  rewrite (bind_Ok _ _ _ _ _ Hrt).
  assert (Hr0c : heap wc !! r0 = Some (set_children (children n0a ++ children ni) n0a))
    by (rewrite Hhc; exact Hr0b).
  assert (Hric : heap wc !! ri = Some ni) by (rewrite Hhc; exact Hrib).
  rewrite (bind_Ok _ _ _ _ _ (get_node_Ok _ _ _ Hr0c)).
  rewrite (bind_Ok _ _ _ _ _ (get_node_Ok _ _ _ Hric)).
  unfold put_node. eexists _, _. split; [reflexivity|]. wsimpl.
  assert (Hr0clen : (r0 < length (heap wc))%nat) by (eapply lookup_lt_Some; eassumption).
  split; [apply list_lookup_insert_eq; exact Hr0clen|].
  assert (Ha : children n0a = children n0x /\ data_broker n0a = data_broker n0x /\
               parent n0a = parent n0x /\ transformer n0a = transformer n0x /\
               end_date n0a = end_date n0x /\
               data n0a = match data n0x with Some d => Some d | None => data ni end).
  { subst n0a. destruct (data n0x) eqn:E1, (data ni) eqn:E2; simpl; rewrite ?E1;
      repeat split; reflexivity. }
  destruct Ha as (A1 & A2 & A3 & A4 & A5 & A6).
  cbn [children data_broker parent transformer end_date data set_data_broker set_children].
  split; [rewrite A1; reflexivity|]. split; [rewrite A2; reflexivity|].
  split; [exact A3|]. split; [exact A4|]. split; [exact A5|]. split; [exact A6|].
  split; [rewrite length_insert, Hhc, Hlenb; exact Hlena|].
  split.
  { intros x Hx0 Hx. rewrite list_lookup_insert_ne by congruence.
    rewrite Hhc, Hfrb by assumption. subst wa. wsimpl.
    apply list_lookup_insert_ne. congruence. }
  split.
  { intros c Hc. destruct (Hparb c Hc) as (nc & Hnc' & Hp).
    exists nc. split; [|exact Hp].
    rewrite list_lookup_insert_ne; [rewrite Hhc; exact Hnc'|].
    rewrite Forall_forall in Hch. destruct (Hch _ Hc) as (Hx & _). congruence. }
  split; [rewrite Hlc, Hbrb; reflexivity|].
  split; [|rewrite Hnc, Hndb; reflexivity].
  intros k b Hb. apply Hkc. rewrite Hbrb. exact Hb.
Qed.

Lemma elem_of_concat_2 {A} (x : A) (l : list A) (ls : list (list A)) :
  x ∈ l -> l ∈ ls -> x ∈ concat ls.
Proof.
  intros Hx Hl. induction Hl as [l ls|l l' ls Hl IH]; simpl; apply elem_of_app;
    [left; exact Hx | right; apply IH; exact Hx].
Qed.

Lemma opt_nat_eqb_refl a : opt_nat_eqb a a = true.
Proof. apply opt_nat_eqb_eq. reflexivity. Qed.

Lemma opt_Z_eqb_refl a : opt_Z_eqb a a = true.
Proof. apply opt_Z_eqb_eq. reflexivity. Qed.

(** The inner loop of the pass over a pool of roots that are all equal
    to the first one. *)
Lemma merge_duplicates_roots key r0 roots : forall fuel j idx w n0x,
  idx + 1 + j = 1 ->
  heap w !! r0 = Some n0x -> parent n0x = None ->
  Forall (twin_root w r0 n0x (map fst roots) fuel) roots ->
  exists w' n0',
    merge_duplicates (S fuel) key true r0 (map fst roots) j idx (r0 :: map fst roots) w
    = Ok [r0] w' /\
    heap w' !! r0 = Some n0' /\
    children n0' = children n0x ++ concat (map (fun p => children p.2) roots) /\
    data_broker n0' = data_broker n0x ++ concat (map (fun p => data_broker p.2) roots) /\
    parent n0' = None /\ transformer n0' = transformer n0x /\ end_date n0' = end_date n0x /\
    length (heap w') = length (heap w) /\
    (forall x, x <> r0 -> x ∉ concat (map (fun p => children p.2) roots) ->
               heap w' !! x = heap w !! x) /\
    (forall c, c ∈ concat (map (fun p => children p.2) roots) ->
               exists nc, heap w' !! c = Some nc /\ parent nc = Some r0) /\
    length (brokers w') = length (brokers w) /\
    (forall k b, brokers w !! k = Some b ->
       exists b', brokers w' !! k = Some b' /\
         (k ∈ concat (map (fun p => data_broker p.2) roots) \/ final_datanode b = Some r0 ->
          final_datanode b' = Some r0)) /\
    nodes w' = match roots with [] => nodes w | _ :: _ => <[key:=[r0]]> (nodes w) end.
Proof.
  induction roots as [|[ri ni] roots IH]; intros fuel j idx w n0x Hidx Hr0 Hp0 Hall.
  - exists w, n0x. split; [reflexivity|]. simpl. rewrite !app_nil_r.
    repeat split; try assumption; try reflexivity.
    + intros c Hc. inversion Hc.
    + intros k b Hb. exists b. split; [exact Hb|].
      intros [Hk|Hf]; [inversion Hk | exact Hf].
  - apply Forall_cons in Hall as [Hhead Hall].
    destruct Hhead as (Hri & Hpi & Hti & Hei & Hne & Hch & Hbk & Hlen). simpl in *.
    assert (Heq : DataNode_eq (S fuel) ri r0 w = Ok true w).
    { rewrite (DataNode_eq_roots fuel ri r0 w ni n0x Hri Hr0 Hpi Hp0).
      rewrite Hti, Hei, opt_nat_eqb_refl, opt_Z_eqb_refl. reflexivity. }
    rewrite (bind_Ok _ _ _ _ _ Heq). cbv iota.
    destruct (merge_into_spec (S fuel) r0 ri w n0x ni Hr0 Hri Hne) as
      (w1 & n01 & Hrun & Hr01 & C1 & D1 & P1 & T1 & E1 & _ & L1 & F1 & Par1 & BL1 & K1 & N1).
    { eapply Forall_impl; [exact Hch|]. intros c (Hc0 & Hcr & Hcl).
      split; [exact Hc0|]. split; [|exact Hcl]. intros ->. apply Hcr. left. }
    { exact Hbk. }
    { lia. }
    rewrite (bind_Ok _ _ _ _ _ Hrun).
    assert (Hdel : py_del (r0 :: ri :: map fst roots) (idx + 1 + j)
                   = Some (r0 :: map fst roots)).
    { rewrite Hidx. unfold py_del. simpl length.
      destruct (Z.ltb_spec 1 0); [lia|].
      destruct (Z.ltb_spec 1 0); [lia|].
      destruct (Z.leb_spec (Z.of_nat (S (S (length (map fst roots))))) 1); [lia|].
      reflexivity. }
    rewrite Hdel. unfold bind at 1, set_nodes at 1.
    set (w2 := with_nodes _ w1).
    destruct (IH fuel (j + 1) (idx - 1) w2 n01) as
      (w' & n0' & Hrun2 & Hr0' & C2 & D2 & P2 & T2 & E2 & L2 & F2 & Par2 & BL2 & K2 & N2).
    { lia. }
    { exact Hr01. }
    { rewrite P1. exact Hp0. }
    { rewrite Forall_forall in Hall |- *. intros [rk nk] Hin.
      destruct (Hall _ Hin) as (Hrk & Hpk & Htk & Hek & Hnek & Hchk & Hbkk & Hlenk).
      simpl in *. split; [|split; [exact Hpk|split; [rewrite T1; exact Htk|
        split; [rewrite E1; exact Hek|
        split; [exact Hnek|split; [|split; [|exact Hlenk]]]]]]].
      - change (heap w2) with (heap w1). rewrite F1; [exact Hrk | exact Hnek|].
        intros Hin'. rewrite Forall_forall in Hch. destruct (Hch _ Hin') as (_ & Hx & _).
        apply Hx. right. apply list_elem_of_fmap. exists (rk, nk). split; [reflexivity | exact Hin].
      - eapply Forall_impl; [exact Hchk|]. intros c (Hc0 & Hcr & Hcl).
        split; [exact Hc0|]. split; [|change (heap w2) with (heap w1); rewrite L1; exact Hcl].
        intros Hx. apply Hcr. right. exact Hx.
      - change (brokers w2) with (brokers w1). rewrite BL1. exact Hbkk. }
    exists w', n0'. split; [exact Hrun2|]. split; [exact Hr0'|].
    split; [rewrite C2, C1, <- app_assoc; reflexivity|].
    split; [rewrite D2, D1, <- app_assoc; reflexivity|].
    split; [exact P2|]. split; [congruence|]. split; [congruence|].
    split; [rewrite L2; exact L1|].
    split.
    { intros x Hx0 Hx. apply not_elem_of_app in Hx as [Hxa Hxb].
      rewrite F2 by assumption. change (heap w2) with (heap w1). apply F1; assumption. }
    split.
    { intros c Hc.
      destruct (decide (c ∈ concat (map (fun p : ref * DataNode => children p.2) roots)))
        as [Hin|Hout]; [apply Par2, Hin|].
      apply elem_of_app in Hc as [Hc|Hc]; [|contradiction].
      destruct (Par1 c Hc) as (nc & Hnc & Hpc). exists nc. split; [|exact Hpc].
      rewrite F2; [exact Hnc| |exact Hout].
      rewrite Forall_forall in Hch. destruct (Hch _ Hc) as (Hx & _). exact Hx. }
    split; [rewrite BL2; exact BL1|].
    split.
    { intros k b Hb. destruct (K1 k b Hb) as (b1 & Hb1 & Hf1).
      destruct (K2 k b1 Hb1) as (b2 & Hb2 & Hf2). exists b2. split; [exact Hb2|].
      intros [Hk|Hf].
      - apply elem_of_app in Hk as [Hk|Hk]; apply Hf2; [right; apply Hf1; left; exact Hk
                                                       | left; exact Hk].
      - apply Hf2. right. apply Hf1. right. exact Hf. }
    rewrite N2. subst w2. wsimpl. rewrite N1.
    destruct roots; [reflexivity|]. apply insert_insert_eq.
Qed.

(** X21: the pass over a first layer of roots that are all equal to the
    first one leaves that root alone in the pool, with the children and
    the subscribers of the others appended to its own in pool order.
    Every such child has it as parent, every such facade ends in it, and
    no other node moves.  The next layer is made of the first root's own
    children only. *)
Theorem dedup_layer_merges_equal_roots key fuel w r0 n0 roots :
  nodes w !! key = Some (r0 :: map fst roots) ->
  heap w !! r0 = Some n0 -> parent n0 = None ->
  Forall (twin_root w r0 n0 (map fst roots) fuel) roots ->
  exists w' n0',
    dedup_layer (S (S fuel)) key true 0 (r0 :: map fst roots) [] w = Ok (children n0) w' /\
    nodes w' !! key = Some [r0] /\
    heap w' !! r0 = Some n0' /\ parent n0' = None /\
    children n0' = children n0 ++ concat (map (fun p => children p.2) roots) /\
    data_broker n0' = data_broker n0 ++ concat (map (fun p => data_broker p.2) roots) /\
    (forall p c, p ∈ roots -> c ∈ children p.2 ->
       exists nc, heap w' !! c = Some nc /\ parent nc = Some r0) /\
    (forall p k, p ∈ roots -> k ∈ data_broker p.2 ->
       exists b, brokers w' !! k = Some b /\ final_datanode b = Some r0) /\
    (forall x, x <> r0 -> x ∉ concat (map (fun p => children p.2) roots) ->
       heap w' !! x = heap w !! x).
Proof.
  intros Hpool Hr0 Hp0 Hall.
  destruct (merge_duplicates_roots key r0 roots fuel 0 0 w n0 eq_refl Hr0 Hp0 Hall)
    as (w' & n0' & Hrun & Hr0' & C & D & P & _ & _ & _ & F & Par & BL & K & N).
  exists w', n0'. split.
  { change (dedup_layer (S (S fuel)) key true 0 (r0 :: map fst roots) [] w)
      with ((n <- get_node r0 ;;
             parent_nodes' <- merge_duplicates (S fuel) key true r0 (map fst roots) 0 0
                                (r0 :: map fst roots) ;;
             dedup_layer (S fuel) key true 1 parent_nodes' ([] ++ children n)) w).
    rewrite (bind_Ok _ _ _ _ _ (get_node_Ok _ _ _ Hr0)).
    rewrite (bind_Ok _ _ _ _ _ Hrun). reflexivity. }
  split.
  { rewrite N. destruct roots; [exact Hpool | apply lookup_insert_eq]. }
  split; [exact Hr0'|]. split; [exact P|]. split; [exact C|]. split; [exact D|].
  split.
  { intros p c Hp Hc. apply Par. apply (elem_of_concat_2 c (children p.2)); [exact Hc|].
    apply list_elem_of_fmap. exists p. split; [reflexivity | exact Hp]. }
  split; [|exact F].
  intros p k Hp Hk.
  assert (Hin : k ∈ concat (map (fun p : ref * DataNode => data_broker p.2) roots)).
  { apply (elem_of_concat_2 k (data_broker p.2)); [exact Hk|].
    apply list_elem_of_fmap. exists p. split; [reflexivity | exact Hp]. }
  rewrite Forall_forall in Hall. destruct (Hall _ Hp) as (_ & _ & _ & _ & _ & _ & Hbk & _).
  rewrite Forall_forall in Hbk. specialize (Hbk _ Hk).
  destruct (lookup_lt_is_Some_2 _ _ Hbk) as [b Hb].
  destruct (K k b Hb) as (b' & Hb' & Hf). exists b'. split; [exact Hb'|].
  apply Hf. left. exact Hin.
Qed.

(** ** Loading, then recomputing or catching up *)

(** [load_model] up to the point where the model has its state back:
    the listing was scanned, the file [x] was loaded and its first entry
    went to the model. *)
Lemma Broker_load_model_prefix fuel self compute_data w b m e files x hz st more :
  brokers w !! self = Some b -> model b = Some m -> broker_end_date b = Some e ->
  fs w !! snapshot_dir b (name m) = Some files ->
  scan_latest e (map fst files) None = Some x ->
  fit_date (scan_broker e (map fst files) b) = Some x ->
  next_cached_model_date (scan_broker e (map fst files) b) = Some hz ->
  find_file x files = Some (st :: more) ->
  Broker_load_model fuel self compute_data w
  = (if negb compute_data then
       b <- get_broker self ;;
       leaf <- attr_of (final_datanode b) ;;
       DataNode_load_model leaf more ;;
       catch_up self
     else
       b <- get_broker self ;;
       Broker_compute fuel self (fit_date b) ;;
       catch_up self)
      (mkWorld (heap w)
         (<[self:=scan_broker e (map fst files) b]> (brokers w))
         (nodes w) (optimized w)
         (fun y => if Nat.eqb y m then st else states w y)
         (fs w) (new_candles w)
         (trace w ++ [EvListdir (snapshot_dir b (name m));
                      EvJoblibLoad (snapshot_dir b (name m)) (Some x);
                      EvLoadState m])).
Proof.
  intros Hb Hm He Hfiles Hlatest Hfit Hhor Hfind.
  assert (Hlen : (self < length (brokers w))%nat) by (eapply lookup_lt_Some; eassumption).
  destruct (scan_broker_frame e (map fst files) b) as (_ & Hfin & Hmod & _ & Hend).
  unfold Broker_load_model.
  rewrite (bind_Ok _ _ _ _ _ (get_broker_Ok _ _ _ Hb)). rewrite Hm.
  simpl attr_of. unfold bind at 1, ret at 1.
  rewrite (bind_Ok _ _ _ _ _ (os_listdir_Ok _ _ _ Hfiles)).
  set (wL := with_trace (trace w ++ [EvListdir (snapshot_dir b (name m))]) w).
  rewrite (bind_Ok _ _ _ _ _ (scan_snapshots_eq self _ None wL b e Hb He)).
  rewrite Hlatest.
  set (bS := scan_broker e (map fst files) b) in *.
  set (wS := with_brokers (<[self:=bS]> (brokers wL)) wL).
  rewrite (bind_Ok _ _ _ _ _ (joblib_load_Ok _ x wS files _ Hfiles Hfind)).
  set (wJ := with_trace _ wS).
  assert (HbJ : brokers wJ !! self = Some bS)
    by (subst wJ wS wL; wsimpl; apply list_lookup_insert_eq; exact Hlen).
  rewrite (bind_Ok _ _ _ _ _ (get_broker_Ok _ _ _ HbJ)). rewrite Hmod, Hm.
  simpl attr_of. unfold bind at 1, ret at 1. cbv iota.
  rewrite (bind_Ok _ _ _ _ _ (log_eq _ _)).
  unfold bind at 1, put_state at 1.
  subst wJ wS wL. unfold with_states, with_trace, with_brokers. wsimpl.
  rewrite <- !app_assoc. reflexivity.
Qed.

(** X22: [load_model(compute_data=True)] on a facade that is alone on its
    instrument, holds no data yet and finds one snapshot, stamped with its
    own [end_date].  The call returns; the model takes the first entry of
    the snapshot; the data is computed for the fit date by running the
    pipeline, which leaves the transformers in the states [fit_transform]
    produces.  The other entries of the snapshot play no part. *)
Theorem load_model_recomputes fuel self w b m x leaf r k ts sign rs flag st more :
  brokers w !! self = Some b -> model b = Some m -> broker_end_date b = Some x ->
  final_datanode b = Some leaf ->
  fs w !! snapshot_dir b (name m) = Some [(x, st :: more)] ->
  optimized w !! ticker_sign b = Some flag -> nodes w !! ticker_sign b = Some [r] ->
  line (heap w) r k -> (k + 3 <= fuel)%nat ->
  fresh_chain (heap w) leaf ts sign rs -> (length ts < fuel)%nat ->
  exists w' n' b',
    Broker_load_model fuel self true w = Ok tt w' /\
    heap w' !! leaf = Some n' /\
    data n' = Some (fst (run_chain ts (fun y => if Nat.eqb y m then st else states w y)
                           (raw_table sign rs x))) /\
    states w' = snd (run_chain ts (fun y => if Nat.eqb y m then st else states w y)
                       (raw_table sign rs x)) /\
    brokers w' !! self = Some b' /\ fit_date b' = Some x /\
    next_cached_model_date b' = Some datetime_max /\
    trace w' = trace w ++ [EvListdir (snapshot_dir b (name m));
                           EvJoblibLoad (snapshot_dir b (name m)) (Some x);
                           EvLoadState m; EvUploadCandles sign]
                 ++ match rs with None => [] | Some _ => [EvRemoveSession sign] end
                 ++ map EvFitTransform (rev ts).
Proof.
  intros Hb Hm He Hleaf Hfiles Hflag Hpool Hline Hfuel Hfc Hfuel2.
  assert (Hlen : (self < length (brokers w))%nat) by (eapply lookup_lt_Some; eassumption).
  assert (Hscan : scan_latest x (map fst [(x, st :: more)]) None = Some x /\
                  scan_broker x (map fst [(x, st :: more)]) b
                  = set_next_cached_model_date (Some datetime_max)
                      (set_fit_date (Some x) b)).
  { simpl. rewrite Z.leb_refl. split; reflexivity. }
  destruct Hscan as (Hlatest & HbS).
  assert (Hfind : find_file x [(x, st :: more)] = Some (st :: more)).
  { unfold find_file. simpl. rewrite decide_True by reflexivity. reflexivity. }
  rewrite (Broker_load_model_prefix fuel self true w b m x _ x datetime_max st more
             Hb Hm He Hfiles Hlatest ltac:(rewrite HbS; reflexivity)
             ltac:(rewrite HbS; reflexivity) Hfind).
  rewrite HbS. cbn [negb].
  set (bS := set_next_cached_model_date (Some datetime_max) (set_fit_date (Some x) b)).
  set (wP := mkWorld _ _ _ _ _ _ _ _).
  assert (HbP : brokers wP !! self = Some bS)
    by (subst wP; wsimpl; apply list_lookup_insert_eq; exact Hlen).
  rewrite (bind_Ok _ _ _ _ _ (get_broker_Ok _ _ _ HbP)).
  change (fit_date bS) with (Some x).
  (* the computation for the fit date *)
  assert (Hopt : _optimize fuel self wP
                 = Ok tt (with_optimized (<[ticker_sign bS:=true]> (optimized wP)) wP)).
  { apply (_optimize_line fuel self wP bS r k flag); assumption. }
  set (wo := with_optimized _ wP) in Hopt.
  destruct (DataNode_compute_fresh_chain ts leaf sign rs fuel x wo Hfc Hfuel2)
    as (w3 & n3 & Hrun & Hn3 & Hdata & Hst & Htr & _ & _ & Hbr).
  assert (Hbo : brokers wo !! self = Some bS) by exact HbP.
  assert (Hb3 : brokers w3 !! self = Some bS) by (rewrite Hbr; exact Hbo).
  assert (Hcomp : Broker_compute fuel self (Some x) wP = Ok (data n3) w3).
  { unfold Broker_compute.
    rewrite (bind_Ok _ _ _ _ _ (get_broker_Ok _ _ _ HbP)).
    rewrite (bind_Ok _ _ _ _ _ Hopt).
    rewrite (bind_Ok _ _ _ _ _ (get_broker_Ok _ _ _ Hbo)).
    change (final_datanode bS) with (final_datanode b). rewrite Hleaf.
    simpl attr_of. unfold bind at 1, ret at 1.
    rewrite (bind_Ok _ _ _ _ _ Hrun).
    rewrite (bind_Ok _ _ _ _ _ (get_broker_Ok _ _ _ Hb3)).
    change (final_datanode bS) with (final_datanode b). rewrite Hleaf.
    simpl attr_of. unfold bind at 1, ret at 1.
    rewrite (bind_Ok _ _ _ _ _ (get_node_Ok _ _ _ Hn3)). reflexivity. }
  rewrite (bind_Ok _ _ _ _ _ Hcomp).
  unfold catch_up. rewrite (bind_Ok _ _ _ _ _ (get_broker_Ok _ _ _ Hb3)).
  change (broker_end_date bS) with (broker_end_date b). rewrite He.
  change (fit_date bS) with (Some x). cbv beta iota. rewrite Z.ltb_irrefl.
  exists w3, n3, bS. split; [reflexivity|]. split; [exact Hn3|].
  split; [exact Hdata|]. split; [exact Hst|]. split; [exact Hb3|].
  split; [reflexivity|]. split; [reflexivity|].
  rewrite Htr. subst wo wP. wsimpl. rewrite <- !app_assoc. reflexivity.
Qed.

(** X23: [load_model] on a facade whose leaf has a parent, when the
    snapshot it selects is older than [end_date]: once the model and the
    transformers of the chain have their states back from the snapshot,
    the catch-up [update] ends the call in [TypeError].  The facade keeps
    its [end_date] and has [fit_date] at the snapshot. *)
Theorem load_model_cannot_catch_up fuel self w b m e leaf ts files l1 x rest st more :
  brokers w !! self = Some b -> model b = Some m -> broker_end_date b = Some e ->
  final_datanode b = Some leaf -> chain (heap w) leaf ts -> ts <> [] ->
  fs w !! snapshot_dir b (name m) = Some files ->
  map fst files = l1 ++ x :: rest ->
  Forall (fun y => y <= e) l1 -> x < e ->
  match rest with [] => True | T :: _ => e < T end ->
  find_file x files = Some (st :: more) -> (length ts <= length more)%nat ->
  exists w' b',
    Broker_load_model fuel self false w = Raise "TypeError" w' /\
    brokers w' !! self = Some b' /\ fit_date b' = Some x /\ broker_end_date b' = Some e /\
    states w' = assign ts (take (length ts) more)
                  (fun y => if Nat.eqb y m then st else states w y) /\
    trace w' = trace w ++ [EvListdir (snapshot_dir b (name m));
                           EvJoblibLoad (snapshot_dir b (name m)) (Some x);
                           EvLoadState m] ++ map EvLoadState ts.
Proof.
  intros Hb Hm He Hleaf Hc Hts Hfiles Hlist Hall Hx Hrest Hfind Hmore.
  assert (Hlen : (self < length (brokers w))%nat) by (eapply lookup_lt_Some; eassumption).
  destruct (scan_until_later e l1 None b x rest Hall ltac:(lia) Hrest) as (H1 & H2 & H3).
  rewrite <- Hlist in H1, H2, H3.
  rewrite (Broker_load_model_prefix fuel self false w b m e files x _ st more
             Hb Hm He Hfiles H1 H2 H3 Hfind).
  cbn [negb].
  destruct (scan_broker_frame e (map fst files) b) as (_ & Hfin & _ & _ & Hend).
  set (bS := scan_broker e (map fst files) b) in *.
  set (wP := mkWorld _ _ _ _ _ _ _ _).
  assert (HbP : brokers wP !! self = Some bS)
    by (subst wP; wsimpl; apply list_lookup_insert_eq; exact Hlen).
  rewrite (bind_Ok _ _ _ _ _ (get_broker_Ok _ _ _ HbP)). rewrite Hfin, Hleaf.
  simpl attr_of. unfold bind at 1, ret at 1.
  pose proof (DataNode_load_model_chain _ _ _ Hc wP (take (length ts) more)
                (drop (length ts) more) eq_refl ltac:(rewrite length_take; lia)) as Hload.
  rewrite take_drop in Hload. rewrite (bind_Ok _ _ _ _ _ Hload).
  set (wR := with_states _ _).
  assert (HbR : brokers wR !! self = Some bS) by exact HbP.
  unfold catch_up. rewrite (bind_Ok _ _ _ _ _ (get_broker_Ok _ _ _ HbR)).
  rewrite Hend, He, H2. destruct (Z.ltb_spec x e) as [_|]; [|lia].
  unfold Broker_update. rewrite (bind_Ok _ _ _ _ _ (get_broker_Ok _ _ _ HbR)).
  rewrite Hfin, Hleaf. simpl attr_of. unfold bind at 1, ret at 1.
  inversion Hc as [|r' p nl t ts' Hnl Hpl Htl Hcp]; subst; [congruence|].
  assert (HnR : heap wR !! leaf = Some nl) by exact Hnl.
  rewrite (bind_Raise _ _ _ _ _ (DataNode_update_with_parent leaf e wR nl p HnR Hpl)).
  eexists _, bS. split; [reflexivity|]. wsimpl.
  split; [exact HbR|]. split; [exact H2|]. split; [rewrite Hend; exact He|].
  split; [reflexivity|]. subst wR wP. wsimpl. rewrite <- !app_assoc. reflexivity.
Qed.

(** ** compute below a node that holds data *)

Lemma cached_above_agree (h h' : list (@DataNode Row)) r ts base :
  cached_above h r ts base ->
  (forall k, (k <= r)%nat -> h' !! k = h !! k) ->
  cached_above h' r ts base.
Proof.
  induction 1 as [r p n pn t base Hr Hp Hlt Ht Hd Hpn Hdp
                 |r p n t ts base Hr Hp Hlt Ht Hd Hc IH]; intros Hag.
  - eapply cached_above_parent; [rewrite Hag by lia; exact Hr | exact Hp | exact Hlt
                                | exact Ht | exact Hd | rewrite Hag by lia; exact Hpn
                                | exact Hdp].
  - eapply cached_above_step; [rewrite Hag by lia; exact Hr | exact Hp | exact Hlt
                              | exact Ht | exact Hd |].
    apply IH. intros k Hk. apply Hag. lia.
Qed.

Lemma cached_above_data (h : list (@DataNode Row)) r ts base :
  cached_above h r ts base -> exists n, h !! r = Some n /\ data n = None.
Proof. inversion 1; subst; eauto. Qed.

(** X24: [compute] stops climbing at the first ancestor that holds a
    table.  On a chain without data below such a node it runs
    [fit_transform] of the transformers below it, top to bottom, each
    once, starting from that table, whatever the date argument.  Nothing
    is loaded from the data source, and no node created after the leaf
    and no facade is touched. *)
Theorem compute_reuses_cached_ancestor ts : forall r base fuel d w,
  cached_above (heap w) r ts base -> (length ts <= fuel)%nat ->
  exists w' n',
    DataNode_compute fuel r d w = Ok tt w' /\
    heap w' !! r = Some n' /\
    data n' = Some (fst (run_chain ts (states w) base)) /\
    states w' = snd (run_chain ts (states w) base) /\
    trace w' = trace w ++ map EvFitTransform (rev ts) /\
    length (heap w') = length (heap w) /\
    (forall k, (r < k)%nat -> heap w' !! k = heap w !! k) /\
    brokers w' = brokers w.
Proof.
  induction ts as [|t ts IH]; intros r base fuel d w Hc Hfuel; [inversion Hc|].
  destruct fuel as [|fuel]; [simpl in Hfuel; lia|]. simpl in Hfuel.
  assert (Hhead : exists n p, heap w !! r = Some n /\ parent n = Some p /\ (p < r)%nat /\
                    transformer n = Some t /\ data n = None).
  { inversion Hc; subst; eauto 10. }
  destruct Hhead as (n & p & Hn & Hp & Hlt & Ht & Hd).
  assert (Hlen : (r < length (heap w))%nat) by (eapply lookup_lt_Some; eassumption).
  simpl DataNode_compute. rewrite (bind_Ok _ _ _ _ _ (get_node_Ok _ _ _ Hn)).
  assert (H1 : exists s1,
             match end_date n with
             | Some _ => ret tt
             | None => put_node r (set_end_date d n)
             end w = Ok tt (with_heap (<[r:=s1]> (heap w)) w) /\
             parent s1 = Some p /\ data s1 = None /\ transformer s1 = Some t).
  { destruct (end_date n) eqn:Ee.
    - exists n. rewrite put_node_same by exact Hn. repeat split; assumption.
    - eexists. split; [reflexivity|]. repeat split; assumption. }
  destruct H1 as (s1 & Hfirst & Hp1 & Hd1 & Ht1).
  rewrite (bind_Ok _ _ _ _ _ Hfirst).
  set (w1 := with_heap (<[r:=s1]> (heap w)) w).
  assert (Hs1 : heap w1 !! r = Some s1) by (apply list_lookup_insert_eq; exact Hlen).
  rewrite (bind_Ok _ _ _ _ _ (get_node_Ok _ _ _ Hs1)). rewrite Hp1.
  (* the parent: it holds the table, or it is computed first *)
  assert (Hpar : exists pn1 w3 pn3 tbl,
             heap w1 !! p = Some pn1 /\
             match data pn1 with
             | None => DataNode_compute fuel p d
             | Some _ => ret tt
             end w1 = Ok tt w3 /\
             heap w3 !! p = Some pn3 /\ data pn3 = Some tbl /\
             tbl = fst (run_chain ts (states w) base) /\
             states w3 = snd (run_chain ts (states w) base) /\
             trace w3 = trace w ++ map EvFitTransform (rev ts) /\
             length (heap w3) = length (heap w1) /\
             (forall k, (p < k)%nat -> heap w3 !! k = heap w1 !! k) /\
             brokers w3 = brokers w).
  { inversion Hc as [r' p' n' pn t' base' Hn' Hp' Hlt' Ht' Hd' Hpn Hdp
                    |r' p' n' t' ts' base' Hn' Hp' Hlt' Ht' Hd' Hcp]; subst.
    - rewrite Hn in Hn'. injection Hn' as <-. rewrite Hp in Hp'. injection Hp' as <-.
      assert (Hpn1 : heap w1 !! p = Some pn).
      { subst w1. wsimpl. rewrite list_lookup_insert_ne by lia. exact Hpn. }
      exists pn, w1, pn, base. split; [exact Hpn1|]. rewrite Hdp.
      split; [reflexivity|]. split; [exact Hpn1|]. split; [reflexivity|].
      simpl. rewrite app_nil_r. repeat split.
    - rewrite Hn in Hn'. injection Hn' as <-. rewrite Hp in Hp'. injection Hp' as <-.
      assert (Hcp1 : cached_above (heap w1) p ts base).
      { eapply cached_above_agree; [exact Hcp|]. intros k Hk. subst w1. wsimpl.
        apply list_lookup_insert_ne. lia. }
      destruct (cached_above_data _ _ _ _ Hcp1) as (pn & Hpn & Hdp).
      destruct (IH p base fuel d w1 Hcp1 ltac:(lia))
        as (w3 & pn3 & Hrun & Hpn3 & Hdata3 & Hst3 & Htr3 & Hlen3 & Habove & Hbr3).
      exists pn, w3, pn3, (fst (run_chain ts (states w) base)).
      split; [exact Hpn|]. rewrite Hdp.
      split; [exact Hrun|]. split; [exact Hpn3|]. split; [exact Hdata3|].
      split; [reflexivity|]. split; [exact Hst3|]. split; [exact Htr3|].
      split; [exact Hlen3|]. split; [exact Habove | exact Hbr3]. }
  destruct Hpar as (pn1 & w3 & pn3 & tbl & Hpn1 & Hrun & Hpn3 & Hdata3 & -> & Hst3 & Htr3
                    & Hlen3 & Habove & Hbr3).
  rewrite (bind_Ok _ _ _ _ _ (get_node_Ok _ _ _ Hpn1)).
  rewrite (bind_Ok _ _ _ _ _ Hrun).
  assert (Hs3 : heap w3 !! r = Some s1) by (rewrite Habove by exact Hlt; exact Hs1).
  rewrite (bind_Ok _ _ _ _ _ (get_node_Ok _ _ _ Hs3)). rewrite Hd1.
  unfold apply_fit_transform.
  rewrite (bind_Ok _ _ _ _ _ (get_node_Ok _ _ _ Hs3)). rewrite Ht1, Hp1.
  simpl attr_of. unfold bind at 1, ret at 1. unfold bind at 1, ret at 1.
  rewrite (bind_Ok _ _ _ _ _ (get_node_Ok _ _ _ Hpn3)). rewrite Hdata3.
  unfold expect_table, bind at 1, ret at 1.
  unfold bind, get_state, log, put_state, get_node, put_node. wsimpl. rewrite Hs3.
  eexists _, _. split; [reflexivity|]. wsimpl.
  assert (Hlen' : (r < length (heap w3))%nat) by (eapply lookup_lt_Some; eassumption).
  split; [apply list_lookup_insert_eq; exact Hlen'|].
  cbn [run_chain fst snd data set_data]. rewrite Hst3.
  split; [reflexivity|]. split; [reflexivity|].
  split.
  { rewrite Htr3. simpl rev. rewrite map_app. simpl map.
    rewrite <- !app_assoc. reflexivity. }
  split; [rewrite length_insert, Hlen3; subst w1; wsimpl; apply length_insert|].
  split; [|exact Hbr3].
  intros k Hk. rewrite list_lookup_insert_ne by lia.
  rewrite Habove by lia. subst w1. wsimpl. apply list_lookup_insert_ne. lia.
Qed.

(** ** Selection, round trip and reload *)

(** [load_model] on a facade whose [end_date] is the stamp [x] of the
    snapshot the scan settles on: the listing has only entries at or
    before [x] ahead of [x], and a later entry or none right after it.
    The call returns; the model takes the first entry of the file and the
    transformers of the chain the entries after it, leaf to root; nothing
    is left to catch up with. *)
Lemma Broker_load_model_at_stamp fuel self w b m x leaf ts files l1 rest st more :
  brokers w !! self = Some b -> model b = Some m -> broker_end_date b = Some x ->
  final_datanode b = Some leaf -> chain (heap w) leaf ts ->
  fs w !! snapshot_dir b (name m) = Some files ->
  map fst files = l1 ++ x :: rest ->
  Forall (fun y => y <= x) l1 ->
  match rest with [] => True | T :: _ => x < T end ->
  find_file x files = Some (st :: more) -> (length ts <= length more)%nat ->
  let b' := scan_broker x (map fst files) b in
  Broker_load_model fuel self false w
  = Ok tt (mkWorld (heap w) (<[self:=b']> (brokers w)) (nodes w) (optimized w)
             (assign ts (take (length ts) more)
                (fun y => if Nat.eqb y m then st else states w y))
             (fs w) (new_candles w)
             (trace w ++ [EvListdir (snapshot_dir b (name m));
                          EvJoblibLoad (snapshot_dir b (name m)) (Some x);
                          EvLoadState m] ++ map EvLoadState ts)) /\
  fit_date b' = Some x /\
  next_cached_model_date b' = Some (match rest with [] => datetime_max | T :: _ => T end) /\
  broker_end_date b' = Some x.
Proof.
  intros Hb Hm He Hleaf Hc Hfiles Hlist Hall Hrest Hfind Hmore b'.
  assert (Hlen : (self < length (brokers w))%nat) by (eapply lookup_lt_Some; eassumption).
  destruct (scan_until_later x l1 None b x rest Hall ltac:(lia) Hrest) as (H1 & H2 & H3).
  rewrite <- Hlist in H1, H2, H3.
  destruct (scan_broker_frame x (map fst files) b) as (_ & Hfin & _ & _ & Hend).
  fold b' in H2, H3, Hfin, Hend.
  split; [|split; [exact H2|split; [exact H3|rewrite Hend; exact He]]].
  rewrite (Broker_load_model_prefix fuel self false w b m x files x _ st more
             Hb Hm He Hfiles H1 H2 H3 Hfind).
  cbn [negb]. fold b'.
  set (wP := mkWorld _ _ _ _ _ _ _ _).
  assert (HbP : brokers wP !! self = Some b')
    by (subst wP; wsimpl; apply list_lookup_insert_eq; exact Hlen).
  rewrite (bind_Ok _ _ _ _ _ (get_broker_Ok _ _ _ HbP)). rewrite Hfin, Hleaf.
  simpl attr_of. unfold bind at 1, ret at 1.
  pose proof (DataNode_load_model_chain _ _ _ Hc wP (take (length ts) more)
                (drop (length ts) more) eq_refl ltac:(rewrite length_take; lia)) as Hload.
  rewrite take_drop in Hload. rewrite (bind_Ok _ _ _ _ _ Hload).
  set (wR := with_states _ _).
  assert (HbR : brokers wR !! self = Some b') by exact HbP.
  unfold catch_up. rewrite (bind_Ok _ _ _ _ _ (get_broker_Ok _ _ _ HbR)).
  rewrite Hend, He, H2. rewrite Z.ltb_irrefl.
  subst wR wP. unfold ret, with_states, with_trace. wsimpl.
  rewrite <- !app_assoc. reflexivity.
Qed.

(** C4: with the snapshots [T1 < T2 < T3] listed in that order,
    [load_model] with [T2 <= end_date < T3] selects [T2] and sets the
    horizon to [T3], and with [T3 <= end_date] it selects [T3] and sets
    the horizon to the maximal timestamp; this is so however the call goes
    on after the selection, by return or by exception.  With
    [end_date = T2] and a file that holds a state for the model and for
    every transformer of the chain the call returns, and these states are
    the ones the objects hold afterwards. *)
Theorem load_model_selection self fuel w b m e T1 T2 T3 c1 c2 c3 :
  closed w -> brokers w !! self = Some b -> model b = Some m ->
  broker_end_date b = Some e ->
  fs w !! snapshot_dir b (name m) = Some [(T1, c1); (T2, c2); (T3, c3)] ->
  T1 < T2 -> T2 < T3 ->
  (T2 <= e < T3 ->
     selects (Broker_load_model fuel self false w) self (snapshot_dir b (name m)) T2 T3) /\
  (T3 <= e ->
     selects (Broker_load_model fuel self false w) self (snapshot_dir b (name m))
       T3 datetime_max) /\
  (e = T2 -> forall leaf ts st more,
     final_datanode b = Some leaf -> chain (heap w) leaf ts ->
     c2 = st :: more -> (length ts <= length more)%nat ->
     exists w' b',
       Broker_load_model fuel self false w = Ok tt w' /\
       brokers w' !! self = Some b' /\
       fit_date b' = Some T2 /\ next_cached_model_date b' = Some T3 /\
       states w' = assign ts (take (length ts) more)
                     (fun y => if Nat.eqb y m then st else states w y)).
Proof.
  intros Hcl Hb Hm He Hfs H12 H23.
  assert (Hsorted : StronglySorted Z.lt (map fst [(T1, c1); (T2, c2); (T3, c3)])).
  { simpl. repeat (constructor; try lia). }
  split; [|split].
  - intros [Hlo Hhi].
    pose proof (load_model_selects_sorted self fuel w b m e _ T2 Hcl Hb Hm He Hfs Hsorted) as H.
    simpl map in H.
    rewrite filter_cons_False, filter_cons_False, filter_cons_True in H by lia.
    apply H; [set_solver | lia |].
    intros y Hy Hlt. set_unfold. lia.
  - intros Hlo.
    pose proof (load_model_selects_sorted self fuel w b m e _ T3 Hcl Hb Hm He Hfs Hsorted) as H.
    simpl map in H.
    rewrite !filter_cons_False, filter_nil in H by lia.
    apply H; [set_solver | lia |].
    intros y Hy Hlt. set_unfold. lia.
  - intros -> leaf ts st more Hleaf Hc -> Hmore.
    assert (Hlen : (self < length (brokers w))%nat) by (eapply lookup_lt_Some; eassumption).
    assert (Hfind : find_file T2 [(T1, c1); (T2, st :: more); (T3, c3)] = Some (st :: more)).
    { unfold find_file. simpl. rewrite decide_False by lia.
      rewrite decide_True by reflexivity. reflexivity. }
    destruct (Broker_load_model_at_stamp fuel self w b m T2 leaf ts _ [T1] [T3] st more
                Hb Hm He Hleaf Hc Hfs eq_refl ltac:(repeat constructor; lia) H23 Hfind Hmore)
      as (Hrun & Hfit & Hhor & _).
    eexists _, _. split; [exact Hrun|]. wsimpl.
    split; [apply list_lookup_insert_eq; exact Hlen|].
    split; [exact Hfit|]. split; [exact Hhor|]. reflexivity.
Qed.

(** C8: for a fitted facade with a pipeline signature whose leaf has the
    parent chain [ts], [save_model] returns and writes, under the fit
    date, the model state followed by the transformer states leaf to
    root.  [load_model] then restores them: on any later store with the
    same graph whose snapshot directory still holds that file, listed
    after entries at or before the fit date only and right before a later
    entry or none (as a chronological listing has it), a facade with the
    same leaf and model and with [end_date] at the fit date loads it,
    returns, and leaves the model and every transformer of the chain at
    the state it had when saved.  The empty signature is left out: its
    snapshot directory is the directory of the model, which the store
    does not describe. *)
Theorem save_then_load_restores fuel self w b m d leaf ts :
  brokers w !! self = Some b -> model b = Some m -> fit_date b = Some d ->
  final_datanode b = Some leaf -> chain (heap w) leaf ts -> (length ts < fuel)%nat ->
  data_name b <> "" ->
  exists w1 files,
    Broker_save_model fuel self w = Ok tt w1 /\
    fs w1 !! snapshot_dir b (name m) = Some files /\
    find_file d files = Some (map (states w) (m :: ts)) /\
    forall fuel2 w2 b2 files2 l1 rest,
      heap w2 = heap w1 ->
      fs w2 !! snapshot_dir b (name m) = Some files2 ->
      find_file d files2 = Some (map (states w) (m :: ts)) ->
      map fst files2 = l1 ++ d :: rest ->
      Forall (fun y => y <= d) l1 ->
      match rest with [] => True | T :: _ => d < T end ->
      brokers w2 !! self = Some b2 ->
      ticker_sign b2 = ticker_sign b -> data_name b2 = data_name b ->
      model b2 = Some m -> final_datanode b2 = Some leaf ->
      broker_end_date b2 = Some d ->
      exists w3,
        Broker_load_model fuel2 self false w2 = Ok tt w3 /\
        (forall x, x ∈ m :: ts -> states w3 x = states w x) /\
        fit_date <$> brokers w3 !! self = Some (Some d) /\
        trace w3 = trace w2 ++ [EvListdir (snapshot_dir b (name m));
                                EvJoblibLoad (snapshot_dir b (name m)) (Some d);
                                EvLoadState m] ++ map EvLoadState ts /\
        heap w3 = heap w2.
Proof.
  intros Hb Hm Hd Hleaf Hc Hfuel _.
  destruct (Broker_save_model_Ok fuel self w b m d leaf ts Hb Hm Hd Hleaf Hc Hfuel)
    as (w1 & files & Hsave & Hh1 & Hb1 & Hs1 & Hfiles & Hfind).
  exists w1, files. split; [exact Hsave|]. split; [exact Hfiles|]. split; [exact Hfind|].
  intros fuel2 w2 b2 files2 l1 rest Hh2 Hfiles2 Hfind2 Hlist Hall Hrest
         Hb2 Htk Hdn Hm2 Hleaf2 He2.
  assert (Hdir : snapshot_dir b2 (name m) = snapshot_dir b (name m))
    by (unfold snapshot_dir; rewrite Htk, Hdn; reflexivity).
  assert (Hlen : (self < length (brokers w2))%nat) by (eapply lookup_lt_Some; eassumption).
  assert (Hc2 : chain (heap w2) leaf ts) by (rewrite Hh2, Hh1; exact Hc).
  rewrite <- Hdir in Hfiles2.
  change (map (states w) (m :: ts)) with (states w m :: map (states w) ts) in Hfind2.
  destruct (Broker_load_model_at_stamp fuel2 self w2 b2 m d leaf ts files2 l1 rest
              (states w m) (map (states w) ts)
              Hb2 Hm2 He2 Hleaf2 Hc2 Hfiles2 Hlist Hall Hrest Hfind2
              ltac:(rewrite length_map; lia))
    as (Hrun & Hfit & _).
  rewrite Hdir in Hrun.
  eexists. split; [exact Hrun|]. wsimpl.
  split; [|split; [|split; reflexivity]].
  - intros x Hx.
    rewrite take_ge by (rewrite length_map; lia).
    destruct (decide (x ∈ ts)) as [Hin|Hout].
    + apply assign_own, Hin.
    + apply elem_of_cons in Hx as [->|Hx]; [|contradiction].
      rewrite assign_other by exact Hout. rewrite Nat.eqb_refl. reflexivity.
  - rewrite list_lookup_insert_eq by exact Hlen. simpl. rewrite Hfit. reflexivity.
Qed.

(** C9: with the horizon [next_cached_model_date] set, [reload_model]
    returns [False] and leaves the store (trace of external calls
    included) as it was when [cur_date] is before the horizon; from the
    horizon on it runs [load_model], returns [True] when that returns and
    ends in its exception when it raises; and it returns [True] in no
    other case.  The load is the one of [load_model]: it selects by the
    [end_date] of the facade, [cur_date] plays no part in it.  On a facade
    whose [end_date] is the stamp of the snapshot the scan settles on, the
    reload returns [True] with the model and the transformers of the
    chain at the states of that snapshot, [fit_date] at its stamp and the
    horizon at the entry listed after it. *)
Theorem reload_model_gate fuel self cur_date w b horizon :
  brokers w !! self = Some b ->
  next_cached_model_date b = Some horizon ->
  (cur_date < horizon -> Broker_reload_model fuel self cur_date w = Ok false w) /\
  (horizon <= cur_date ->
     Broker_reload_model fuel self cur_date w
     = then_true (Broker_load_model fuel self false w)) /\
  (forall w', Broker_reload_model fuel self cur_date w = Ok true w' <->
              horizon <= cur_date /\ Broker_load_model fuel self false w = Ok tt w') /\
  (horizon <= cur_date ->
   forall m x leaf ts files l1 rest st more,
     model b = Some m -> broker_end_date b = Some x ->
     final_datanode b = Some leaf -> chain (heap w) leaf ts ->
     fs w !! snapshot_dir b (name m) = Some files ->
     map fst files = l1 ++ x :: rest ->
     Forall (fun y => y <= x) l1 ->
     match rest with [] => True | T :: _ => x < T end ->
     find_file x files = Some (st :: more) -> (length ts <= length more)%nat ->
     exists w' b',
       Broker_reload_model fuel self cur_date w = Ok true w' /\
       brokers w' !! self = Some b' /\
       fit_date b' = Some x /\ broker_end_date b' = Some x /\
       next_cached_model_date b'
       = Some (match rest with [] => datetime_max | T :: _ => T end) /\
       states w' = assign ts (take (length ts) more)
                     (fun y => if Nat.eqb y m then st else states w y) /\
       heap w' = heap w /\
       trace w' = trace w ++ [EvListdir (snapshot_dir b (name m));
                              EvJoblibLoad (snapshot_dir b (name m)) (Some x);
                              EvLoadState m] ++ map EvLoadState ts).
Proof.
  intros Hb Hn.
  assert (Hlen : (self < length (brokers w))%nat) by (eapply lookup_lt_Some; eassumption).
  unfold Broker_reload_model.
  rewrite (bind_Ok _ _ _ _ _ (get_broker_Ok _ _ _ Hb)). rewrite Hn.
  destruct (Z.leb_spec horizon cur_date) as [Hle|Hlt].
  - assert (Heq : (Broker_load_model fuel self false;; ret true) w
                  = then_true (Broker_load_model fuel self false w)).
    { unfold bind. destruct (Broker_load_model fuel self false w); reflexivity. }
    split; [lia|]. split; [intros _; exact Heq|]. split.
    + intros w'. rewrite Heq.
      destruct (Broker_load_model fuel self false w) as [[] w1|e w1| |]; simpl.
      * split.
        -- intros H. injection H as ->. split; [exact Hle | reflexivity].
        -- intros [_ H]. injection H as ->. reflexivity.
      * split; [discriminate | intros [_ H]; discriminate].
      * split; [discriminate | intros [_ H]; discriminate].
      * split; [discriminate | intros [_ H]; discriminate].
    + intros _ m x leaf ts files l1 rest st more Hm He Hleaf Hc Hfiles Hlist Hall Hrest
             Hfind Hmore.
      destruct (Broker_load_model_at_stamp fuel self w b m x leaf ts files l1 rest st more
                  Hb Hm He Hleaf Hc Hfiles Hlist Hall Hrest Hfind Hmore)
        as (Hrun & Hfit & Hhor & Hend).
      rewrite Heq, Hrun. simpl then_true.
      eexists _, _. split; [reflexivity|]. wsimpl.
      split; [apply list_lookup_insert_eq; exact Hlen|].
      split; [exact Hfit|]. split; [exact Hend|]. split; [exact Hhor|].
      split; [reflexivity|]. split; reflexivity.
  - split; [intros _; reflexivity|]. split; [lia|]. split; [|lia].
    intros w'. unfold ret. split; [discriminate | lia].
Qed.

End Properties.

(** * The concrete instrument *)

Import Demo.

(** C3: the two roots built for SBER and for GAZP have the same (absent)
    transformer, no parent and the same (unset) [end_date]; [__eq__]
    calls them equal, because its third conjunct compares the ticker sign
    of [self] with itself. *)
Theorem eq_ignores_instrument :
  exists w, two_instruments = Ok 1%nat w /\
    ticker <$> heap w !! 0%nat = Some "SBER" /\
    ticker <$> heap w !! 1%nat = Some "GAZP" /\
    DataNode_eq 3 0 1 w = Ok true w.
Proof.
  eexists. split; [vm_compute; reflexivity|].
  repeat split; vm_compute; reflexivity.
Qed.

(** C2: after the optimizer pass over two identical pipelines [A; HMM]
    of one instrument, the nodes [1] and [3] are both reachable from the
    pool, they are two objects, [__eq__] calls them equal, and the two
    facades still end in one of them each. *)
Theorem optimize_keeps_equal_nodes :
  exists w, two_pipelines_optimized = Ok tt w /\
    reachable w "SBER" 1 /\ reachable w "SBER" 3 /\
    DataNode_eq 5 1 3 w = Ok true w /\
    final_datanode <$> brokers w !! 0%nat = Some (Some 1%nat) /\
    final_datanode <$> brokers w !! 1%nat = Some (Some 3%nat).
Proof.
  eexists. split; [vm_compute; reflexivity|].
  assert (Hroot : forall w' : @World Z Z, nodes w' !! "SBER" = Some [0%nat] ->
                                          reachable w' "SBER" 0).
  { intros w' H. eapply reach_pool; [exact H | constructor]. }
  split; [|split].
  - eapply reach_child; [apply Hroot; vm_compute; reflexivity
                        | vm_compute; reflexivity | simpl; repeat constructor].
  - eapply reach_child; [apply Hroot; vm_compute; reflexivity
                        | vm_compute; reflexivity | simpl; repeat constructor].
  - repeat split; vm_compute; reflexivity.
Qed.

(** The same with three identical pipelines: the three leaves [1], [3]
    and [5] hang under the one surviving root and stay pairwise equal. *)
Lemma optimize_keeps_equal_nodes_of_three :
  exists w, three_pipelines_optimized = Ok tt w /\
    nodes w !! "SBER" = Some [0%nat] /\
    children <$> heap w !! 0%nat = Some [1%nat; 3%nat; 5%nat] /\
    DataNode_eq 5 1 3 w = Ok true w /\
    DataNode_eq 5 3 5 w = Ok true w /\
    final_datanode <$> brokers w = [Some 1%nat; Some 3%nat; Some 5%nat].
Proof.
  eexists. split; [vm_compute; reflexivity|].
  repeat split; vm_compute; reflexivity.
Qed.

(** Within one layer the pass does merge every duplicate: three equal
    roots become one, and the three facades end in it. *)
Lemma optimize_merges_equal_roots :
  exists w, three_roots_optimized = Ok tt w /\
    nodes w !! "SBER" = Some [0%nat] /\
    final_datanode <$> brokers w = [Some 0%nat; Some 0%nat; Some 0%nat] /\
    data_broker <$> heap w !! 0%nat = Some [0%nat; 1%nat; 2%nat].
Proof.
  eexists. split; [vm_compute; reflexivity|].
  repeat split; vm_compute; reflexivity.
Qed.

(** C1: the pipeline [A; HMM] computed at 2 holds the rows up to 2 on its
    leaf; [update] through 3 on that leaf raises [TypeError]; a flush
    after it leaves the leaf with the rows up to 2, while the batch
    computation at 3 yields the rows up to 3. *)
Theorem update_breaks_incremental_path :
  exists w w' w'' w3,
    computed_at_2 = Ok (Some [(1, 11); (2, 21)]) w /\
    DataNode_update 1 3 w = Raise "TypeError" w' /\
    Broker_update 0 3 w = Raise "TypeError" w' /\
    updated_then_flushed = Ok tt w'' /\
    data <$> heap w'' !! 1%nat = Some (Some [(1, 11); (2, 21)]) /\
    computed_at_3 = Ok (Some [(1, 11); (2, 21); (3, 31)]) w3 /\
    data <$> heap w3 !! 1%nat = Some (Some [(1, 11); (2, 21); (3, 31)]).
Proof.
  do 4 eexists.
  split; [vm_compute; reflexivity|].
  split; [vm_compute; reflexivity|].
  split; [vm_compute; reflexivity|].
  split; [vm_compute; reflexivity|].
  split; [vm_compute; reflexivity|].
  split; vm_compute; reflexivity.
Qed.

(** C6 fails as stated: on the never-computed root [bare_root] both
    [update] and the flush after it return normally; and on the
    never-computed leaf of a built pipeline the flush raises [ValueError]
    and [update] raises [TypeError]. *)
Lemma update_and_flush_need_no_compute :
  data <$> heap bare_root_world !! 0%nat = Some None /\
  (exists w1 w2,
      DataNode_update 0 3 bare_root_world = Ok [(3, 31)] w1 /\
      DataNode_cache_new_data 0 w1 = Ok tt w2 /\
      data <$> heap w2 !! 0%nat = Some (Some [(3, 31)])) /\
  data <$> heap (built_world []) !! 1%nat = Some None /\
  DataNode_cache_new_data 1 (built_world []) = Raise "ValueError" (built_world []) /\
  (exists w', DataNode_update 1 3 (built_world []) = Raise "TypeError" w').
Proof.
  split; [reflexivity|]. split.
  - do 2 eexists. split; [vm_compute; reflexivity|].
    split; vm_compute; reflexivity.
  - split; [vm_compute; reflexivity|]. split; [vm_compute; reflexivity|].
    eexists. vm_compute. reflexivity.
Qed.

Lemma update_and_flush_before_compute_witness :
  DataNode_cache_new_data 0 bare_root_world = Raise "ValueError" bare_root_world.
Proof.
  apply (proj1 (update_and_flush_before_compute 0%nat 3 bare_root_world bare_root
                  eq_refl eq_refl)).
  reflexivity.
Defined.

(** C5 fails as stated: with an empty snapshot directory [load_model]
    ends in the [TypeError] of [joblib.load(None)], not in a
    [SnapshotNotFound] failure, and it has moved the horizon by then. *)
Lemma load_model_failure_is_TypeError :
  (exists w', Broker_load_model 20 0 false (built_world []) = Raise "TypeError" w' /\
     next_cached_model_date <$> brokers w' !! 0%nat = Some (Some datetime_max)) /\
  next_cached_model_date <$> brokers (built_world []) !! 0%nat = Some None /\
  ~ (exists w', Broker_load_model 20 0 false (built_world []) = Raise "SnapshotNotFound" w').
Proof.
  assert (H : exists w', Broker_load_model 20 0 false (built_world []) = Raise "TypeError" w' /\
     next_cached_model_date <$> brokers w' !! 0%nat = Some (Some datetime_max)).
  { eexists. split; vm_compute; reflexivity. }
  split; [exact H|]. split; [vm_compute; reflexivity|].
  destruct H as (w1 & H1 & _). intros (w2 & H2). rewrite H1 in H2. discriminate.
Qed.

Lemma load_model_without_snapshot_witness :
  exists w', Broker_load_model 20 0 false (built_world [(5, [90; 91])])
             = Raise "TypeError" w'.
Proof.
  eexists.
  apply (load_model_without_snapshot 20 0%nat false (built_world [(5, [90; 91])])
           (mkBroker "SBER" (Some 1%nat) (Some 9%nat) "A" (Some 2) None None None)
           9%nat [(5, [90; 91])] 2).
  - vm_compute. reflexivity.
  - reflexivity.
  - reflexivity.
  - vm_compute. reflexivity.
  - intros f Hf. apply list_elem_of_singleton in Hf. subst f. simpl. lia.
Defined.

Lemma built_world_closed files : closed (built_world files).
Proof.
  split.
  - intros r n p Hr Hp. change (length (heap (built_world files))) with 2%nat.
    destruct r as [|[|r]]; vm_compute in Hr; try discriminate;
      injection Hr as <-; vm_compute in Hp; try discriminate.
    injection Hp as <-. lia.
  - intros b bk r Hb Hr. change (length (heap (built_world files))) with 2%nat.
    destruct b as [|b]; vm_compute in Hb; try discriminate.
    injection Hb as <-. vm_compute in Hr. injection Hr as <-. lia.
Qed.

Lemma compute_idempotent_witness :
  exists w1,
    Broker_compute 20 0 None (built_world []) = Ok (Some [(1, 11); (2, 21)]) w1 /\
    Broker_compute 1 0 None w1 = Ok (Some [(1, 11); (2, 21)]) w1.
Proof.
  assert (H : exists w1, Broker_compute 20 0 None (built_world [])
                         = Ok (Some [(1, 11); (2, 21)]) w1)
    by (eexists; vm_compute; reflexivity).
  destruct H as [w1 H]. exists w1. split; [exact H|].
  exact (proj1 (proj2 (compute_idempotent 20 0 0%nat None (built_world []) _ w1 H))).
Defined.

Lemma compute_ignores_new_date_witness :
  exists w1,
    Broker_compute 20 0 None (built_world []) = Ok (Some [(1, 11); (2, 21)]) w1 /\
    Broker_compute 1 0 (Some 3) w1 = Ok (Some [(1, 11); (2, 21)]) w1.
Proof.
  assert (H : exists w1, Broker_compute 20 0 None (built_world [])
                         = Ok (Some [(1, 11); (2, 21)]) w1)
    by (eexists; vm_compute; reflexivity).
  destruct H as [w1 H]. exists w1. split; [exact H|].
  refine (proj1 (proj2 (compute_ignores_new_date 20 0 0%nat None (Some 3) (built_world [])
                          (mkBroker "SBER" (Some 1%nat) (Some 9%nat) "A"
                                    (Some 2) None None None)
                          _ w1 _ _ H))).
  - vm_compute. reflexivity.
  - simpl. eauto.
Defined.

(** ** Snapshots at the concrete instrument *)

(** C4 fails as stated: the three snapshots at 1, 2 and 5 are in the
    directory, listed as 5, 1, 2.  With end date 2 the scan stops at the
    first entry; no snapshot is selected, [fit_date] stays unset and
    [load_model] ends in the [TypeError] of [joblib.load(None)]. *)
Lemma load_model_needs_chronological_listing :
  fs (built_world unordered_snapshots) !! "/candles/t_invest/SBER/HMM/A/"
  = Some [(5, [90; 91]); (1, [70; 71]); (2, [80; 81])] /\
  broker_end_date <$> brokers (built_world unordered_snapshots) !! 0%nat = Some (Some 2) /\
  (exists w', Broker_load_model 20 0 false (built_world unordered_snapshots)
              = Raise "TypeError" w' /\
     fit_date <$> brokers w' !! 0%nat = Some None /\
     next_cached_model_date <$> brokers w' !! 0%nat = Some (Some 5)) /\
  ~ selects (Broker_load_model 20 0 false (built_world unordered_snapshots)) 0
            "/candles/t_invest/SBER/HMM/A/" 2 5.
Proof.
  assert (H : exists w', Broker_load_model 20 0 false (built_world unordered_snapshots)
              = Raise "TypeError" w' /\
     fit_date <$> brokers w' !! 0%nat = Some None /\
     next_cached_model_date <$> brokers w' !! 0%nat = Some (Some 5)).
  { eexists. split; [vm_compute; reflexivity|]. split; vm_compute; reflexivity. }
  split; [vm_compute; reflexivity|]. split; [vm_compute; reflexivity|].
  split; [exact H|].
  destruct H as (w1 & Hrun & Hfit & _).
  intros (w' & b' & Hf & Hb' & Hfit' & _). rewrite Hrun in Hf. simpl in Hf.
  injection Hf as <-. rewrite Hb' in Hfit. simpl in Hfit. congruence.
Qed.

Lemma load_model_selection_witness :
  selects (Broker_load_model 20 0 false (built_world three_snapshots)) 0
          "/candles/t_invest/SBER/HMM/A/" 2 5 /\
  exists w', Broker_load_model 20 0 false (built_world three_snapshots) = Ok tt w' /\
    fit_date <$> brokers w' !! 0%nat = Some (Some 2) /\
    next_cached_model_date <$> brokers w' !! 0%nat = Some (Some 5) /\
    states w' 9%nat = 80 /\ states w' 1%nat = 81.
Proof.
  assert (Hchain : chain (heap (built_world three_snapshots)) 1 [1%nat]).
  { eapply chain_step with (p := 0%nat);
      [vm_compute; reflexivity | reflexivity | reflexivity |].
    eapply chain_root; [vm_compute; reflexivity | reflexivity]. }
  pose proof (load_model_selection 0%nat 20 (built_world three_snapshots)
                (mkBroker "SBER" (Some 1%nat) (Some 9%nat) "A" (Some 2) None None None)
                9%nat 2 1 2 5 [70; 71] [80; 81] [90; 91]
                (built_world_closed _) ltac:(vm_compute; reflexivity) eq_refl eq_refl
                ltac:(vm_compute; reflexivity) ltac:(lia) ltac:(lia)) as (H1 & _ & H3).
  split; [apply H1; lia|].
  destruct (H3 eq_refl 1%nat [1%nat] 80 [81] eq_refl Hchain eq_refl ltac:(simpl; lia))
    as (w' & b' & Hrun & Hb' & Hfit & Hhor & Hst).
  exists w'. split; [exact Hrun|]. rewrite Hb'. simpl. rewrite Hfit, Hhor, Hst.
  repeat split; reflexivity.
Defined.

(** C8 fails as stated: the fitted facade (fit date 2, end date 2) saves
    into a directory that holds a snapshot at 5 already, and the new file
    is listed after it.  [load_model] meets the later entry first, selects
    nothing and ends in [TypeError]; the model and the transformer are
    not back at the states that were saved. *)
Lemma save_then_load_behind_later_snapshot :
  fit_date <$> brokers (fitted_beside [(5, [90; 91])]) !! 0%nat = Some (Some 2) /\
  broker_end_date <$> brokers (fitted_beside [(5, [90; 91])]) !! 0%nat = Some (Some 2) /\
  states (fitted_beside [(5, [90; 91])]) 9%nat = 100 /\
  states (fitted_beside [(5, [90; 91])]) 1%nat = 1 /\
  exists w1 w3,
    Broker_save_model 5 0 (fitted_beside [(5, [90; 91])]) = Ok tt w1 /\
    fs w1 !! "/candles/t_invest/SBER/HMM/A/" = Some [(5, [90; 91]); (2, [100; 1])] /\
    Broker_load_model 5 0 false (with_states (fun _ => 0) w1) = Raise "TypeError" w3 /\
    states w3 9%nat = 0 /\ states w3 1%nat = 0.
Proof.
  split; [vm_compute; reflexivity|]. split; [vm_compute; reflexivity|].
  split; [vm_compute; reflexivity|]. split; [vm_compute; reflexivity|].
  eexists _, _. split; [vm_compute; reflexivity|].
  split; [vm_compute; reflexivity|].
  split; [vm_compute; reflexivity|].
  split; vm_compute; reflexivity.
Qed.

Lemma save_then_load_restores_witness :
  exists w1 w3,
    Broker_save_model 5 0 (fitted_beside [(1, [70; 71])]) = Ok tt w1 /\
    fs w1 !! "/candles/t_invest/SBER/HMM/A/" = Some [(1, [70; 71]); (2, [100; 1])] /\
    Broker_load_model 5 0 false (with_states (fun _ => 0) w1) = Ok tt w3 /\
    states (fitted_beside [(1, [70; 71])]) 9%nat = 100 /\
    states (fitted_beside [(1, [70; 71])]) 1%nat = 1 /\
    states w3 9%nat = 100 /\ states w3 1%nat = 1.
Proof.
  assert (Hchain : chain (heap (fitted_beside [(1, [70; 71])])) 1 [1%nat]).
  { eapply chain_step with (p := 0%nat);
      [vm_compute; reflexivity | reflexivity | reflexivity |].
    eapply chain_root; [vm_compute; reflexivity | reflexivity]. }
  destruct (save_then_load_restores 5 0%nat (fitted_beside [(1, [70; 71])])
              (mkBroker "SBER" (Some 1%nat) (Some 9%nat) "A" (Some 2) (Some 2) None None)
              9%nat 2 1%nat [1%nat]
              ltac:(vm_compute; reflexivity) eq_refl eq_refl eq_refl Hchain
              ltac:(simpl; lia) ltac:(discriminate))
    as (w1 & files & Hsave & Hfiles & Hfind & Hload).
  pose proof Hsave as Hw1. vm_compute in Hw1. injection Hw1 as Hw1.
  rewrite <- Hw1 in Hfiles. vm_compute in Hfiles. injection Hfiles as <-.
  destruct (Hload 5%nat (with_states (fun _ => 0) w1)
               (mkBroker "SBER" (Some 1%nat) (Some 9%nat) "A" (Some 2) (Some 2) None None)
               [(1, [70; 71]); (2, [100; 1])] [1] [])
    as (w3 & Hl & Hst & _);
    [reflexivity | rewrite <- Hw1; vm_compute; reflexivity | vm_compute; reflexivity
    | reflexivity | repeat constructor; lia | exact I
    | rewrite <- Hw1; vm_compute; reflexivity
    | reflexivity | reflexivity | reflexivity | reflexivity | reflexivity |].
  exists w1, w3. split; [exact Hsave|].
  split; [rewrite <- Hw1; vm_compute; reflexivity|].
  split; [exact Hl|].
  split; [vm_compute; reflexivity|]. split; [vm_compute; reflexivity|].
  split.
  - rewrite (Hst 9%nat) by (left). vm_compute. reflexivity.
  - rewrite (Hst 1%nat) by (right; left). vm_compute. reflexivity.
Defined.

(** C9 fails as stated.  After a [load_model] that found only a snapshot
    later than [end_date], the horizon is 5; [reload_model] at 5 is due
    and ends in the [TypeError] of that load instead of returning [True].
    On a facade that never loaded the horizon is unset and the comparison
    itself raises, whatever the date.  And a reload that does return
    [True] is a [load_model] by [end_date]: at 7, past the snapshot at 5,
    the facade with end date 2 takes the snapshot at 2 again and keeps the
    horizon 5. *)
Lemma reload_model_due_without_true :
  next_cached_model_date <$> brokers starved_world !! 0%nat = Some (Some 5) /\
  (exists w', Broker_reload_model 20 0 5 starved_world = Raise "TypeError" w') /\
  next_cached_model_date <$> brokers (built_world three_snapshots) !! 0%nat = Some None /\
  (forall d, Broker_reload_model 20 0 d (built_world three_snapshots)
             = Raise "TypeError" (built_world three_snapshots)) /\
  next_cached_model_date <$> brokers loaded_world !! 0%nat = Some (Some 5) /\
  (exists w', Broker_reload_model 20 0 7 loaded_world = Ok true w' /\
     fit_date <$> brokers w' !! 0%nat = Some (Some 2) /\
     next_cached_model_date <$> brokers w' !! 0%nat = Some (Some 5) /\
     states w' 9%nat = 80).
Proof.
  split; [vm_compute; reflexivity|].
  split; [eexists; vm_compute; reflexivity|].
  split; [vm_compute; reflexivity|].
  split; [intros d; vm_compute; reflexivity|].
  split; [vm_compute; reflexivity|].
  eexists. split; [vm_compute; reflexivity|].
  repeat split; vm_compute; reflexivity.
Qed.

Lemma reload_model_gate_witness :
  Broker_reload_model 20 0 3 loaded_world = Ok false loaded_world /\
  exists w', Broker_reload_model 20 0 7 (with_states (fun _ => 0) loaded_world) = Ok true w' /\
    states w' 9%nat = 80 /\ states w' 1%nat = 81 /\
    fit_date <$> brokers w' !! 0%nat = Some (Some 2) /\
    next_cached_model_date <$> brokers w' !! 0%nat = Some (Some 5).
Proof.
  assert (Hb : brokers (with_states (fun _ => 0) loaded_world) !! 0%nat
               = Some (mkBroker "SBER" (Some 1%nat) (Some 9%nat) "A"
                                (Some 2) (Some 2) (Some 5) None))
    by (vm_compute; reflexivity).
  assert (Hchain : chain (heap (with_states (fun _ : nat => 0) loaded_world)) 1 [1%nat]).
  { eapply chain_step with (p := 0%nat);
      [vm_compute; reflexivity | reflexivity | reflexivity |].
    eapply chain_root; [vm_compute; reflexivity | reflexivity]. }
  assert (Hfs : fs (with_states (fun _ : nat => 0) loaded_world)
                 !! snapshot_dir (mkBroker "SBER" (Some 1%nat) (Some 9%nat) "A"
                                           (Some 2) (Some 2) (Some 5) None) (name 9%nat)
               = Some three_snapshots)
    by (vm_compute; reflexivity).
  split.
  - apply (proj1 (reload_model_gate 20 0%nat 3 loaded_world
                    (mkBroker "SBER" (Some 1%nat) (Some 9%nat) "A"
                              (Some 2) (Some 2) (Some 5) None) 5 Hb eq_refl)).
    lia.
  - pose proof (reload_model_gate 20 0%nat 7 (with_states (fun _ => 0) loaded_world)
                  (mkBroker "SBER" (Some 1%nat) (Some 9%nat) "A"
                            (Some 2) (Some 2) (Some 5) None) 5 Hb eq_refl)
      as (_ & _ & _ & H4).
    assert (Hle : 5 <= 7) by lia.
    assert (Hall : Forall (fun y => y <= 2) [1]) by (repeat constructor; lia).
    assert (Hnext : 2 < 5) by lia.
    assert (Hfind : find_file 2 three_snapshots = Some [80; 81])
      by (vm_compute; reflexivity).
    assert (Hmore : (length [1%nat] <= length [81])%nat) by (simpl; lia).
    destruct (H4 Hle 9%nat 2 1%nat [1%nat] three_snapshots [1] [5] 80 [81]
                eq_refl eq_refl eq_refl Hchain Hfs eq_refl Hall Hnext Hfind Hmore)
      as (w' & b' & Hrun & Hb' & Hfit & _ & Hhor & Hst & _).
    exists w'. split; [exact Hrun|].
    split; [rewrite Hst; reflexivity|]. split; [rewrite Hst; reflexivity|].
    rewrite Hb'. simpl. rewrite Hfit, Hhor. split; reflexivity.
Defined.

(** ** The further properties at the concrete instrument *)

Lemma make_pipeline_builds_chain_witness :
  exists w', Broker_make_pipeline 0 [1%nat; 2%nat; 9%nat] 2 initialised = Ok tt w' /\
    chain (heap w') 2 [2%nat; 1%nat] /\ length (heap w') = 3%nat.
Proof.
  destruct (make_pipeline_builds_chain 0%nat [1%nat; 2%nat; 9%nat] 2 initialised
              (mkBroker "SBER" None None "" None None None None) [])
    as (w' & leaf & Hmk & Hleaf & Hlen & _ & Hchain & _);
    [vm_compute; reflexivity | vm_compute; reflexivity|].
  vm_compute in Hleaf. subst leaf. exists w'.
  split; [exact Hmk|]. split; [exact Hchain | exact Hlen].
Defined.

Lemma make_pipeline_model_and_name_witness :
  exists w' b', Broker_make_pipeline 0 [1%nat; 2%nat; 9%nat] 2 initialised = Ok tt w' /\
    brokers w' !! 0%nat = Some b' /\ model b' = Some 9%nat /\ data_name b' = "A__B".
Proof.
  destruct (make_pipeline_model_and_name 0%nat [1%nat; 2%nat; 9%nat] 2 initialised
              (mkBroker "SBER" None None "" None None None None) [])
    as (w' & b' & Hmk & Hb' & Hm & _ & Hn & _);
    [vm_compute; reflexivity | vm_compute; reflexivity|].
  exists w', b'. split; [exact Hmk|]. split; [exact Hb'|].
  split; [exact Hm | exact Hn].
Defined.

Lemma pipeline_without_model_witness :
  exists self w1 w2,
    Broker_init "SBER" None empty_world = Ok self w1 /\
    Broker_make_pipeline self [1%nat] 2 w1 = Ok tt w2 /\
    Broker_save_model 5 self w2 = Raise "ValueError" w2.
Proof.
  destruct (pipeline_without_model "SBER" None [1%nat] 2 empty_world)
    as (self & w1 & w2 & Hi & Hmk & _ & Hs & _); [reflexivity|].
  exists self, w1, w2. split; [exact Hi|]. split; [exact Hmk | apply Hs].
Defined.

Lemma update_fails_on_built_pipeline_witness :
  exists w' w'', Broker_make_pipeline 0 [1%nat; 9%nat] 2 initialised = Ok tt w' /\
    Broker_update 0 3 w' = Raise "TypeError" w''.
Proof.
  destruct (update_fails_on_built_pipeline 0%nat [1%nat; 9%nat] 2 3 initialised
              (mkBroker "SBER" None None "" None None None None) [])
    as (w' & w'' & Hmk & Hu & _);
    [vm_compute; reflexivity | vm_compute; reflexivity|].
  exists w', w''. split; [exact Hmk | exact Hu].
Defined.

Lemma DataNode_eq_transitive_witness :
  DataNode_eq 5 1 1 two_optimized = Ok true two_optimized.
Proof.
  apply (DataNode_eq_transitive 5 1%nat 3%nat 1%nat two_optimized two_optimized two_optimized);
    vm_compute; reflexivity.
Defined.

Lemma DataNode_eq_reflexive_witness :
  DataNode_eq 5 1 1 (built_world []) = Ok true (built_world []).
Proof.
  assert (Hchain : chain (heap (built_world [])) 1 [1%nat]).
  { eapply chain_step with (p := 0%nat);
      [vm_compute; reflexivity | reflexivity | reflexivity |].
    eapply chain_root; [vm_compute; reflexivity | reflexivity]. }
  apply (DataNode_eq_reflexive _ 1%nat [1%nat] Hchain 5%nat (built_world []) eq_refl).
  simpl. lia.
Defined.

Lemma built_world_fresh_chain files :
  fresh_chain (heap (built_world files)) 1 [1%nat] "SBER" None.
Proof.
  refine (fresh_chain_step _ 1%nat 0%nat
            (mkNode "SBER" (Some 1%nat) (Some 0%nat) None [] None [] 0 [0%nat] None)
            1%nat [] "SBER" None _ eq_refl _ eq_refl eq_refl _).
  - vm_compute. reflexivity.
  - lia.
  - refine (fresh_chain_root _ 0%nat
              (mkNode "SBER" None None None [1%nat] None [] 0 [] None) _ eq_refl eq_refl).
    vm_compute. reflexivity.
Qed.

Lemma compute_runs_pipeline_witness :
  exists w' n', DataNode_compute 5 1 (Some 2) (built_world []) = Ok tt w' /\
    heap w' !! 1%nat = Some n' /\ data n' = Some [(1, 11); (2, 21)] /\
    trace w' = [EvUploadCandles "SBER"; EvFitTransform 1].
Proof.
  destruct (compute_runs_pipeline [1%nat] 1%nat "SBER" None 5 2 (built_world [])
              (built_world_fresh_chain []))
    as (w' & n' & Hrun & Hn' & Hdata & _ & Htr & _); [simpl; lia|].
  exists w', n'. split; [exact Hrun|]. split; [exact Hn'|].
  split; [exact Hdata | exact Htr].
Defined.

Lemma fit_after_compute_witness :
  exists w', Broker_fit 20 0 (built_world []) = Ok tt w' /\
    fit_date <$> brokers w' !! 0%nat = Some (Some 2).
Proof.
  assert (H : Broker_compute 20 0 None (built_world [])
              = Ok (Some [(1, 11); (2, 21)]) computed_world)
    by (vm_compute; reflexivity).
  destruct (fit_after_compute 20 0%nat (built_world []) _ computed_world H)
    as (t & b & Ht & Hb & Hcase).
  injection Ht as <-. vm_compute in Hb. injection Hb as <-.
  simpl in Hcase. eexists. split; [exact Hcase|]. vm_compute. reflexivity.
Defined.

Lemma update_hands_over_new_batches_witness :
  exists w' n', DataNode_update 0 3 bare_root_world = Ok [(3, 31)] w' /\
    heap w' !! 0%nat = Some n' /\ n_of_new_data_processed n' = 1 /\
    new_data n' = [[(3, 31)]].
Proof.
  destruct (update_hands_over_new_batches 0%nat 3 bare_root_world bare_root 1%nat
              eq_refl eq_refl eq_refl)
    as (w' & n' & Hu & Hn' & Hk & Hnew & _); [simpl; lia|].
  exists w', n'. split; [exact Hu|]. split; [exact Hn'|]. split; [exact Hk | exact Hnew].
Defined.

Lemma cache_new_data_commits_witness :
  DataNode_cache_new_data 0 flushed_bare_root = Ok tt flushed_bare_root.
Proof.
  assert (H : DataNode_cache_new_data 0 updated_bare_root = Ok tt flushed_bare_root)
    by (vm_compute; reflexivity).
  destruct (cache_new_data_commits 0%nat updated_bare_root flushed_bare_root H)
    as (n & n' & _ & _ & _ & _ & _ & _ & _ & _ & Hagain).
  exact Hagain.
Defined.

Lemma update_batches_across_calls_witness :
  exists tbl w1 w2,
    DataNode_update 0 3 bare_root_world = Ok tbl w1 /\
    DataNode_update 0 4 w1 = Ok [] w2.
Proof.
  destruct (proj1 (update_batches_across_calls 0%nat 3 4 bare_root_world bare_root 1%nat
                     eq_refl eq_refl eq_refl))
    as (tbl & w1 & w2 & H1 & H2); [simpl; lia|].
  exists tbl, w1, w2. split; [exact H1 | exact H2].
Defined.

Lemma optimize_only_rewires_witness :
  trace two_optimized = trace two_built /\
  length (heap two_optimized) = length (heap two_built) /\
  _optimize 1 0 two_optimized = Ok tt two_optimized.
Proof.
  assert (H : _optimize 20 0 two_built = Ok tt two_optimized) by (vm_compute; reflexivity).
  destruct (optimize_only_rewires 20 0%nat two_built two_optimized
              (mkBroker "SBER" (Some 1%nat) (Some 9%nat) "A" (Some 2) None None None)
              ltac:(vm_compute; reflexivity) H)
    as (_ & _ & _ & Htr & Hlen & _ & _ & _ & _ & Hagain).
  split; [exact Htr|]. split; [exact Hlen | apply Hagain].
Defined.

Lemma built_world_line files : line (heap (built_world files)) 0 1.
Proof.
  refine (line_next _ 0%nat 1%nat (mkNode "SBER" None None None [1%nat] None [] 0 [] None)
            0%nat _ eq_refl _).
  - vm_compute. reflexivity.
  - refine (line_end _ 1%nat
              (mkNode "SBER" (Some 1%nat) (Some 0%nat) None [] None [] 0 [0%nat] None)
              _ eq_refl).
    vm_compute. reflexivity.
Qed.

Lemma optimize_leaves_lone_pipeline_witness :
  _optimize 20 0 (built_world [])
  = Ok tt (with_optimized (<["SBER":=true]> (optimized (built_world []))) (built_world [])).
Proof.
  apply (optimize_leaves_lone_pipeline 20 0%nat (built_world [])
           (mkBroker "SBER" (Some 1%nat) (Some 9%nat) "A" (Some 2) None None None)
           0%nat 1%nat false).
  - vm_compute. reflexivity.
  - vm_compute. reflexivity.
  - vm_compute. reflexivity.
  - exact (built_world_line []).
  - lia.
Defined.

Lemma fresh_facade_computes_its_pipeline_witness :
  exists self w1 w2 w3,
    Broker_init "SBER" None empty_world = Ok self w1 /\
    Broker_make_pipeline self [1%nat; 2%nat; 9%nat] 3 w1 = Ok tt w2 /\
    Broker_compute 20 self None w2 = Ok (Some [(1, 13); (2, 23); (3, 33)]) w3 /\
    trace w3 = [EvUploadCandles "SBER"; EvFitTransform 1; EvFitTransform 2].
Proof.
  destruct (fresh_facade_computes_its_pipeline "SBER" None [1%nat; 2%nat; 9%nat] 3 None 20
              empty_world)
    as (self & w1 & w2 & w3 & Hi & Hmk & Hc & _ & Htr); [reflexivity | simpl; lia|].
  exists self, w1, w2, w3. split; [exact Hi|]. split; [exact Hmk|].
  split; [exact Hc | exact Htr].
Defined.

Lemma load_model_follows_listing_order_witness :
  selects (Broker_load_model 20 0 false (built_world shuffled_snapshots)) 0
          "/candles/t_invest/SBER/HMM/A/" 1 5.
Proof.
  refine (load_model_follows_listing_order 0%nat 20 (built_world shuffled_snapshots)
            (mkBroker "SBER" (Some 1%nat) (Some 9%nat) "A" (Some 2) None None None)
            9%nat 2 shuffled_snapshots [2] 1 [5]
            (built_world_closed _) _ eq_refl eq_refl _ eq_refl _ _ _).
  - vm_compute. reflexivity.
  - vm_compute. reflexivity.
  - repeat constructor. lia.
  - lia.
  - lia.
Defined.

Lemma load_model_without_directory_witness :
  exists w', Broker_load_model 20 0 false built_bare = Raise "FileNotFoundError" w'.
Proof.
  eexists.
  apply (load_model_without_directory 20 0%nat false built_bare
           (mkBroker "SBER" (Some 1%nat) (Some 9%nat) "A" (Some 2) None None None) 9%nat).
  - vm_compute. reflexivity.
  - reflexivity.
  - vm_compute. reflexivity.
Defined.

Lemma load_model_length_mismatch_witness :
  exists w', DataNode_load_model 1 [] (built_world []) = Raise "IndexError" w'.
Proof.
  assert (Hchain : chain (heap (built_world [])) 1 [1%nat]).
  { eapply chain_step with (p := 0%nat);
      [vm_compute; reflexivity | reflexivity | reflexivity |].
    eapply chain_root; [vm_compute; reflexivity | reflexivity]. }
  eexists.
  apply (proj1 (load_model_length_mismatch _ 1%nat [1%nat] Hchain (built_world []) []
                  eq_refl)).
  simpl. lia.
Defined.

Lemma save_model_before_fit_witness :
  exists w', Broker_save_model 5 0 (built_world []) = Raise "AttributeError" w' /\
    is_Some (fs w' !! "/candles/t_invest/SBER").
Proof.
  destruct (save_model_before_fit 5 0%nat (built_world [])
              (mkBroker "SBER" (Some 1%nat) (Some 9%nat) "A" (Some 2) None None None) 9%nat)
    as (w' & Hs & _ & Hd & _);
    [vm_compute; reflexivity | reflexivity | reflexivity|].
  exists w'. split; [exact Hs | exact Hd].
Defined.

Lemma dedup_layer_merges_equal_roots_witness :
  exists w', dedup_layer 3 "SBER" true 0 [0%nat; 2%nat] [] two_built = Ok [1%nat] w' /\
    nodes w' !! "SBER" = Some [0%nat].
Proof.
  destruct (dedup_layer_merges_equal_roots "SBER" 1 two_built 0%nat
              (mkNode "SBER" None None None [1%nat] None [] 0 [] None)
              [(2%nat, mkNode "SBER" None None None [3%nat] None [] 0 [] None)])
    as (w' & n0' & Hrun & Hpool & _).
  - vm_compute. reflexivity.
  - vm_compute. reflexivity.
  - reflexivity.
  - constructor; [|constructor].
    split; [vm_compute; reflexivity|]. split; [reflexivity|]. split; [reflexivity|].
    split; [reflexivity|]. split; [simpl; lia|].
    split; [|split; [constructor | simpl; lia]].
    constructor; [|constructor].
    split; [lia|]. split; [|vm_compute; lia].
    simpl. intros H. apply list_elem_of_singleton in H. discriminate H.
  - exists w'. split; [exact Hrun | exact Hpool].
Defined.

Lemma load_model_recomputes_witness :
  exists w', Broker_load_model 20 0 true (built_world [(2, [80; 81])]) = Ok tt w' /\
    data <$> heap w' !! 1%nat = Some (Some [(1, 11); (2, 21)]) /\
    states w' 9%nat = 80 /\ states w' 1%nat = 1.
Proof.
  destruct (load_model_recomputes 20 0%nat (built_world [(2, [80; 81])])
              (mkBroker "SBER" (Some 1%nat) (Some 9%nat) "A" (Some 2) None None None)
              9%nat 2 1%nat 0%nat 1%nat [1%nat] "SBER" None false 80 [81])
    as (w' & n' & b' & Hrun & Hn' & Hdata & Hst & _).
  - vm_compute. reflexivity.
  - reflexivity.
  - reflexivity.
  - reflexivity.
  - vm_compute. reflexivity.
  - vm_compute. reflexivity.
  - vm_compute. reflexivity.
  - apply built_world_line.
  - lia.
  - apply built_world_fresh_chain.
  - simpl. lia.
  - exists w'. split; [exact Hrun|]. split; [rewrite Hn'; simpl; rewrite Hdata; reflexivity|].
    rewrite Hst. split; reflexivity.
Defined.

Lemma built_late_chain files : chain (heap (built_late files)) 1 [1%nat].
Proof.
  eapply chain_step with (p := 0%nat);
    [vm_compute; reflexivity | reflexivity | reflexivity |].
  eapply chain_root; [vm_compute; reflexivity | reflexivity].
Qed.

Lemma load_model_cannot_catch_up_witness :
  exists w', Broker_load_model 20 0 false (built_late three_snapshots) = Raise "TypeError" w' /\
    states w' 9%nat = 80 /\ states w' 1%nat = 81.
Proof.
  destruct (load_model_cannot_catch_up 20 0%nat (built_late three_snapshots)
              (mkBroker "SBER" (Some 1%nat) (Some 9%nat) "A" (Some 3) None None None)
              9%nat 3 1%nat [1%nat] three_snapshots [1] 2 [5] 80 [81])
    as (w' & b' & Hrun & _ & _ & _ & Hst & _).
  - vm_compute. reflexivity.
  - reflexivity.
  - reflexivity.
  - reflexivity.
  - apply built_late_chain.
  - discriminate.
  - vm_compute. reflexivity.
  - reflexivity.
  - repeat constructor. lia.
  - lia.
  - lia.
  - vm_compute. reflexivity.
  - simpl. lia.
  - exists w'. split; [exact Hrun|]. rewrite Hst. split; reflexivity.
Defined.

Lemma compute_reuses_cached_ancestor_witness :
  exists w' n', DataNode_compute 5 3 None two_computed = Ok tt w' /\
    heap w' !! 3%nat = Some n' /\ data n' = Some [(1, 11); (2, 21)] /\
    trace w' = trace two_computed ++ [EvFitTransform 1].
Proof.
  assert (Hc : cached_above (heap two_computed) 3 [1%nat] [(1, 10); (2, 20)]).
  { eapply cached_above_parent with (p := 0%nat);
      [vm_compute; reflexivity | reflexivity | lia | reflexivity | reflexivity
      | vm_compute; reflexivity | reflexivity]. }
  destruct (compute_reuses_cached_ancestor [1%nat] 3%nat _ 5 None two_computed Hc)
    as (w' & n' & Hrun & Hn' & Hdata & _ & Htr & _); [simpl; lia|].
  exists w', n'. split; [exact Hrun|]. split; [exact Hn'|].
  split; [exact Hdata | exact Htr].
Defined.
